(** * Coding Mentor: the code-execution harness and the static-analysis pipeline

    A shallow embedding of [app.py] ([execute_python_code],
    [execute_javascript_code], [execute_java_code]) and of
    [code_analyzer.py] ([analyze_python_code] and the helpers it calls).

    The Python functions run child processes and touch the file system, and
    they thread exceptions through nested [try] blocks.  They are embedded
    as computations in a state-and-exception monad over an explicit host:
    the environment (what a child process does, whether a file operation
    fails, what the library parsers return) is a record of functions that
    every definition takes as a parameter, and the state holds the temporary
    files and directories together with a log of every operation issued. *)

From stdpp Require Import gmap strings list fin_maps.
From Stdlib Require Import ZArith NArith QArith Strings.Byte Ascii String.

Local Open Scope list_scope.
Set Warnings "-register-all".

(** ** Text *)

(** A Python [str] is a sequence of code points; [bytes] is a sequence of
    bytes.  The two are different types, as they are in Python 3. *)
Module Text.

Definition pystr := list N.
Definition pybytes := list byte.

(** A string literal of the source. *)
Definition lit (s : string) : pystr :=
  map N_of_ascii (list_ascii_of_string s).

Definition str_eqb (a b : pystr) : bool := bool_decide (a = b).

(** [needle in hay] for two strings: substring test. *)
Fixpoint starts_with (p s : pystr) : bool :=
  match p, s with
  | [], _ => true
  | _ :: _, [] => false
  | a :: p', b :: s' => (a =? b)%N && starts_with p' s'
  end.

Fixpoint contains_sub (needle hay : pystr) : bool :=
  starts_with needle hay ||
  match hay with
  | [] => false
  | _ :: hay' => contains_sub needle hay'
  end.

Section Whitespace.
(** [str.isspace] on a single character, from the Unicode database of the
    interpreter. *)
Variable is_space : N -> bool.

Fixpoint lstrip (s : pystr) : pystr :=
  match s with
  | c :: s' => if is_space c then lstrip s' else s
  | [] => []
  end.

Definition rstrip (s : pystr) : pystr := rev (lstrip (rev s)).

(** [s.strip()] *)
Definition strip (s : pystr) : pystr := rstrip (lstrip s).
End Whitespace.

(** [s.split(sep)] and [s.split(sep, maxsplit)] for a one-character
    separator: [budget] is [None] without [maxsplit]. *)
Fixpoint split_from (sep : N) (budget : option nat) (cur : pystr) (s : pystr)
  : list pystr :=
  match s with
  | [] => [rev cur]
  | c :: s' =>
      if (c =? sep)%N then
        match budget with
        | Some O => [rev cur ++ s]
        | Some (S k) => rev cur :: split_from sep (Some k) [] s'
        | None => rev cur :: split_from sep None [] s'
        end
      else split_from sep budget (c :: cur) s'
  end.

Definition split (sep : N) (budget : option nat) (s : pystr) : list pystr :=
  split_from sep budget [] s.

(** [not xs] for a list. *)
Definition is_empty {A} (xs : list A) : bool :=
  match xs with
  | [] => true
  | _ :: _ => false
  end.

End Text.
Export Text.

(** ** The UTF-8 codec *)

(** The interpreter's codec, as [subprocess] and [bytes.decode] use it with
    [errors='replace'], and as a text file opened with [encoding='utf-8']
    uses it to encode.  The decoder follows the interpreter: a byte that
    cannot start a sequence, or a sequence cut short, becomes one U+FFFD,
    and decoding resumes right after the bytes that were in error. *)
Module Codec.

Local Open Scope N_scope.

Definition replacement_char : N := 0xFFFD.

Definition is_cont (b : N) : bool := (0x80 <=? b) && (b <=? 0xBF).

Inductive step :=
| Scalar (cp : N) (used : nat)
| Malformed (used : nat).

Definition low6 (b : N) : N := N.land b 0x3F.

(** One decoding step on a non-empty input [b0 :: r]. *)
Definition utf8_step (b0 : N) (r : list N) : step :=
  if b0 <? 0x80 then Scalar b0 1
  else if b0 <? 0xC2 then Malformed 1
  else if b0 <? 0xE0 then
    match r with
    | b1 :: _ =>
        if is_cont b1
        then Scalar (N.lor (N.shiftl (N.land b0 0x1F) 6) (low6 b1)) 2
        else Malformed 1
    | [] => Malformed 1
    end
  else if b0 <? 0xF0 then
    match r with
    | b1 :: r1 =>
        if negb (is_cont b1)
           || (if b1 <? 0xA0 then b0 =? 0xE0 else b0 =? 0xED)
        then Malformed 1
        else
          match r1 with
          | b2 :: _ =>
              if is_cont b2
              then Scalar (N.lor (N.shiftl (N.land b0 0x0F) 12)
                             (N.lor (N.shiftl (low6 b1) 6) (low6 b2))) 3
              else Malformed 2
          | [] => Malformed 2
          end
    | [] => Malformed 1
    end
  else if b0 <? 0xF5 then
    match r with
    | b1 :: r1 =>
        if negb (is_cont b1)
           || (if b1 <? 0x90 then b0 =? 0xF0 else b0 =? 0xF4)
        then Malformed 1
        else
          match r1 with
          | b2 :: r2 =>
              if negb (is_cont b2) then Malformed 2
              else
                match r2 with
                | b3 :: _ =>
                    if is_cont b3
                    then Scalar (N.lor (N.shiftl (N.land b0 0x07) 18)
                                   (N.lor (N.shiftl (low6 b1) 12)
                                      (N.lor (N.shiftl (low6 b2) 6) (low6 b3)))) 4
                    else Malformed 3
                | [] => Malformed 3
                end
          | [] => Malformed 2
          end
    | [] => Malformed 1
    end
  else Malformed 1.

(** [skip] counts the bytes of the current sequence still to be passed. *)
Fixpoint decode_from (skip : nat) (bs : list N) : pystr :=
  match bs with
  | [] => []
  | b0 :: r =>
      match skip with
      | S k => decode_from k r
      | O =>
          match utf8_step b0 r with
          | Scalar cp n => cp :: decode_from (pred n) r
          | Malformed n => replacement_char :: decode_from (pred n) r
          end
      end
  end.

(** [b.decode('utf-8', errors='replace')] *)
Definition decode_replace (b : pybytes) : pystr :=
  decode_from 0 (map Byte.to_N b).

(** [errors='strict']: [None] stands for [UnicodeDecodeError]. *)
Fixpoint decode_strict_from (skip : nat) (bs : list N) : option pystr :=
  match bs with
  | [] => Some []
  | b0 :: r =>
      match skip with
      | S k => decode_strict_from k r
      | O =>
          match utf8_step b0 r with
          | Scalar cp n => cons cp <$> decode_strict_from (pred n) r
          | Malformed _ => None
          end
      end
  end.

Definition decode_strict (b : pybytes) : option pystr :=
  decode_strict_from 0 (map Byte.to_N b).

(** A code point that UTF-8 can encode: surrogates cannot be. *)
Definition is_scalar (cp : N) : bool :=
  (cp <? 0xD800) || ((0xDFFF <? cp) && (cp <? 0x110000)).

(** Whether [s.encode('utf-8')] succeeds; it raises [UnicodeEncodeError]
    on a lone surrogate. *)
Definition encodable (s : pystr) : bool := forallb is_scalar s.

Definition to_byte (n : N) : byte :=
  match Byte.of_N n with
  | Some b => b
  | None => x00
  end.

Definition trail (n : N) : N := N.lor 0x80 (N.land n 0x3F).

Definition encode_cp (cp : N) : list N :=
  if cp <? 0x80 then [cp]
  else if cp <? 0x800 then
    [N.lor 0xC0 (N.shiftr cp 6); trail cp]
  else if cp <? 0x10000 then
    [N.lor 0xE0 (N.shiftr cp 12); trail (N.shiftr cp 6); trail cp]
  else
    [N.lor 0xF0 (N.shiftr cp 18); trail (N.shiftr cp 12);
     trail (N.shiftr cp 6); trail cp].

(** [s.encode('utf-8')] on an encodable [s]. *)
Definition encode (s : pystr) : pybytes :=
  map to_byte (flat_map encode_cp s).

End Codec.

(** ** Python values and exceptions *)

Module Py.

(** The exception classes the two modules raise, catch or can meet.  All of
    them derive from [Exception]. *)
Inductive exn_class :=
| TimeoutExpired        (* subprocess.TimeoutExpired *)
| FileNotFoundError
| OSError
| UnicodeDecodeError
| UnicodeEncodeError
| JSONDecodeError       (* json.JSONDecodeError *)
| ValueError
| IndexError
| KeyError
| TypeError
| AttributeError
| SyntaxError
| RuntimeError.

#[global] Instance exn_class_eq_dec : EqDecision exn_class.
Proof. solve_decision. Defined.

(** [issubclass c d] on the classes above. *)
Definition subclass (c d : exn_class) : bool :=
  bool_decide (c = d) ||
  match c, d with
  | FileNotFoundError, OSError => true
  | UnicodeDecodeError, ValueError => true
  | UnicodeEncodeError, ValueError => true
  | JSONDecodeError, ValueError => true
  | _, _ => false
  end.

(** An exception object: its class and [str(e)]. *)
Record exn := Exn { exn_cls : exn_class; exn_str : pystr }.

Definition isinstance (e : exn) (c : exn_class) : bool :=
  subclass (exn_cls e) c.

(** Values whose type is only known at run time: what [json.loads] returns,
    and the [stdout]/[stderr] attributes of a finished process, which are
    [str] in text mode and [bytes] otherwise.  A [float] is held as the
    exact rational it approximates; rounding is not modelled. *)
Inductive pyval :=
| VNone
| VBool (b : bool)
| VInt (z : Z)
| VFloat (q : Q)
| VStr (s : pystr)
| VBytes (b : pybytes)
| VList (l : list pyval)
| VDict (d : list (pystr * pyval)).

(** Truth value of an object, as [if x:] tests it. *)
Definition truthy (v : pyval) : bool :=
  match v with
  | VNone => false
  | VBool b => b
  | VInt z => negb (z =? 0)%Z
  | VFloat q => negb (Qeq_bool q 0)
  | VStr s => negb (bool_decide (s = []))
  | VBytes b => negb (bool_decide (b = []))
  | VList l => match l with [] => false | _ => true end
  | VDict d => match d with [] => false | _ => true end
  end.

(** Outcome of an expression or statement. *)
Inductive res (A : Type) :=
| Ok (a : A)
| Raise (e : exn).
Arguments Ok {A} a.
Arguments Raise {A} e.

Definition alist_get (k : pystr) (d : list (pystr * pyval)) : option pyval :=
  snd <$> List.find (fun kv => str_eqb (fst kv) k) d.

(** [obj.get(key, default)]: a method of [dict] only. *)
Definition py_get (obj : pyval) (key : pystr) (default : pyval) : res pyval :=
  match obj with
  | VDict d => Ok (from_option id default (alist_get key d))
  | _ => Raise (Exn AttributeError (lit "object has no attribute 'get'"))
  end.

(** [key in obj] for a [str] key. *)
Definition py_contains (obj : pyval) (key : pystr) : res bool :=
  match obj with
  | VDict d => Ok (bool_decide (is_Some (alist_get key d)))
  | VList l =>
      Ok (existsb (fun v => match v with VStr s => str_eqb s key | _ => false end) l)
  | VStr s => Ok (contains_sub key s)
  | _ => Raise (Exn TypeError (lit "argument is not iterable"))
  end.

(** [obj[key]] for a [str] key. *)
Definition py_getitem (obj : pyval) (key : pystr) : res pyval :=
  match obj with
  | VDict d =>
      match alist_get key d with
      | Some v => Ok v
      | None => Raise (Exn KeyError key)
      end
  | _ => Raise (Exn TypeError (lit "indices must be integers"))
  end.

(** The elements a [for] loop or a comprehension draws from [obj]. *)
Definition py_iter (obj : pyval) : res (list pyval) :=
  match obj with
  | VList l => Ok l
  | VDict d => Ok (map (fun kv => VStr (fst kv)) d)
  | VStr s => Ok (map (fun c => VStr [c]) s)
  | VBytes b => Ok (map (fun c => VInt (Z.of_N (Byte.to_N c))) b)
  | _ => Raise (Exn TypeError (lit "object is not iterable"))
  end.

(** Numbers: [bool] and [int] are exact, [float] is the third case. *)
Inductive number :=
| NInt (z : Z)
| NFloat (q : Q).

Definition as_number (v : pyval) : option number :=
  match v with
  | VBool b => Some (NInt (if b then 1 else 0))
  | VInt z => Some (NInt z)
  | VFloat q => Some (NFloat q)
  | _ => None
  end.

Definition num_Q (n : number) : Q :=
  match n with NInt z => inject_Z z | NFloat q => q end.

Definition num_val (n : number) : pyval :=
  match n with NInt z => VInt z | NFloat q => VFloat q end.

Definition num_add (a b : number) : number :=
  match a, b with
  | NInt x, NInt y => NInt (x + y)
  | _, _ => NFloat (num_Q a + num_Q b)
  end.

(** [sum(xs)]: starts from the integer [0] and adds from the left. *)
Fixpoint py_sum_from (acc : number) (xs : list pyval) : res number :=
  match xs with
  | [] => Ok acc
  | x :: xs' =>
      match as_number x with
      | Some n => py_sum_from (num_add acc n) xs'
      | None => Raise (Exn TypeError (lit "unsupported operand type(s) for +"))
      end
  end.

Definition py_sum (xs : list pyval) : res number := py_sum_from (NInt 0) xs.

(** [a / b] with [b] a positive length: true division gives a [float]. *)
Definition py_truediv (a : number) (b : nat) : pyval :=
  VFloat (num_Q a / inject_Z (Z.of_nat b)).

(** [max(xs)] on a non-empty list: the first of the largest elements is
    returned as it is.  Only numbers are compared here. *)
Definition num_gt (a b : pyval) : res bool :=
  match as_number a, as_number b with
  | Some x, Some y => Ok (negb (Qle_bool (num_Q x) (num_Q y)))
  | _, _ => Raise (Exn TypeError (lit "'>' not supported between instances"))
  end.

Fixpoint py_max_from (best : pyval) (xs : list pyval) : res pyval :=
  match xs with
  | [] => Ok best
  | x :: xs' =>
      match num_gt x best with
      | Ok true => py_max_from x xs'
      | Ok false => py_max_from best xs'
      | Raise e => Raise e
      end
  end.

Definition py_max (xs : list pyval) : res pyval :=
  match xs with
  | [] => Raise (Exn ValueError (lit "max() arg is an empty sequence"))
  | x :: xs' => py_max_from x xs'
  end.

(** The nodes of a syntax tree, by the class [isinstance] sees. *)
Inductive ast_class :=
| FunctionDef | AsyncFunctionDef | ClassDef
| If | For | AsyncFor | While | Try | TryStar
| OtherNode.

#[global] Instance ast_class_eq_dec : EqDecision ast_class.
Proof. solve_decision. Defined.

Inductive ast := Node (cls : ast_class) (children : list ast).

Definition node_class (n : ast) : ast_class := let 'Node c _ := n in c.
Definition child_nodes (n : ast) : list ast := let 'Node _ cs := n in cs.

End Py.
Export Py.

(** ** The host: child processes, temporary files, library parsers *)

Module Host.

(** What a child process does once [subprocess.run] is called on it:
    either it starts, runs for [elapsed_ms] milliseconds and exits with a
    return code and its two output streams, or the call itself raises
    (the binary is missing, a stream cannot be decoded, ...). *)
Inductive child :=
| Exits (elapsed_ms : N) (returncode : Z) (out err : pybytes)
| CannotRun (e : exn).

(** Every operation the harness issues is logged, in order. *)
Inductive event :=
| Spawn (argv : list pystr) (input : option pyval) (text : bool)
        (timeout : option N)
| CreateTemp (path : pystr)
| OpenWrite (path : pystr)
| WriteText (path : pystr)
| ReadText (path : pystr)
| Exists (path : pystr)
| Unlink (path : pystr)
| Mkdtemp (path : pystr)
| Rmtree (path : pystr).

(** The environment.  The first fields are the library functions and
    constants the source uses and that are not part of the repository; the
    last three
    say what the operating system answers to the operation issued after
    [n] earlier ones. *)
Record Env := {
  is_space : N -> bool;                    (* str.isspace, regex \s *)
  is_word : N -> bool;                     (* regex \w *)
  py_int : pystr -> option Z;              (* int(s), None: ValueError *)
  json_loads : pystr -> option pyval;      (* None: JSONDecodeError *)
  ast_parse : pystr -> res ast;            (* ast.parse *)
  py_repr : pyval -> pystr;                (* str(v) for a v that is no str *)
  sys_executable : pystr;                  (* sys.executable *)
  spawn : nat -> list pystr -> option pyval -> child;
  io_error : nat -> event -> option exn;
  temp_name : nat -> pystr -> pystr
}.

(** Temporary files (path to text), temporary directories, and the log. *)
Record state := State {
  files : gmap pystr pystr;
  dirs : gset pystr;
  log : list event
}.

Definition emit (ev : event) (st : state) : state :=
  State (files st) (dirs st) (log st ++ [ev]).

(** The number of operations issued so far. *)
Definition tick (st : state) : nat := List.length (log st).

Definition with_files (f : gmap pystr pystr) (st : state) : state :=
  State f (dirs st) (log st).

Definition with_dirs (d : gset pystr) (st : state) : state :=
  State (files st) d (log st).

(** Computations over a state [S]: a state transformer that returns or
    raises.  [M] is the instance on the host state; a function of the
    source with a local variable that is assigned inside a [try] block and
    read after it runs on the host state paired with that variable. *)
Definition Mon (S A : Type) : Type := S -> res A * S.

#[global] Instance Mon_ret {S} : MRet (Mon S) := fun A a st => (Ok a, st).

#[global] Instance Mon_bind {S} : MBind (Mon S) := fun A B f m st =>
  match m st with
  | (Ok a, st') => f a st'
  | (Raise e, st') => (Raise e, st')
  end.

Abbreviation M := (Mon state).

Definition raise {S A} (e : exn) : Mon S A := fun st => (Raise e, st).

(** An expression that touches no state. *)
Definition eval {S A} (r : res A) : Mon S A := fun st => (r, st).

(** [try: body except ...: handler].  The handler re-raises what no
    [except] clause matches. *)
Definition try_except {S A} (body : Mon S A) (handler : exn -> Mon S A)
  : Mon S A :=
  fun st =>
    match body st with
    | (Ok a, st') => (Ok a, st')
    | (Raise e, st') => handler e st'
    end.

(** [try: body finally: fin] *)
Definition try_finally {S A} (body : Mon S A) (fin : Mon S unit) : Mon S A :=
  fun st =>
    match body st with
    | (r, st') =>
        match fin st' with
        | (Ok _, st'') => (r, st'')
        | (Raise e, st'') => (Raise e, st'')
        end
    end.

(** [for x in xs: body] *)
Fixpoint for_each {S A} (xs : list A) (body : A -> Mon S unit) : Mon S unit :=
  match xs with
  | [] => mret tt
  | x :: xs' => body x ;; for_each xs' body
  end.

(** A local variable of type [V]: the host computation [m] leaves it
    alone; [get_var], [set_var] read and assign it; [scope v0 m] runs [m]
    with the variable initialised to [v0]. *)
Definition lift {V A} (m : M A) : Mon (V * state) A := fun vs =>
  match m (snd vs) with
  | (r, st') => (r, (fst vs, st'))
  end.

Definition get_var {V} : Mon (V * state) V := fun vs => (Ok (fst vs), vs).

Definition set_var {V} (v : V) : Mon (V * state) unit :=
  fun vs => (Ok tt, (v, snd vs)).

Definition scope {V A} (v0 : V) (m : Mon (V * state) A) : M A := fun st =>
  match m (v0, st) with
  | (r, vs) => (r, snd vs)
  end.

(** [os.path.join(d, name)] for a relative [name]. *)
Definition path_join (d name : pystr) : pystr := d ++ lit "/" ++ name.

Definition inside (d : pystr) (path : pystr) : bool :=
  starts_with (d ++ lit "/") path.

Section Primitives.
Context (E : Env).

(** An operation of the operating system: logged, then it fails as the
    environment says or takes effect. *)
Definition io {A} (ev : event) (act : M A) : M A := fun st =>
  match io_error E (tick st) ev with
  | Some e => (Raise e, emit ev st)
  | None => act (emit ev st)
  end.

Definition exceeds (timeout : option N) (elapsed_ms : N) : bool :=
  match timeout with
  | Some seconds => (seconds * 1000 <? elapsed_ms)%N
  | None => false
  end.

(** A finished process, [subprocess.CompletedProcess]. *)
Record CompletedProcess := Completed {
  returncode : Z;
  stdout : pyval;
  stderr : pyval
}.

(** [subprocess.run(argv, input=input, capture_output=True, timeout=timeout)],
    with [text=True, encoding='utf-8', errors='replace'] when [text] is
    set and [text=False] otherwise. *)
Definition subprocess_run (argv : list pystr) (input : option pyval)
    (text : bool) (timeout : option N) : M CompletedProcess := fun st =>
  let st' := emit (Spawn argv input text timeout) st in
  match spawn E (tick st) argv input with
  | CannotRun e => (Raise e, st')
  | Exits ms rc out err =>
      if exceeds timeout ms
      then (Raise (Exn TimeoutExpired (lit "Command timed out")), st')
      else if text
      then (Ok (Completed rc (VStr (Codec.decode_replace out))
                             (VStr (Codec.decode_replace err))), st')
      else (Ok (Completed rc (VBytes out) (VBytes err)), st')
  end.

(** Writing [text] to an open text file with [encoding='utf-8']. *)
Definition write_text (path : pystr) (text : pystr) : M unit :=
  if Codec.encodable text
  then io (WriteText path)
          (fun st => (Ok tt, with_files (<[path := text]> (files st)) st))
  else raise (Exn UnicodeEncodeError
                (lit "'utf-8' codec can't encode character: surrogates not allowed")).

(** [with tempfile.NamedTemporaryFile(mode='w', suffix=suffix,
    delete=False, encoding='utf-8') as f: f.write(text); name = f.name] *)
Definition named_temporary_file (suffix text : pystr) : M pystr := fun st =>
  let path := temp_name E (tick st) suffix in
  (io (CreateTemp path)
      (fun st1 => (Ok tt, with_files (<[path := []]> (files st1)) st1)) ;;
   write_text path text ;;
   mret path) st.

(** [with open(path, 'w', encoding='utf-8') as f: f.write(text)] *)
Definition open_write (path text : pystr) : M unit :=
  io (OpenWrite path)
     (fun st => (Ok tt, with_files (<[path := []]> (files st)) st)) ;;
  write_text path text.

(** [with open(path, 'r', encoding='utf-8') as f: f.read()] *)
Definition open_read (path : pystr) : M pystr :=
  io (ReadText path) (fun st =>
    match files st !! path with
    | Some text => (Ok text, st)
    | None => (Raise (Exn FileNotFoundError
                        (lit "[Errno 2] No such file or directory")), st)
    end).

(** [os.path.exists(path)] *)
Definition path_exists (path : pystr) : M bool := fun st =>
  (Ok (bool_decide (is_Some (files st !! path))
       || bool_decide (path ∈ dirs st)),
   emit (Exists path) st).

(** [os.unlink(path)] *)
Definition unlink (path : pystr) : M unit :=
  io (Unlink path) (fun st =>
    match files st !! path with
    | Some _ => (Ok tt, with_files (delete path (files st)) st)
    | None => (Raise (Exn FileNotFoundError
                        (lit "[Errno 2] No such file or directory")), st)
    end).

(** [tempfile.mkdtemp()] *)
Definition mkdtemp : M pystr := fun st =>
  let path := temp_name E (tick st) [] in
  (io (Mkdtemp path)
      (fun st1 => (Ok tt, with_dirs ({[path]} ∪ dirs st1) st1)) ;;
   mret path) st.

(** [shutil.rmtree(d)]: the directory goes with all it holds. *)
Definition rmtree (d : pystr) : M unit :=
  io (Rmtree d) (fun st =>
    if bool_decide (d ∈ dirs st)
    then (Ok tt,
          State (filter (fun kv => negb (inside d (fst kv)) = true) (files st))
                (dirs st ∖ {[d]}) (log st))
    else (Raise (Exn FileNotFoundError
                   (lit "[Errno 2] No such file or directory")), st)).

(** [raw.decode('utf-8', errors='replace') if raw else ""] *)
Definition decode_or_empty (raw : pyval) : M pyval :=
  if truthy raw then
    match raw with
    | VBytes b => mret (VStr (Codec.decode_replace b))
    | _ => raise (Exn AttributeError (lit "object has no attribute 'decode'"))
    end
  else mret (VStr []).

End Primitives.

End Host.
Export Host.

(** ** app.py: running the user's code *)

Module App.

(** [re.search(r'public\s+class\s+(\w+)', code)], by backtracking as the
    regex engine does: leftmost match, each [+] greedy. *)
Section Regex.
Context (E : Env).

Fixpoint strip_prefix (p s : pystr) : option pystr :=
  match p, s with
  | [], _ => Some s
  | _ :: _, [] => None
  | a :: p', b :: s' => if (a =? b)%N then strip_prefix p' s' else None
  end.

(** One or more characters of class [cls], as many as possible, then
    [k] on what follows. *)
Fixpoint plus_then {A} (cls : N -> bool) (k : pystr -> option A)
    (s : pystr) : option A :=
  match s with
  | c :: s' =>
      if cls c then
        match plus_then cls k s' with
        | Some r => Some r
        | None => k s'
        end
      else None
  | [] => None
  end.

Fixpoint take_while (cls : N -> bool) (s : pystr) : pystr :=
  match s with
  | c :: s' => if cls c then c :: take_while cls s' else []
  | [] => []
  end.

(** [(\w+)] at the end of the pattern: the longest run, not empty. *)
Definition word_group (s : pystr) : option pystr :=
  match take_while (is_word E) s with
  | [] => None
  | name => Some name
  end.

(** A match that starts at the head of [s]; the result is [group(1)]. *)
Definition match_public_class (s : pystr) : option pystr :=
  rest ← strip_prefix (lit "public") s;
  plus_then (is_space E)
    (fun r1 => r2 ← strip_prefix (lit "class") r1;
               plus_then (is_space E) word_group r2)
    rest.

Fixpoint search_public_class (s : pystr) : option pystr :=
  match match_public_class s with
  | Some name => Some name
  | None =>
      match s with
      | [] => None
      | _ :: s' => search_public_class s'
      end
  end.
End Regex.

Definition timeout_message : pystr :=
  lit "Error: Code execution timed out (10 seconds limit)".

Section Execute.
Context (E : Env).

(** The pattern every child-process call of the module follows:
    [try: r = subprocess.run(..., text=True, encoding='utf-8',
    errors='replace') except UnicodeDecodeError: r = subprocess.run(...,
    text=False)] followed by decoding both streams by hand. *)
Definition run_decoded (argv : list pystr) (timeout : option N)
    : M CompletedProcess :=
  try_except
    (subprocess_run E argv None true timeout)
    (fun e =>
       if isinstance e UnicodeDecodeError then
         raw ← subprocess_run E argv None false timeout;
         out ← decode_or_empty (stdout raw);
         err ← decode_or_empty (stderr raw);
         mret (Completed (returncode raw) out err)
       else raise e).

(** The two [except] clauses that close each of the three functions. *)
Definition report_failure (e : exn) : M (pyval * pyval) :=
  if isinstance e TimeoutExpired
  then mret (VStr [], VStr timeout_message)
  else mret (VStr [], VStr (lit "Error: " ++ exn_str e)).

(** An f-string field: a [str] is taken as it is. *)
Definition format_value (v : pyval) : pystr :=
  match v with
  | VStr s => s
  | _ => py_repr E v
  end.

Definition execute_python_code (code : pystr) : M (pyval * pyval) :=
  try_except
    (temp_file ← named_temporary_file E (lit ".py") code;
     result ← run_decoded [sys_executable E; temp_file] (Some 10%N);
     unlink E temp_file;;
     mret (stdout result, stderr result))
    report_failure.

Definition execute_javascript_code (code : pystr) : M (pyval * pyval) :=
  try_except
    (node_check ← run_decoded [lit "node"; lit "--version"] None;
     if negb (returncode node_check =? 0)%Z
     then mret (VStr [], VStr (lit "Error: Node.js is not installed or not in PATH"))
     else
       temp_file ← named_temporary_file E (lit ".js") code;
       result ← run_decoded [lit "node"; temp_file] (Some 10%N);
       unlink E temp_file;;
       mret (stdout result, stderr result))
    report_failure.

Definition execute_java_code (code : pystr) : M (pyval * pyval) :=
  try_except
    (java_check ← run_decoded [lit "java"; lit "--version"] None;
     if negb (returncode java_check =? 0)%Z
     then mret (VStr [], VStr (lit "Error: Java is not installed or not in PATH"))
     else
       match search_public_class E code with
       | None => mret (VStr [], VStr (lit "Error: No public class found in Java code"))
       | Some class_name =>
           temp_dir ← mkdtemp E;
           let java_file := path_join temp_dir (class_name ++ lit ".java") in
           open_write E java_file code;;
           compile_result ←
             run_decoded [lit "javac"; lit "-encoding"; lit "UTF-8"; java_file]
                         (Some 10%N);
           if negb (returncode compile_result =? 0)%Z
           then mret (VStr [],
                      VStr (lit "Compilation Error: "
                            ++ format_value (stderr compile_result)))
           else
             run_result ←
               run_decoded [lit "java"; lit "-cp"; temp_dir; class_name]
                           (Some 10%N);
             rmtree E temp_dir;;
             mret (stdout run_result, stderr run_result)
       end)
    report_failure.

(** The three languages of the editor, and the dispatch of
    [handle_run_code] on the language tag. *)
Inductive language := Python | JavaScript | Java.

Definition execute (lang : language) (code : pystr) : M (pyval * pyval) :=
  match lang with
  | Python => execute_python_code code
  | JavaScript => execute_javascript_code code
  | Java => execute_java_code code
  end.

End Execute.

End App.

(** ** code_analyzer.py: lint, format check, complexity *)

Module CodeAnalyzer.

(** One entry of [lint_issues]: a dict with these four keys. *)
Record lint_issue := LintIssue {
  line : pyval;
  column : pyval;
  message : pyval;
  code : pyval
}.

(** The dict [analyze_python_code] returns: four fixed keys. *)
Record analysis_results := AnalysisResults {
  lint_issues : list lint_issue;
  formatting_needed : bool;
  formatted_code : pyval;
  complexity : gmap pystr pyval
}.

(** [ast.walk(tree)]: breadth first, from a queue that starts with the
    root; each node taken from the front has its children added at the
    back.  [fuel] bounds the number of nodes taken. *)
Fixpoint walk_queue (fuel : nat) (todo : list ast) : list ast :=
  match fuel with
  | O => []
  | S fuel' =>
      match todo with
      | [] => []
      | n :: rest => n :: walk_queue fuel' (rest ++ child_nodes n)
      end
  end.

Fixpoint ast_size (t : ast) : nat :=
  match t with
  | Node _ cs => S (list_sum (map ast_size cs))
  end.

Definition walk (tree : ast) : list ast := walk_queue (ast_size tree) [tree].

(** [[node for node in ast.walk(tree) if isinstance(node, classes)]] *)
Definition nodes_of (classes : list ast_class) (tree : ast) : list ast :=
  filter (fun n => node_class n ∈ classes) (walk tree).

Section Analyze.
Context (E : Env).

(** A method of [str] or [json.loads] applied to [stdout].  On every path
    of the module [stdout] is a [str] at that point; on anything else the
    call is taken to raise. *)
Definition expect_str (v : pyval) : res pystr :=
  match v with
  | VStr s => Ok s
  | _ => Raise (Exn TypeError (lit "a str is required"))
  end.

Definition loads (v : pyval) : res pyval :=
  match expect_str v with
  | Ok s =>
      match json_loads E s with
      | Some j => Ok j
      | None => Raise (Exn JSONDecodeError (lit "Expecting value"))
      end
  | Raise e => Raise e
  end.

(** The child-process pattern of this module: as in [app.py], except
    that the [UnicodeDecodeError] branch decodes [stdout] by hand and,
    where [both] is set, [stderr] too. *)
Definition run_tool (argv : list pystr) (code : option pystr) (both : bool)
    : M CompletedProcess :=
  try_except
    (subprocess_run E argv (VStr <$> code) true (Some 30%N))
    (fun e =>
       if isinstance e UnicodeDecodeError then
         input ← match code with
                 | Some c =>
                     if Codec.encodable c
                     then mret (Some (VBytes (Codec.encode c)))
                     else raise (Exn UnicodeEncodeError
                                   (lit "'utf-8' codec can't encode character: surrogates not allowed"))
                 | None => mret None
                 end;
         raw ← subprocess_run E argv input false (Some 30%N);
         out ← decode_or_empty (stdout raw);
         err ← (if both then decode_or_empty (stderr raw)
                else mret (stderr raw));
         mret (Completed (returncode raw) out err)
       else raise e).

(** One line of the plain report, [path:line:column:code message]; [None]
    when the line is skipped. *)
Definition parse_flake8_line (ln : pystr) : option lint_issue :=
  if truthy (VStr (strip (is_space E) ln)) then
    let parts := split 58 (Some 3%nat) ln in
    if (4 <=? List.length parts)%nat then
      match parts !! 1%nat, parts !! 2%nat, parts !! 3%nat with
      | Some p1, Some p2, Some p3 =>
          match py_int E p1 with
          | Some line_num =>
              match py_int E p2 with
              | Some col_num =>
                  let body := strip (is_space E) p3 in
                  let message_parts := split 32 (Some 1%nat) body in
                  let code :=
                    match message_parts with
                    | c :: _ => c
                    | [] => []
                    end in
                  let message :=
                    match message_parts with
                    | _ :: m :: _ => m
                    | _ => body
                    end in
                  Some (LintIssue (VInt line_num) (VInt col_num)
                                  (VStr message) (VStr code))
              | None => None
              end
          | None => None
          end
      | _, _, _ => None
      end
    else None
  else None.

Definition parse_flake8_standard_output (output : pystr) : list lint_issue :=
  omap parse_flake8_line (split 10 None (strip (is_space E) output)).

Definition sentinel (text code : pystr) : lint_issue :=
  LintIssue (VInt 0) (VInt 0) (VStr text) (VStr code).

Definition run_flake8_analysis (file_path : pystr) : M (list lint_issue) :=
  scope ([] : list lint_issue)
    (try_except
       (result ← lift (run_tool [lit "flake8"; lit "--format=json"; file_path]
                                None true);
        (if truthy (stdout result) then
           try_except
             (flake8_data ← eval (loads (stdout result));
              items ← eval (py_iter flake8_data);
              for_each items (fun item =>
                l ← eval (py_get item (lit "line_number") (VInt 0));
                c ← eval (py_get item (lit "column_number") (VInt 0));
                m ← eval (py_get item (lit "text") (VStr []));
                k ← eval (py_get item (lit "code") (VStr []));
                issues ← get_var;
                set_var (issues ++ [LintIssue l c m k])))
             (fun e =>
                if isinstance e JSONDecodeError then
                  output ← eval (expect_str (stdout result));
                  set_var (parse_flake8_standard_output output)
                else raise e)
         else mret tt) ;;
        issues ← get_var;
        if is_empty issues && negb (returncode result =? 0)%Z
        then
          result ← lift (run_tool [lit "flake8"; file_path] None false);
          output ← eval (expect_str (stdout result));
          set_var (parse_flake8_standard_output output)
        else mret tt)
       (fun e =>
          issues ← get_var;
          if isinstance e TimeoutExpired then
            set_var (issues ++ [sentinel (lit "Flake8 analysis timed out")
                                         (lit "TIMEOUT")])
          else if isinstance e FileNotFoundError then
            set_var (issues ++ [sentinel
                       (lit "Flake8 not installed. Install with: pip install flake8")
                       (lit "MISSING")])
          else
            set_var (issues ++ [sentinel
                       (lit "Flake8 analysis failed: " ++ exn_str e)
                       (lit "ERROR")])) ;;
     get_var).

(** The tuple is [(formatted_code, formatting_needed)]. *)
Definition run_black_analysis (code : pystr) : M (pyval * bool) :=
  try_except
    (result ← run_tool [lit "black"; lit "--diff"; lit "-"] (Some code) false;
     diff ← eval (expect_str (stdout result));
     let formatting_needed := truthy (VStr (strip (is_space E) diff)) in
     if formatting_needed then
       format_result ← run_tool [lit "black"; lit "-"] (Some code) false;
       let formatted_code :=
         if (returncode format_result =? 0)%Z
         then stdout format_result
         else VStr code in
       mret (formatted_code, formatting_needed)
     else mret (VStr code, formatting_needed))
    (fun e =>
       if isinstance e TimeoutExpired then mret (VStr code, false)
       else if isinstance e FileNotFoundError then mret (VStr code, false)
       else mret (VStr code, false)).

(** [len(obj)] *)
Definition py_len (obj : pyval) : res nat :=
  match obj with
  | VList l => Ok (List.length l)
  | VDict d => Ok (List.length d)
  | VStr s => Ok (List.length s)
  | VBytes b => Ok (List.length b)
  | _ => Raise (Exn TypeError (lit "object has no len()"))
  end.

Fixpoint comprehension (f : pyval -> res pyval) (xs : list pyval)
  : res (list pyval) :=
  match xs with
  | [] => Ok []
  | x :: xs' =>
      match f x with
      | Ok y =>
          match comprehension f xs' with
          | Ok ys => Ok (y :: ys)
          | Raise e => Raise e
          end
      | Raise e => Raise e
      end
  end.

Definition basic_ast_analysis (file_path : pystr) : M (gmap pystr pyval) :=
  try_except
    (code ← open_read E file_path;
     tree ← eval (ast_parse E code);
     let functions := nodes_of [FunctionDef] tree in
     let classes := nodes_of [ClassDef] tree in
     let control_flow := nodes_of [If; For; While; Try] tree in
     mret (<[lit "function_count" := VInt (Z.of_nat (List.length functions))]>
           (<[lit "class_count" := VInt (Z.of_nat (List.length classes))]>
           (<[lit "control_flow_count" :=
                VInt (Z.of_nat (List.length control_flow))]>
           (<[lit "estimated_complexity" :=
                VInt (Z.of_nat (List.length control_flow)
                      + Z.of_nat (List.length functions))]>
           (<[lit "analysis_type" := VStr (lit "basic_ast")]> ∅))))))
    (fun e =>
       mret (<[lit "error" :=
                 VStr (lit "Basic AST analysis failed: " ++ exn_str e)]> ∅)).

(** The [try] block of [run_radon_analysis], in its two halves; the local
    variable is [complexity_data].  First half: cyclomatic complexity. *)
Definition radon_cc_step (file_path : pystr)
    : Mon (gmap pystr pyval * state) unit :=
  cc_result ← lift (run_tool [lit "radon"; lit "cc"; lit "-j"; file_path]
                             None false);
  if (returncode cc_result =? 0)%Z && truthy (stdout cc_result) then
    try_except
      (cc_data ← eval (loads (stdout cc_result));
       present ← eval (py_contains cc_data file_path);
       if (present : bool) then
         functions ← eval (py_getitem cc_data file_path);
         if truthy functions then
           funcs ← eval (py_iter functions);
           complexities ←
             eval (comprehension
                     (fun func => py_get func (lit "complexity") (VInt 0))
                     funcs);
           average ← (if is_empty complexities then mret (VInt 0)
                      else total ← eval (py_sum complexities);
                           mret (py_truediv total (List.length complexities)));
           complexity_data ← get_var;
           set_var (<[lit "complexity" := average]> complexity_data) ;;
           largest ← (if is_empty complexities then mret (VInt 0)
                      else eval (py_max complexities));
           complexity_data ← get_var;
           set_var (<[lit "max_complexity" := largest]> complexity_data) ;;
           count ← eval (py_len functions);
           complexity_data ← get_var;
           set_var (<[lit "function_count" := VInt (Z.of_nat count)]>
                      complexity_data)
         else mret tt
       else mret tt)
      (fun e => if isinstance e JSONDecodeError then mret tt else raise e)
  else mret tt.

(** Second half: maintainability index. *)
Definition radon_mi_step (file_path : pystr)
    : Mon (gmap pystr pyval * state) unit :=
  mi_result ← lift (run_tool [lit "radon"; lit "mi"; lit "-j"; file_path]
                             None false);
  if (returncode mi_result =? 0)%Z && truthy (stdout mi_result) then
    try_except
      (mi_data ← eval (loads (stdout mi_result));
       present ← eval (py_contains mi_data file_path);
       if (present : bool) then
         entry ← eval (py_getitem mi_data file_path);
         mi ← eval (py_get entry (lit "mi") (VInt 0));
         complexity_data ← get_var;
         set_var (<[lit "maintainability" := mi]> complexity_data)
       else mret tt)
      (fun e => if isinstance e JSONDecodeError then mret tt else raise e)
  else mret tt.

Definition radon_block (file_path : pystr)
    : Mon (gmap pystr pyval * state) unit :=
  radon_cc_step file_path ;; radon_mi_step file_path.

Definition set_error (text : pystr) : Mon (gmap pystr pyval * state) unit :=
  complexity_data ← get_var;
  set_var (<[lit "error" := VStr text]> complexity_data).

Definition run_radon_analysis (file_path : pystr) : M (gmap pystr pyval) :=
  scope (∅ : gmap pystr pyval)
    (try_except
       (radon_block file_path)
       (fun e =>
          if isinstance e TimeoutExpired then
            set_error (lit "Radon analysis timed out")
          else if isinstance e FileNotFoundError then
            set_error (lit "Radon not installed. Install with: pip install radon")
          else
            set_error (lit "Radon analysis failed: " ++ exn_str e)) ;;
     complexity_data ← get_var;
     (if bool_decide (complexity_data = ∅)
         || bool_decide (is_Some (complexity_data !! lit "error"))
      then
        try_except
          (basic ← lift (basic_ast_analysis file_path);
           complexity_data ← get_var;
           set_var (basic ∪ complexity_data))
          (fun _ => mret tt)
      else mret tt) ;;
     get_var).

Definition analyze_python_code (code : pystr) : M analysis_results :=
  temp_file_path ← named_temporary_file E (lit ".py") code;
  try_finally
    (issues ← run_flake8_analysis temp_file_path;
     '(formatted, needed) ← run_black_analysis code;
     complexity_data ← run_radon_analysis temp_file_path;
     mret (AnalysisResults issues needed formatted complexity_data))
    (present ← path_exists temp_file_path;
     if (present : bool) then unlink E temp_file_path else mret tt).

(** [check_dependencies]: one version probe per tool, under a 5-second
    timeout; the local variable is [tools].  The raw-bytes rerun after a
    [UnicodeDecodeError] decodes nothing: only the return code is read. *)
Definition check_dependencies : M (gmap pystr bool) :=
  scope (∅ : gmap pystr bool)
    (for_each [lit "flake8"; lit "black"; lit "radon"] (fun tool =>
       try_except
         (result ← lift
            (try_except
               (subprocess_run E [tool; lit "--version"] None true (Some 5%N))
               (fun e =>
                  if isinstance e UnicodeDecodeError
                  then subprocess_run E [tool; lit "--version"] None false
                                      (Some 5%N)
                  else raise e));
          tools ← get_var;
          set_var (<[tool := (returncode result =? 0)%Z]> tools))
         (fun e =>
            if isinstance e TimeoutExpired || isinstance e FileNotFoundError
            then tools ← get_var; set_var (<[tool := false]> tools)
            else raise e)) ;;
     get_var).

End Analyze.

End CodeAnalyzer.

(** ** app.py: the two button handlers around the runners and the analysis *)

Module Handlers.

(** What the page shows: [st.error], [st.warning], [st.success]. *)
Inductive banner :=
| ShowError (text : pystr)
| ShowWarning (text : pystr)
| ShowSuccess (text : pystr).

(** The fields of [st.session_state] the two handlers assign, and the
    banners shown so far.  The first three start as [None]. *)
Record session := Session {
  execution_output : option pyval;
  execution_error : option pyval;
  analysis : option CodeAnalyzer.analysis_results;
  banners : list banner
}.

Definition show (b : banner) : Mon (session * state) unit := fun ss =>
  let s := fst ss in
  (Ok tt,
   (Session (execution_output s) (execution_error s) (analysis s)
            (banners s ++ [b]),
    snd ss)).

Definition set_execution_output (v : pyval) : Mon (session * state) unit :=
  fun ss =>
    let s := fst ss in
    (Ok tt, (Session (Some v) (execution_error s) (analysis s) (banners s),
             snd ss)).

Definition set_execution_error (v : pyval) : Mon (session * state) unit :=
  fun ss =>
    let s := fst ss in
    (Ok tt, (Session (execution_output s) (Some v) (analysis s) (banners s),
             snd ss)).

Definition set_analysis (r : CodeAnalyzer.analysis_results)
  : Mon (session * state) unit :=
  fun ss =>
    let s := fst ss in
    (Ok tt, (Session (execution_output s) (execution_error s) (Some r)
                     (banners s),
             snd ss)).

Section Buttons.
Context (E : Env).

(** [if not code.strip():] *)
Definition blank (code : pystr) : bool :=
  negb (truthy (VStr (strip (is_space E) code))).

(** The statements of [handle_run_code] that follow a runner's call. *)
Definition record_run (run : M (pyval * pyval)) : Mon (session * state) unit :=
  '(output, error) ← lift run;
  set_execution_output output ;;
  set_execution_error error ;;
  if truthy error
  then show (ShowError (lit "Code execution completed with errors."))
  else show (ShowSuccess (lit "Code executed successfully!")).

Definition handle_run_code (code language : pystr)
  : Mon (session * state) unit :=
  if blank code then show (ShowError (lit "Please enter some code to run."))
  else
    try_except
      (if str_eqb language (lit "python")
       then record_run (App.execute_python_code E code)
       else if str_eqb language (lit "javascript")
       then record_run (App.execute_javascript_code E code)
       else if str_eqb language (lit "java")
       then record_run (App.execute_java_code E code)
       else show (ShowError (lit "Code execution not supported for " ++ language)))
      (fun e =>
         show (ShowError (lit "Execution failed: " ++ exn_str e)) ;;
         set_execution_error (VStr (exn_str e))).

Definition handle_analyze_code (code language : pystr)
  : Mon (session * state) unit :=
  if blank code then show (ShowError (lit "Please enter some code to analyze."))
  else if negb (str_eqb language (lit "python"))
  then show (ShowWarning
               (lit "Code analysis is currently only available for Python."))
  else
    try_except
      (results ← lift (CodeAnalyzer.analyze_python_code E code);
       set_analysis results ;;
       show (ShowSuccess (lit "Code analysis completed!")))
      (fun e => show (ShowError (lit "Analysis failed: " ++ exn_str e))).

End Buttons.

End Handlers.

(** ** utils.py: text helpers *)

Module Utils.

(** [text[:stop]]: a negative [stop] counts from the end. *)
Definition slice_to (stop : Z) (text : pystr) : pystr :=
  if (stop <? 0)%Z
  then take (Z.to_nat (Z.of_nat (List.length text) + stop)) text
  else take (Z.to_nat stop) text.

Definition truncate_text (text : pystr) (max_length : Z) : pystr :=
  if (Z.of_nat (List.length text) <=? max_length)%Z then text
  else slice_to (max_length - 3) text ++ lit "...".

(** The dict [get_code_statistics] returns: four fixed keys. *)
Record statistics := Statistics {
  total_lines : nat;
  non_empty_lines : nat;
  comment_lines : nat;
  character_count : nat
}.

Section Statistics.
Context (E : Env).

Definition get_code_statistics (code : pystr) : statistics :=
  if negb (truthy (VStr code)) then Statistics 0 0 0 0
  else
    let lines := split 10 None code in
    Statistics
      (List.length lines)
      (List.length
         (filter (fun ln => truthy (VStr (strip (is_space E) ln)) = true) lines))
      (List.length
         (filter (fun ln => starts_with (lit "#") (strip (is_space E) ln) = true)
                 lines))
      (List.length code).

End Statistics.

End Utils.

(** ** Sample hosts *)

(** Concrete environments and inputs, on which the definitions above are
    evaluated. *)
Module Fixtures.

Definition ascii_space (c : N) : bool :=
  bool_decide (c ∈ [9; 10; 11; 12; 13; 28; 29; 30; 31; 32]%N).

Definition ascii_word (c : N) : bool :=
  ((48 <=? c) && (c <=? 57) || (65 <=? c) && (c <=? 90)
   || (97 <=? c) && (c <=? 122) || (c =? 95))%N.

(** Temporary names: [/tmp/tmp<n><suffix>], [n] the number of operations
    issued before. *)
Definition tmp (n : nat) (suffix : pystr) : pystr :=
  lit "/tmp/tmp" ++ [(48 + N.of_nat n)%N] ++ suffix.

(** A host given by what its child processes do, which file operations
    fail, and what the JSON and syntax parsers return. *)
Definition host_of (children : nat -> list pystr -> option pyval -> child)
    (failing : nat -> event -> option exn)
    (json : pystr -> option pyval) (parse : pystr -> res ast) : Env :=
  {| is_space := ascii_space;
     is_word := ascii_word;
     py_int := fun _ => None;
     json_loads := json;
     ast_parse := parse;
     py_repr := fun _ => lit "<object>";
     sys_executable := lit "/usr/bin/python3";
     spawn := children;
     io_error := failing;
     temp_name := tmp |}.

Definition no_failure : nat -> event -> option exn := fun _ _ => None.
Definition no_json : pystr -> option pyval := fun _ => None.
Definition no_parse : pystr -> res ast :=
  fun _ => Raise (Exn SyntaxError (lit "invalid syntax")).

(** A source with two functions, one class, and one each of [if], [for],
    [while] and [try], and its syntax tree. *)
Definition sample : pystr := lit
"def f(x):
    if x:
        for i in x:
            pass
class C:
    def g(self):
        while True:
            try:
                pass
            except E:
                pass
".

Definition leaf : ast := Node OtherNode [].

Definition sample_tree : ast :=
  Node OtherNode
    [Node FunctionDef
       [leaf; Node If [leaf; Node For [leaf; leaf; leaf]]];
     Node ClassDef
       [Node FunctionDef
          [leaf;
           Node While [leaf; Node Try [leaf; Node OtherNode [leaf; leaf]]]]]].

(** A source that is not Python. *)
Definition unparsable : pystr := lit "def f(:".

(** The parser on the sources used here; anything else is taken to be a
    syntax error. *)
Definition parse_known (code : pystr) : res ast :=
  if str_eqb code sample then Ok sample_tree
  else if str_eqb code (lit "print('x')") then Ok (Node OtherNode [Node OtherNode [leaf]])
  else if str_eqb code (lit "x = 1") then Ok (Node OtherNode [Node OtherNode [leaf; leaf]])
  else Raise (Exn SyntaxError (lit "invalid syntax")).

Definition missing (tool : string) : child :=
  CannotRun (Exn FileNotFoundError
               (lit "[Errno 2] No such file or directory: '" ++ lit tool ++ lit "'")).

(** Nothing has happened yet. *)
Definition st0 : state := State ∅ ∅ [].

(** A program that loops for ever: the interpreter is still running after
    eleven seconds. *)
Definition looping : pystr := lit "while True: pass".

Definition slow_host : Env :=
  host_of (fun _ _ _ => Exits 11000 0 [] []) no_failure no_json no_parse.

(** No tool at all is installed. *)
Definition bare_host : Env :=
  host_of (fun _ argv _ => missing "tool") no_failure no_json parse_known.

(** Creating a temporary file fails: the disk is full. *)
Definition full_disk : Env :=
  host_of (fun _ _ _ => missing "tool")
          (fun _ ev => match ev with
                       | CreateTemp _ =>
                           Some (Exn OSError (lit "[Errno 28] No space left on device"))
                       | _ => None
                       end)
          no_json no_parse.

Definition hello : pystr := lit "print('x')".

(** The bytes of an ASCII text, as a child process writes them. *)
Definition bytes_of (s : string) : pybytes :=
  map byte_of_ascii (list_ascii_of_string s).

(** Node.js is not installed. *)
Definition no_node : Env :=
  host_of (fun _ _ _ => missing "node") no_failure no_json no_parse.

Definition hello_js : pystr := lit "console.log('x');".

(** A Java toolchain: [java --version] succeeds, [javac] rejects the
    source, and a class that is run prints [x]. *)
Definition java_toolchain (n : nat) (argv : list pystr) (input : option pyval)
  : child :=
  match argv with
  | tool :: _ =>
      if str_eqb tool (lit "javac")
      then Exits 900 1 [] (bytes_of "Main.java:1: error: illegal start of expression")
      else if is_empty (List.tail argv) then missing "java"
      else if str_eqb (List.hd [] (List.tail argv)) (lit "--version")
      then Exits 80 0 (bytes_of "openjdk 21") []
      else Exits 300 0 (bytes_of "x") []
  | [] => missing ""
  end.

Definition java_host : Env :=
  host_of java_toolchain no_failure no_json no_parse.

Definition java_broken : pystr :=
  lit "public class Main { public static void main(String[] a) { int x = ; } }".

Definition java_no_public_class : pystr :=
  lit "class Main { public static void main(String[] a) { } }".

(** An interpreter whose program writes a byte that is not UTF-8. *)
Definition latin1_host : Env :=
  host_of (fun _ _ _ => Exits 40 0 [x63; x61; x66; xe9] []) no_failure
          no_json no_parse.

(** The same, where the text-mode call raises [UnicodeDecodeError] and only
    the call for raw bytes goes through. *)
Definition undecodable_host : Env :=
  host_of (fun n _ _ =>
             match n with
             | 2%nat => CannotRun (Exn UnicodeDecodeError
                                     (lit "'utf-8' codec can't decode byte 0xe9"))
             | _ => Exits 40 0 [x63; x61; x66; xe9] []
             end)
          no_failure no_json no_parse.

(** The state in which [code] sits in the temporary file of an analysis. *)
Definition analysing (E : Env) (code : pystr) : state :=
  snd (named_temporary_file E (lit ".py") code st0).

Definition temp_py : pystr := tmp 0 (lit ".py").

(** What [radon] prints (written here with ['] where the tool prints a
    double quote), and what [json.loads] makes of it. *)
Definition cc_two : string :=
  "{'/tmp/tmp0.py': [{'name': 'f', 'complexity': 3}, {'name': 'g', 'complexity': 5}]}".
Definition cc_none : string := "{'/tmp/tmp0.py': []}".
Definition mi_report : string := "{'/tmp/tmp0.py': {'mi': 100.0, 'rank': 'A'}}".

Definition json_known (text : pystr) : option pyval :=
  if str_eqb text (lit cc_two) then
    Some (VDict [(temp_py,
                  VList [VDict [(lit "name", VStr (lit "f"));
                                (lit "complexity", VInt 3)];
                         VDict [(lit "name", VStr (lit "g"));
                                (lit "complexity", VInt 5)]])])
  else if str_eqb text (lit cc_none) then Some (VDict [(temp_py, VList [])])
  else if str_eqb text (lit mi_report) then
    Some (VDict [(temp_py, VDict [(lit "mi", VFloat 100);
                                  (lit "rank", VStr (lit "A"))])])
  else None.

(** All three tools are installed; [flake8] and [black] have nothing to
    say, [radon cc] prints [cc_out]. *)
Definition tools (cc_out : string) (n : nat) (argv : list pystr)
    (input : option pyval) : child :=
  match argv with
  | tool :: sub :: _ =>
      if str_eqb tool (lit "radon") then
        if str_eqb sub (lit "cc") then Exits 200 0 (bytes_of cc_out) []
        else Exits 200 0 (bytes_of mi_report) []
      else Exits 100 0 [] []
  | _ => Exits 100 0 [] []
  end.

Definition radon_host : Env :=
  host_of (tools cc_two) no_failure json_known parse_known.

Definition radon_empty_host : Env :=
  host_of (tools cc_none) no_failure json_known parse_known.

Definition no_functions : pystr := lit "x = 1".

(** [black] finds something to change; asked for the formatted text, it
    prints it, exits with code [code], or, on [slow_black], hangs. *)
Definition black_diff : string := "--- STDIN +++ STDOUT @@ -1 +1 @@ -x=1 +x = 1".

Definition black_runs (code : Z) (elapsed : N) (n : nat) (argv : list pystr)
    (input : option pyval) : child :=
  match n with
  | O => Exits 150 0 (bytes_of black_diff) []
  | _ => Exits elapsed code (bytes_of "x = 1") []
  end.

Definition black_host (code : Z) (elapsed : N) : Env :=
  host_of (black_runs code elapsed) no_failure no_json parse_known.

Definition unformatted : pystr := lit "x=1".

(** Every tool is still running after thirty-one seconds. *)
Definition stalled_host : Env :=
  host_of (fun _ _ _ => Exits 31000 0 [] []) no_failure no_json parse_known.

(** No tool may be executed. *)
Definition denied : exn := Exn OSError (lit "[Errno 13] Permission denied").

Definition denied_host : Env :=
  host_of (fun _ _ _ => CannotRun denied) no_failure no_json parse_known.

(** What [flake8] prints with the JSON formatter and without it, and what
    [json.loads] makes of the former. *)
Definition lint_json : string := "[{'code': 'E225', 'line_number': 1, 'text': 'missing whitespace'}, 7]".

Definition lint_items : list pyval :=
  [VDict [(lit "code", VStr (lit "E225")); (lit "line_number", VInt 1);
          (lit "text", VStr (lit "missing whitespace"))];
   VInt 7].

Definition lint_text : string := "/tmp/tmp0.py:1:2: E225 missing whitespace".

Definition lint_loads (text : pystr) : option pyval :=
  if str_eqb text (lit lint_json) then Some (VList lint_items)
  else if str_eqb text (lit "[]") then Some (VList [])
  else None.

(** [int] on the numerals used here. *)
Definition small_int (text : pystr) : option Z :=
  match text with
  | [d] => if ((48 <=? d) && (d <=? 57))%N then Some (Z.of_N d - 48)%Z else None
  | _ => None
  end.

Definition lint_host (report : string) (code : Z) : Env :=
  {| is_space := ascii_space;
     is_word := ascii_word;
     py_int := small_int;
     json_loads := lint_loads;
     ast_parse := parse_known;
     py_repr := fun _ => lit "<object>";
     sys_executable := lit "/usr/bin/python3";
     spawn := fun n _ _ =>
                match n with
                | O => Exits 120 code (bytes_of report) []
                | _ => Exits 120 code (bytes_of lint_text) []
                end;
     io_error := no_failure;
     temp_name := tmp |}.

(** What [radon cc] prints for a file it cannot parse, and for [sample]
    (it lists the class beside the two functions). *)
Definition cc_unreadable : string :=
  "{'/tmp/tmp0.py': {'error': 'invalid syntax (<unknown>, line 1)'}}".
Definition cc_three : string :=
  "{'/tmp/tmp0.py': [{'name': 'f', 'complexity': 3}, {'name': 'C', 'complexity': 4}, {'name': 'g', 'complexity': 3}]}".

Definition listing_three : list pyval :=
  [VDict [(lit "name", VStr (lit "f")); (lit "complexity", VInt 3)];
   VDict [(lit "name", VStr (lit "C")); (lit "complexity", VInt 4)];
   VDict [(lit "name", VStr (lit "g")); (lit "complexity", VInt 3)]].

Definition unreadable_entry : list (pystr * pyval) :=
  [(lit "error", VStr (lit "invalid syntax (<unknown>, line 1)"))].

Definition json_more (text : pystr) : option pyval :=
  if str_eqb text (lit cc_unreadable) then
    Some (VDict [(temp_py, VDict unreadable_entry)])
  else if str_eqb text (lit cc_three) then
    Some (VDict [(temp_py, VList listing_three)])
  else json_known text.

Definition radon_unreadable_host : Env :=
  host_of (tools cc_unreadable) no_failure json_more parse_known.

(** [radon cc] lists [sample]; [radon mi] is still running after
    thirty-one seconds. *)
Definition tools_then_stall (n : nat) (argv : list pystr)
    (input : option pyval) : child :=
  match argv with
  | tool :: sub :: _ =>
      if str_eqb tool (lit "radon") && str_eqb sub (lit "mi")
      then Exits 31000 0 [] []
      else tools cc_three n argv input
  | _ => tools cc_three n argv input
  end.

Definition radon_half_host : Env :=
  host_of tools_then_stall no_failure json_more parse_known.

(** Every tool stops at once with exit code 1 and a message on its error
    stream. *)
Definition crashing_host : Env :=
  host_of (fun _ _ _ => Exits 100 1 [] (bytes_of "Traceback"))
          no_failure no_json parse_known.

(** The interpreter prints [x]; no file may be removed. *)
Definition locked : exn :=
  Exn OSError (lit "[WinError 32] The process cannot access the file").

Definition locked_host : Env :=
  host_of (fun _ _ _ => Exits 40 0 (bytes_of "x") [])
          (fun _ ev => match ev with
                       | Unlink _ => Some locked
                       | _ => None
                       end)
          no_json no_parse.

(** A Java toolchain that compiles the source and runs it: the program
    prints [1]. *)
Definition java_hello : pystr :=
  lit "public class Main { public static void main(String[] a) { System.out.println(1); } }".

Definition java_runs (n : nat) (argv : list pystr) (input : option pyval)
  : child :=
  match argv with
  | tool :: _ =>
      if str_eqb tool (lit "javac") then Exits 900 0 [] []
      else if str_eqb (List.hd [] (List.tail argv)) (lit "--version")
      then Exits 80 0 (bytes_of "openjdk 21") []
      else Exits 300 0 (bytes_of "1") []
  | [] => missing ""
  end.

Definition java_ok_host : Env :=
  host_of java_runs no_failure no_json no_parse.

(** The session of a page that was just opened. *)
Definition fresh_session : Handlers.session :=
  Handlers.Session None None None [].

End Fixtures.

Import App CodeAnalyzer.

(** ** Properties of computations *)

(** A computation that returns from every state. *)
Definition never_raises {S A} (m : Mon S A) : Prop :=
  forall s, exists a s', m s = (Ok a, s').

(** A computation that leaves the temporary files and directories as they
    are; [host] projects the host state out of [S]. *)
Definition keeps_fs {S A} (host : S -> state) (m : Mon S A) : Prop :=
  forall s r s', m s = (r, s') ->
    files (host s') = files (host s) /\ dirs (host s') = dirs (host s).

(** The log only grows. *)
Definition extends (old new : list event) : Prop :=
  exists evs, new = old ++ evs.

Definition is_spawn (ev : event) : bool :=
  match ev with
  | Spawn _ _ _ _ => true
  | _ => false
  end.

(** Among the operations logged after [old], a child process was started
    under a timeout and was still running when the timeout elapsed. *)
Definition timed_out (E : Env) (old new : list event) : Prop :=
  exists i argv input text seconds ms rc out err,
    (List.length old <= i)%nat /\
    new !! i = Some (Spawn argv input text (Some seconds)) /\
    spawn E i argv input = Exits ms rc out err /\
    (seconds * 1000 < ms)%N.

(** Whatever child overran its timeout while [m] ran made [m] raise
    [TimeoutExpired]. *)
Definition timeout_escapes {S A} (E : Env) (host : S -> state) (m : Mon S A)
  : Prop :=
  forall s r s', m s = (r, s') ->
    extends (log (host s)) (log (host s')) /\
    (timed_out E (log (host s)) (log (host s')) ->
     exists e, r = Raise e /\ isinstance e TimeoutExpired = true).

(** A computation that starts no child process. *)
Definition spawns_nothing {S A} (host : S -> state) (m : Mon S A) : Prop :=
  forall s r s', m s = (r, s') ->
    exists evs, log (host s') = log (host s) ++ evs
                /\ forallb (fun ev => negb (is_spawn ev)) evs = true.

(** A runner's result, when it returns, is a pair of [str]. *)
Definition returns_text (m : M (pyval * pyval)) : Prop :=
  forall st r st', m st = (Ok r, st') -> exists o e, r = (VStr o, VStr e).

(** The version probe and the run step of [execute_java_code], as they
    appear in the log. *)
Definition is_java_probe (ev : event) : Prop :=
  exists text, ev = Spawn [lit "java"; lit "--version"] None text None.

Definition is_java_run (ev : event) : Prop :=
  exists d c input text timeout,
    ev = Spawn [lit "java"; lit "-cp"; d; c] input text timeout.

Definition is_javac (ev : event) : Prop :=
  exists rest input text timeout,
    ev = Spawn (lit "javac" :: rest) input text timeout.

(** A source text with a declaration [public class <Name>]: the word
    [public], white space, the word [class], white space, and a name that
    starts with the word character [w]. *)
Definition has_public_class (E : Env) (code : pystr) : Prop :=
  exists pre ws1 ws2 w rest,
    code = pre ++ lit "public" ++ ws1 ++ lit "class" ++ ws2 ++ w :: rest /\
    ws1 <> [] /\ forallb (is_space E) ws1 = true /\
    ws2 <> [] /\ forallb (is_space E) ws2 = true /\
    is_word E w = true.

(** All the nodes of a tree, parent first. *)
Fixpoint preorder (t : ast) : list ast :=
  match t with
  | Node c cs => Node c cs :: flat_map preorder cs
  end.

Definition count_class (classes : list ast_class) (t : ast) : nat :=
  List.length (filter (fun n => node_class n ∈ classes) (preorder t)).

(** Sum and largest element of a list of integers, and their mean as an
    exact quotient. *)
Definition sum_Z (zs : list Z) : Z := fold_left Z.add zs 0%Z.

Definition max_Z (zs : list Z) : Z :=
  match zs with
  | [] => 0%Z
  | z :: zs' => fold_left Z.max zs' z
  end.

Definition mean_Z (zs : list Z) : Q :=
  inject_Z (sum_Z zs) / inject_Z (Z.of_nat (List.length zs)).

(** The per-function listing [funcs] of the complexity tool gives the
    integer complexities [zs]: each entry is an object whose [complexity]
    field, 0 when absent, is the integer at the same position. *)
Definition listed_complexities (funcs : list pyval) (zs : list Z) : Prop :=
  Forall2 (fun func z =>
             exists d, func = VDict d /\
               from_option id (VInt 0) (alist_get (lit "complexity") d) = VInt z)
          funcs zs.

(** The issue [run_flake8_analysis] makes of one object of the JSON
    report. *)
Definition issue_of_item (d : list (pystr * pyval)) : lint_issue :=
  LintIssue (from_option id (VInt 0) (alist_get (lit "line_number") d))
            (from_option id (VInt 0) (alist_get (lit "column_number") d))
            (from_option id (VStr []) (alist_get (lit "text") d))
            (from_option id (VStr []) (alist_get (lit "code") d)).

(** A value that is no JSON object. *)
Definition not_a_dict (v : pyval) : Prop :=
  match v with
  | VDict _ => False
  | _ => True
  end.

(** The number of occurrences of a character in a text. *)
Definition occurrences (c : N) (text : list N) : nat :=
  List.length (filter (fun x => x = c) text).

(** The [error] field the three [except] clauses of [run_radon_analysis]
    set for an exception. *)
Definition radon_error (e : exn) : pystr :=
  if isinstance e TimeoutExpired then lit "Radon analysis timed out"
  else if isinstance e FileNotFoundError
       then lit "Radon not installed. Install with: pip install radon"
       else lit "Radon analysis failed: " ++ exn_str e.

(** What a version probe of [check_dependencies] says about a tool: the
    child exits with code 0 within five seconds. *)
Definition answers (c : child) : bool :=
  match c with
  | Exits ms rc _ _ => negb (5 * 1000 <? ms)%N && (rc =? 0)%Z
  | CannotRun _ => false
  end.

(** The tag the page passes for each language it can run. *)
Definition language_tag (lang : language) : pystr :=
  match lang with
  | Python => lit "python"
  | JavaScript => lit "javascript"
  | Java => lit "java"
  end.

(** A session with one more banner on the page and nothing else changed. *)
Definition with_banner (s : Handlers.session) (b : Handlers.banner)
  : Handlers.session :=
  Handlers.Session (Handlers.execution_output s) (Handlers.execution_error s)
                   (Handlers.analysis s) (Handlers.banners s ++ [b]).

Create HintDb total.
Create HintDb fs.
Create HintDb timeouts.


(** ** Reasoning about computations *)

Section MonadLemmas.
Context {S : Type}.

Lemma bind_ok {A B} (m : Mon S A) (f : A -> Mon S B) s a s1 :
  m s = (Ok a, s1) -> (m ≫= f) s = f a s1.
Proof. intros H. unfold mbind, Mon_bind. by rewrite H. Qed.

Lemma bind_raise {A B} (m : Mon S A) (f : A -> Mon S B) s e s1 :
  m s = (Raise e, s1) -> (m ≫= f) s = (Raise e, s1).
Proof. intros H. unfold mbind, Mon_bind. by rewrite H. Qed.

Lemma try_except_ok {A} (m : Mon S A) h s a s1 :
  m s = (Ok a, s1) -> try_except m h s = (Ok a, s1).
Proof. intros H. unfold try_except. by rewrite H. Qed.

Lemma try_except_raise {A} (m : Mon S A) h s e s1 :
  m s = (Raise e, s1) -> try_except m h s = h e s1.
Proof. intros H. unfold try_except. by rewrite H. Qed.

Lemma never_raises_ret {A} (a : A) : never_raises (mret a : Mon S A).
Proof. intros s. by exists a, s. Qed.

Lemma never_raises_bind {A B} (m : Mon S A) (f : A -> Mon S B) :
  never_raises m -> (forall a, never_raises (f a)) -> never_raises (m ≫= f).
Proof.
  intros Hm Hf s. destruct (Hm s) as (a & s1 & H1).
  destruct (Hf a s1) as (b & s2 & H2).
  exists b, s2. by rewrite (bind_ok _ _ _ _ _ H1).
Qed.

(** A [try] whose handlers all return cannot raise, whatever its body
    does. *)
Lemma never_raises_try {A} (m : Mon S A) h :
  (forall e, never_raises (h e)) -> never_raises (try_except m h).
Proof.
  intros Hh s. unfold try_except.
  destruct (m s) as [[a|e] s1]; [by exists a, s1 | apply Hh].
Qed.

Lemma never_raises_if {A} (b : bool) (m1 m2 : Mon S A) :
  never_raises m1 -> never_raises m2 -> never_raises (if b then m1 else m2).
Proof. by destruct b. Qed.
End MonadLemmas.

Lemma never_raises_get_var {V} : never_raises (@get_var V).
Proof. intros s. by exists (fst s), s. Qed.

Lemma never_raises_set_var {V} (v : V) : never_raises (set_var v).
Proof. intros s. by exists tt, (v, snd s). Qed.

Lemma never_raises_scope {V A} (v0 : V) (m : Mon (V * state) A) :
  never_raises m -> never_raises (scope v0 m).
Proof.
  intros Hm st. destruct (Hm (v0, st)) as (a & vs & H).
  exists a, (snd vs). unfold scope. by rewrite H.
Qed.

#[global] Hint Resolve never_raises_ret never_raises_get_var
  never_raises_set_var : total.

Section ExecuteTotal.
Context (E : Env).

Lemma report_failure_returns e : never_raises (report_failure e).
Proof.
  unfold report_failure. destruct (isinstance e TimeoutExpired); auto with total.
Qed.

Lemma execute_python_code_returns code : never_raises (execute_python_code E code).
Proof. apply never_raises_try, report_failure_returns. Qed.

Lemma execute_javascript_code_returns code :
  never_raises (execute_javascript_code E code).
Proof. apply never_raises_try, report_failure_returns. Qed.

Lemma execute_java_code_returns code : never_raises (execute_java_code E code).
Proof. apply never_raises_try, report_failure_returns. Qed.

Lemma execute_returns lang code : never_raises (execute E lang code).
Proof.
  destruct lang; simpl;
    auto using execute_python_code_returns, execute_javascript_code_returns,
               execute_java_code_returns.
Qed.

Lemma run_flake8_analysis_returns path : never_raises (run_flake8_analysis E path).
Proof.
  apply never_raises_scope, never_raises_bind; [|auto with total].
  apply never_raises_try. intros e.
  apply never_raises_bind; [auto with total|]. intros issues.
  repeat apply never_raises_if; auto with total.
Qed.

Lemma run_black_analysis_returns code : never_raises (run_black_analysis E code).
Proof.
  apply never_raises_try. intros e.
  repeat apply never_raises_if; auto with total.
Qed.

Lemma set_error_returns text : never_raises (set_error text).
Proof.
  apply never_raises_bind; [auto with total|]. intros; auto with total.
Qed.

Lemma run_radon_analysis_returns path : never_raises (run_radon_analysis E path).
Proof.
  apply never_raises_scope, never_raises_bind.
  - apply never_raises_try. intros e.
    repeat apply never_raises_if; apply set_error_returns.
  - intros _. apply never_raises_bind; [auto with total|]. intros cd.
    apply never_raises_bind; [|auto with total].
    apply never_raises_if; [|auto with total].
    apply never_raises_try. auto with total.
Qed.
End ExecuteTotal.

(** ** The temporary files are left alone by the tools *)

Section Frame.
Context {S : Type} (host : S -> state).

Lemma keeps_fs_ret {A} (a : A) : keeps_fs host (mret a : Mon S A).
Proof. intros s r s' [= <- <-]. done. Qed.

Lemma keeps_fs_raise {A} e : keeps_fs host (raise e : Mon S A).
Proof. intros s r s' [= <- <-]. done. Qed.

Lemma keeps_fs_eval {A} (r : res A) : keeps_fs host (eval r : Mon S A).
Proof. intros s r' s' [= <- <-]. done. Qed.

Lemma keeps_fs_bind {A B} (m : Mon S A) (f : A -> Mon S B) :
  keeps_fs host m -> (forall a, keeps_fs host (f a)) -> keeps_fs host (m ≫= f).
Proof.
  intros Hm Hf s r s'. unfold mbind, Mon_bind.
  destruct (m s) as [[a|e] s1] eqn:H1; intros H2.
  - destruct (Hm _ _ _ H1) as [E1 E2]. destruct (Hf a _ _ _ H2) as [E3 E4].
    split; congruence.
  - injection H2 as <- <-. by apply (Hm _ _ _ H1).
Qed.

Lemma keeps_fs_try {A} (m : Mon S A) h :
  keeps_fs host m -> (forall e, keeps_fs host (h e)) ->
  keeps_fs host (try_except m h).
Proof.
  intros Hm Hh s r s'. unfold try_except.
  destruct (m s) as [[a|e] s1] eqn:H1; intros H2.
  - injection H2 as <- <-. by apply (Hm _ _ _ H1).
  - destruct (Hm _ _ _ H1) as [E1 E2]. destruct (Hh e _ _ _ H2) as [E3 E4].
    split; congruence.
Qed.

Lemma keeps_fs_for_each {A} (xs : list A) (body : A -> Mon S unit) :
  (forall x, keeps_fs host (body x)) -> keeps_fs host (for_each xs body).
Proof.
  intros Hb. induction xs as [|x xs IH]; simpl.
  - apply keeps_fs_ret.
  - apply keeps_fs_bind; [apply Hb | intros _; apply IH].
Qed.
End Frame.

Lemma keeps_fs_lift {V A} (m : M A) :
  keeps_fs id m -> keeps_fs snd (lift m : Mon (V * state) A).
Proof.
  intros Hm [v st] r [v' st']. unfold lift. simpl.
  destruct (m st) as [r1 st1] eqn:H1. intros [= <- <- <-].
  apply (Hm _ _ _ H1).
Qed.

Lemma keeps_fs_get_var {V} : keeps_fs snd (@get_var V).
Proof. intros s r s' [= <- <-]. done. Qed.

Lemma keeps_fs_set_var {V} (v : V) : keeps_fs snd (set_var v).
Proof. intros s r s' [= <- <-]. done. Qed.

Lemma keeps_fs_scope {V A} (v0 : V) (m : Mon (V * state) A) :
  keeps_fs snd m -> keeps_fs id (scope v0 m).
Proof.
  intros Hm st r st'. unfold scope.
  destruct (m (v0, st)) as [r1 vs] eqn:H1. intros [= <- <-].
  apply (Hm _ _ _ H1).
Qed.

#[global] Hint Resolve keeps_fs_ret keeps_fs_raise keeps_fs_eval
  keeps_fs_get_var keeps_fs_set_var : fs.

(** Splits a goal on a computation along its binds, handlers and
    branches. *)
Ltac fs_walk :=
  repeat first
    [ match goal with |- forall _, _ => intro end
    | solve [auto with fs]
    | apply keeps_fs_bind
    | apply keeps_fs_try
    | apply keeps_fs_for_each
    | apply keeps_fs_lift
    | match goal with
      | |- keeps_fs _ (if ?b then _ else _) => destruct b
      | |- keeps_fs _ (match ?x with _ => _ end) => destruct x
      end ].

Section FrameOfTools.
Context (E : Env).

Lemma keeps_fs_subprocess_run argv input text timeout :
  keeps_fs id (subprocess_run E argv input text timeout).
Proof.
  intros st r st'. unfold subprocess_run.
  destruct (spawn E (tick st) argv input); [destruct (exceeds timeout _), text|];
    intros [= <- <-]; done.
Qed.

Lemma keeps_fs_decode_or_empty raw : keeps_fs id (decode_or_empty raw).
Proof. unfold decode_or_empty. fs_walk. Qed.

#[local] Hint Resolve keeps_fs_subprocess_run keeps_fs_decode_or_empty : fs.

Lemma keeps_fs_run_tool argv code both : keeps_fs id (run_tool E argv code both).
Proof. unfold run_tool. fs_walk. Qed.

Lemma keeps_fs_open_read path : keeps_fs id (open_read E path).
Proof.
  intros st r st'. unfold open_read, io.
  destruct (io_error E (tick st) (ReadText path)); simpl.
  - intros [= <- <-]. done.
  - destruct (files st !! path); intros [= <- <-]; done.
Qed.

#[local] Hint Resolve keeps_fs_run_tool keeps_fs_open_read : fs.

Lemma keeps_fs_basic_ast_analysis path : keeps_fs id (basic_ast_analysis E path).
Proof. unfold basic_ast_analysis. fs_walk. Qed.

#[local] Hint Resolve keeps_fs_basic_ast_analysis : fs.

Lemma keeps_fs_run_flake8_analysis path :
  keeps_fs id (run_flake8_analysis E path).
Proof. unfold run_flake8_analysis. apply keeps_fs_scope. fs_walk. Qed.

Lemma keeps_fs_run_black_analysis code :
  keeps_fs id (run_black_analysis E code).
Proof. unfold run_black_analysis. fs_walk. Qed.

Lemma keeps_fs_run_radon_analysis path :
  keeps_fs id (run_radon_analysis E path).
Proof.
  unfold run_radon_analysis, radon_block, radon_cc_step, radon_mi_step, set_error.
  apply keeps_fs_scope. fs_walk.
Qed.
End FrameOfTools.

(** ** The temporary file of a call *)

Section TempFile.
Context (E : Env).

(** What [NamedTemporaryFile] plus [write] leave behind when they succeed. *)
Lemma named_temporary_file_ok suffix text st path st1 :
  named_temporary_file E suffix text st = (Ok path, st1) ->
  path = temp_name E (tick st) suffix /\
  files st1 = <[path := text]> (<[path := []]> (files st)) /\
  dirs st1 = dirs st /\
  log st1 = log st ++ [CreateTemp path; WriteText path].
Proof.
  unfold named_temporary_file, write_text, io, mbind, Mon_bind, mret, Mon_ret, raise.
  destruct (io_error E (tick st) _); [discriminate|]. simpl.
  destruct (Codec.encodable text); [|discriminate].
  destruct (io_error E _ _); [discriminate|]. simpl.
  intros [= <- <-]. simpl. rewrite <- app_assoc. done.
Qed.

Lemma named_temporary_file_present suffix text st path st1 :
  named_temporary_file E suffix text st = (Ok path, st1) ->
  files st1 !! path = Some text.
Proof.
  intros H. destruct (named_temporary_file_ok _ _ _ _ _ H) as (_ & -> & _).
  apply lookup_insert_eq.
Qed.

(** The [finally] clause of [analyze_python_code]. *)
Lemma cleanup_removes path text st :
  files st !! path = Some text ->
  (forall n, io_error E n (Unlink path) = None) ->
  exists st',
    (present ← path_exists path;
     if (present : bool) then unlink E path else mret tt) st = (Ok tt, st')
    /\ files st' = delete path (files st).
Proof.
  intros Hfile Hio.
  unfold mbind, Mon_bind, path_exists. rewrite Hfile. simpl.
  unfold unlink, io. rewrite Hio. simpl. rewrite Hfile.
  eexists. split; [reflexivity|done].
Qed.

(** The three analyses, one after the other, as the [try] block of
    [analyze_python_code] runs them. *)
Lemma analyses_return code path :
  never_raises
    (issues ← run_flake8_analysis E path;
     '(formatted, needed) ← run_black_analysis E code;
     complexity_data ← run_radon_analysis E path;
     mret (AnalysisResults issues needed formatted complexity_data)).
Proof.
  apply never_raises_bind; [apply run_flake8_analysis_returns|]. intros issues.
  apply never_raises_bind; [apply run_black_analysis_returns|]. intros [f n].
  apply never_raises_bind; [apply run_radon_analysis_returns|]. intros cd.
  apply never_raises_ret.
Qed.

Lemma analyses_keep_fs code path :
  keeps_fs id
    (issues ← run_flake8_analysis E path;
     '(formatted, needed) ← run_black_analysis E code;
     complexity_data ← run_radon_analysis E path;
     mret (AnalysisResults issues needed formatted complexity_data)).
Proof.
  apply keeps_fs_bind; [apply keeps_fs_run_flake8_analysis|]. intros issues.
  apply keeps_fs_bind; [apply keeps_fs_run_black_analysis|]. intros [f n].
  apply keeps_fs_bind; [apply keeps_fs_run_radon_analysis|]. intros cd.
  apply keeps_fs_ret.
Qed.

(** Once its temporary file is written, [analyze_python_code] returns, and
    the file is gone when it does. *)
Lemma analyze_python_code_after_temp code st path st1 :
  named_temporary_file E (lit ".py") code st = (Ok path, st1) ->
  (forall n, io_error E n (Unlink path) = None) ->
  exists r st',
    analyze_python_code E code st = (Ok r, st') /\ files st' !! path = None.
Proof.
  intros Htmp Hio. unfold analyze_python_code.
  rewrite (bind_ok _ _ _ _ _ Htmp). unfold try_finally.
  destruct (analyses_return code path st1) as (r & st2 & Hbody).
  rewrite Hbody.
  destruct (analyses_keep_fs code path _ _ _ Hbody) as [Hf _]. simpl in Hf.
  destruct (cleanup_removes path code st2) as (st3 & -> & Hdel); [|done|].
  { rewrite Hf. by eapply named_temporary_file_present. }
  exists r, st3. split; [done|]. rewrite Hdel. apply lookup_delete_eq.
Qed.
End TempFile.

(** ** Results *)

(** C1, as the code has it.  [execute] returns a pair for every language,
    source text and host and never raises: the [except Exception] clause
    that closes each runner turns any failure into the returned message.
    [analyze_python_code] returns its report and never raises once its
    temporary file has been created and written, provided removing that
    file does not fail; its three tool steps never raise.  Creating and
    writing the temporary file happen outside any [try] block. *)
Theorem harness_returns (E : Env) (code : pystr) (st : state) :
  (forall lang, exists r st', execute E lang code st = (Ok r, st')) /\
  (forall path st1,
     named_temporary_file E (lit ".py") code st = (Ok path, st1) ->
     (forall n, io_error E n (Unlink path) = None) ->
     exists r st', analyze_python_code E code st = (Ok r, st')).
Proof.
  split.
  - intros lang. apply execute_returns.
  - intros path st1 Htmp Hio.
    destruct (analyze_python_code_after_temp E code st path st1 Htmp Hio)
      as (r & st' & H & _).
    by exists r, st'.
Qed.

Lemma harness_returns_witness :
  exists r st',
    analyze_python_code Fixtures.bare_host Fixtures.hello Fixtures.st0 = (Ok r, st').
Proof.
  eapply (proj2 (harness_returns Fixtures.bare_host Fixtures.hello Fixtures.st0)).
  - reflexivity.
  - intros n. reflexivity.
Defined.

(** C1, the counterexample: on a host where the temporary file cannot be
    created, [analyze_python_code] raises to its caller. *)
Lemma analyze_python_code_raises :
  fst (analyze_python_code Fixtures.full_disk Fixtures.hello Fixtures.st0)
  = Raise (Exn OSError (lit "[Errno 28] No space left on device")).
Proof. vm_compute. reflexivity. Qed.

(** C2, the failing input.  A program that loops for ever, run by
    [execute_python_code]: the call returns the timeout message, and the
    temporary file it wrote is still there with its content.  The [unlink]
    is reached on the normal path only. *)
Theorem execute_python_code_leaves_temp_file :
  let r := execute_python_code Fixtures.slow_host Fixtures.looping Fixtures.st0 in
  fst r = Ok (VStr [], VStr timeout_message) /\
  files (snd r) !! Fixtures.tmp 0 (lit ".py") = Some Fixtures.looping.
Proof. vm_compute. split; reflexivity. Qed.

(** The same defect in [execute_java_code]: the early return on a compile
    error leaves the temporary directory and the source file in it. *)
Lemma execute_java_code_leaves_temp_dir :
  let r := execute_java_code Fixtures.java_host Fixtures.java_broken Fixtures.st0 in
  Fixtures.tmp 1 [] ∈ dirs (snd r) /\
  files (snd r) !! (path_join (Fixtures.tmp 1 []) (lit "Main.java"))
  = Some Fixtures.java_broken.
Proof. split; [by vm_compute|]. vm_compute. reflexivity. Qed.

(** C6, the failing input.  Node.js is not installed: the version probe
    raises [FileNotFoundError], which the last [except] clause reports with
    the text of the exception.  The message that names Node.js is returned
    only when the probe runs and exits with a non-zero code.  Nothing is
    written and nothing else is run. *)
Theorem execute_javascript_code_without_node :
  let r := execute_javascript_code Fixtures.no_node Fixtures.hello_js Fixtures.st0 in
  fst r = Ok (VStr [], VStr (lit "Error: [Errno 2] No such file or directory: 'node'")) /\
  fst r <> Ok (VStr [], VStr (lit "Error: Node.js is not installed or not in PATH")) /\
  log (snd r) = [Spawn [lit "node"; lit "--version"] None true None] /\
  files (snd r) = ∅.
Proof. vm_compute. repeat split; try reflexivity. discriminate. Qed.

(** ** Timeouts reach the top of the runner *)

Section Timeouts.
Context (E : Env).

Lemma timed_out_nothing l : ~ timed_out E l l.
Proof.
  intros (i & argv & input & text & t & ms & rc & out & err & Hi & Hl & _).
  apply lookup_lt_Some in Hl. lia.
Qed.

Lemma timed_out_split l ev1 ev2 :
  timed_out E l ((l ++ ev1) ++ ev2) ->
  timed_out E l (l ++ ev1) \/ timed_out E (l ++ ev1) ((l ++ ev1) ++ ev2).
Proof.
  intros (i & argv & input & text & t & ms & rc & out & err & Hi & Hl & Hs & Hms).
  destruct (decide (i < List.length (l ++ ev1))%nat) as [Hlt|Hge].
  - left. exists i, argv, input, text, t, ms, rc, out, err.
    repeat split; try done. by rewrite lookup_app_l in Hl.
  - right. exists i, argv, input, text, t, ms, rc, out, err.
    repeat split; try done. lia.
Qed.

Lemma extends_refl l : extends l l.
Proof. exists []. by rewrite app_nil_r. Qed.

Lemma extends_trans l1 l2 l3 : extends l1 l2 -> extends l2 l3 -> extends l1 l3.
Proof. intros [a ->] [b ->]. exists (a ++ b). by rewrite app_assoc. Qed.

(** A computation that logs nothing. *)
Lemma timeout_escapes_silent {A} (m : M A) :
  (forall s r s', m s = (r, s') -> log s' = log s) -> timeout_escapes E id m.
Proof.
  intros Hm s r s' H. simpl. rewrite (Hm _ _ _ H). split.
  - apply extends_refl.
  - intros Ht. by apply timed_out_nothing in Ht.
Qed.

Lemma timeout_escapes_ret {A} (a : A) : timeout_escapes E id (mret a : M A).
Proof. apply timeout_escapes_silent. by intros s r s' [= <- <-]. Qed.

Lemma timeout_escapes_raise {A} e : timeout_escapes E id (raise e : M A).
Proof. apply timeout_escapes_silent. by intros s r s' [= <- <-]. Qed.

Lemma timeout_escapes_bind {A B} (m : M A) (f : A -> M B) :
  timeout_escapes E id m -> (forall a, timeout_escapes E id (f a)) ->
  timeout_escapes E id (m ≫= f).
Proof.
  intros Hm Hf s r s'. unfold mbind, Mon_bind.
  destruct (m s) as [[a|e] s1] eqn:H1; intros H2.
  - destruct (Hm _ _ _ H1) as [[ev1 X1] Ht1].
    destruct (Hf a _ _ _ H2) as [[ev2 X2] Ht2]. simpl in *.
    split; [exists (ev1 ++ ev2); by rewrite X2, X1, app_assoc|].
    rewrite X2, X1. intros Ht. apply timed_out_split in Ht as [Ht|Ht].
    + rewrite <- X1 in Ht. destruct (Ht1 Ht) as (e & He & _). discriminate.
    + rewrite <- X1, <- X2 in Ht. auto.
  - injection H2 as <- <-. destruct (Hm _ _ _ H1) as [X Ht1].
    split; [done|]. intros Ht. destruct (Ht1 Ht) as (e' & [= <-] & He). eauto.
Qed.

(** A handler that lets [TimeoutExpired] through, around a body. *)
Lemma timeout_escapes_try {A} (m : M A) h :
  timeout_escapes E id m -> (forall e, timeout_escapes E id (h e)) ->
  (forall e, isinstance e TimeoutExpired = true -> h e = raise e) ->
  timeout_escapes E id (try_except m h).
Proof.
  intros Hm Hh Hpass s r s'. unfold try_except.
  destruct (m s) as [[a|e] s1] eqn:H1; intros H2.
  - injection H2 as <- <-. exact (Hm _ _ _ H1).
  - destruct (Hm _ _ _ H1) as [[ev1 X1] Ht1].
    destruct (Hh e _ _ _ H2) as [[ev2 X2] Ht2]. simpl in *.
    split; [exists (ev1 ++ ev2); by rewrite X2, X1, app_assoc|].
    rewrite X2, X1. intros Ht. apply timed_out_split in Ht as [Ht|Ht].
    + rewrite <- X1 in Ht. destruct (Ht1 Ht) as (e' & [= <-] & He).
      rewrite (Hpass e He) in H2. injection H2 as <- <-. eauto.
    + rewrite <- X1, <- X2 in Ht. auto.
Qed.

(** The operations on files start no process. *)
Lemma timeout_escapes_no_spawn {A} (m : M A) :
  spawns_nothing id m -> timeout_escapes E id m.
Proof.
  intros Hm s r s' H. destruct (Hm _ _ _ H) as (evs & X & Hall). simpl in *.
  split; [by exists evs|].
  intros (i & argv & input & text & t & ms & rc & out & err & Hi & Hl & _).
  rewrite X, lookup_app_r in Hl by done.
  apply list_elem_of_lookup_2, list_elem_of_In in Hl.
  rewrite forallb_forall in Hall. by apply Hall in Hl.
Qed.

Lemma timeout_escapes_subprocess_run argv input text timeout :
  timeout_escapes E id (subprocess_run E argv input text timeout).
Proof.
  intros s r s' H. simpl.
  assert (log s' = log s ++ [Spawn argv input text timeout]) as X.
  { unfold subprocess_run in H.
    destruct (spawn E (tick s) argv input);
      [destruct (exceeds timeout _), text|]; by injection H as <- <-. }
  split; [by eexists|].
  intros (i & argv' & input' & text' & t & ms & rc & out & err & Hi & Hl & Hs & Hms).
  rewrite X in Hl.
  assert (i = List.length (log s)) as ->.
  { apply lookup_lt_Some in Hl. rewrite length_app in Hl. simpl in Hl. lia. }
  rewrite list_lookup_middle in Hl by done.
  injection Hl as <- <- <- ->.
  unfold subprocess_run, tick in H. rewrite Hs in H.
  unfold exceeds in H. apply N.ltb_lt in Hms. rewrite Hms in H.
  injection H as <- <-. eauto.
Qed.
End Timeouts.

Section NoSpawn.
Context (E : Env).

Lemma spawns_nothing_silent {A} (m : M A) :
  (forall s r s', m s = (r, s') -> log s' = log s) -> spawns_nothing id m.
Proof.
  intros Hm s r s' H. exists []. simpl. rewrite app_nil_r. by rewrite (Hm _ _ _ H).
Qed.

Lemma spawns_nothing_bind {A B} (m : M A) (f : A -> M B) :
  spawns_nothing id m -> (forall a, spawns_nothing id (f a)) ->
  spawns_nothing id (m ≫= f).
Proof.
  intros Hm Hf s r s'. unfold mbind, Mon_bind.
  destruct (m s) as [[a|e] s1] eqn:H1; intros H2.
  - destruct (Hm _ _ _ H1) as (ev1 & X1 & A1).
    destruct (Hf a _ _ _ H2) as (ev2 & X2 & A2). simpl in *.
    exists (ev1 ++ ev2). rewrite X2, X1, app_assoc. split; [done|].
    rewrite forallb_app. by rewrite A1, A2.
  - injection H2 as <- <-. destruct (Hm _ _ _ H1) as (ev1 & X1 & A1). eauto.
Qed.

Lemma spawns_nothing_io {A} ev (act : M A) :
  is_spawn ev = false ->
  (forall s r s', act s = (r, s') -> log s' = log s) ->
  spawns_nothing id (io E ev act).
Proof.
  intros Hev Hact s r s'. unfold io. exists [ev]. simpl. rewrite Hev. simpl.
  destruct (io_error E (tick s) ev).
  - by injection H as <- <-.
  - by rewrite (Hact _ _ _ H).
Qed.

Lemma spawns_nothing_write_text path text : spawns_nothing id (write_text E path text).
Proof.
  unfold write_text. destruct (Codec.encodable text).
  - apply spawns_nothing_io; [done|]. by intros s r s' [= <- <-].
  - apply spawns_nothing_silent. by intros s r s' [= <- <-].
Qed.

Lemma spawns_nothing_named_temporary_file suffix text :
  spawns_nothing id (named_temporary_file E suffix text).
Proof.
  intros s r s'. unfold named_temporary_file.
  apply spawns_nothing_bind.
  - apply spawns_nothing_io; [done|]. by intros s1 r1 s1' [= <- <-].
  - intros _. apply spawns_nothing_bind; [apply spawns_nothing_write_text|].
    intros _. apply spawns_nothing_silent. by intros s1 r1 s1' [= <- <-].
Qed.

Lemma spawns_nothing_open_write path text : spawns_nothing id (open_write E path text).
Proof.
  apply spawns_nothing_bind.
  - apply spawns_nothing_io; [done|]. by intros s1 r1 s1' [= <- <-].
  - intros _. apply spawns_nothing_write_text.
Qed.

Lemma spawns_nothing_unlink path : spawns_nothing id (unlink E path).
Proof.
  apply spawns_nothing_io; [done|]. intros s r s'.
  destruct (files s !! path); by intros [= <- <-].
Qed.

Lemma spawns_nothing_mkdtemp : spawns_nothing id (mkdtemp E).
Proof.
  intros s r s'. unfold mkdtemp. apply spawns_nothing_bind.
  - apply spawns_nothing_io; [done|]. by intros s1 r1 s1' [= <- <-].
  - intros _. apply spawns_nothing_silent. by intros s1 r1 s1' [= <- <-].
Qed.

Lemma spawns_nothing_rmtree d : spawns_nothing id (rmtree E d).
Proof.
  apply spawns_nothing_io; [done|]. intros s r s'.
  destruct (bool_decide (d ∈ dirs s)); by intros [= <- <-].
Qed.
End NoSpawn.

Lemma timeout_is_not_decode_error e :
  isinstance e TimeoutExpired = true -> isinstance e UnicodeDecodeError = false.
Proof. destruct e as [[] msg]; done. Qed.

#[global] Hint Resolve timeout_escapes_ret timeout_escapes_raise
  timeout_escapes_subprocess_run : timeouts.
#[global] Hint Resolve spawns_nothing_named_temporary_file
  spawns_nothing_open_write spawns_nothing_unlink spawns_nothing_mkdtemp
  spawns_nothing_rmtree : timeouts.

Ltac timeout_walk :=
  repeat first
    [ match goal with |- forall _, _ => intro end
    | solve [auto with timeouts]
    | solve [apply timeout_escapes_no_spawn; auto with timeouts]
    | apply timeout_escapes_bind
    | match goal with
      | |- timeout_escapes _ _ (if ?b then _ else _) => destruct b
      | |- timeout_escapes _ _ (match ?x with _ => _ end) => destruct x
      end ].

Section TimeoutsOfRunners.
Context (E : Env).

Lemma timeout_escapes_decode_or_empty raw :
  timeout_escapes E id (decode_or_empty raw).
Proof. unfold decode_or_empty. timeout_walk. Qed.

#[local] Hint Resolve timeout_escapes_decode_or_empty : timeouts.

Lemma timeout_escapes_run_decoded argv timeout :
  timeout_escapes E id (run_decoded E argv timeout).
Proof.
  apply timeout_escapes_try.
  - auto with timeouts.
  - timeout_walk.
  - intros e He. by rewrite (timeout_is_not_decode_error e He).
Qed.

#[local] Hint Resolve timeout_escapes_run_decoded : timeouts.

(** The two closing [except] clauses, around any body that lets a timeout
    escape. *)
Lemma timeout_reported_by_handler (body : M (pyval * pyval)) st r st' :
  timeout_escapes E id body ->
  try_except body (report_failure) st = (r, st') ->
  timed_out E (log st) (log st') ->
  r = Ok (VStr [], VStr timeout_message).
Proof.
  intros Hb. unfold try_except.
  destruct (body st) as [[a|e] s1] eqn:H1; intros H2 Ht.
  - injection H2 as <- <-.
    destruct (Hb _ _ _ H1) as [_ Hraise]. destruct (Hraise Ht) as (e & He & _).
    discriminate.
  - assert (st' = s1) as ->.
    { unfold report_failure in H2.
      destruct (isinstance e TimeoutExpired); by injection H2 as <- <-. }
    destruct (Hb _ _ _ H1) as [_ Hraise].
    destruct (Hraise Ht) as (e' & [= <-] & He).
    unfold report_failure in H2. rewrite He in H2. by injection H2 as <-.
Qed.
End TimeoutsOfRunners.



(** ** Decoding the output of a child *)

Section Decoding.
Import Codec.

Lemma decode_strict_from_agrees bs : forall k s,
  decode_strict_from k bs = Some s -> decode_from k bs = s.
Proof.
  induction bs as [|b0 r IH]; intros k s; simpl.
  - by intros [= <-].
  - destruct k as [|k]; [|apply IH].
    destruct (utf8_step b0 r) as [cp n|n]; [|discriminate].
    destruct (decode_strict_from (pred n) r) as [s'|] eqn:Hs; [|discriminate].
    intros [= <-]. f_equal. by apply IH.
Qed.

Lemma decode_from_marks_malformed bs : forall k,
  decode_strict_from k bs = None -> replacement_char ∈ decode_from k bs.
Proof.
  induction bs as [|b0 r IH]; intros k; simpl; [discriminate|].
  destruct k as [|k]; [|apply IH].
  destruct (utf8_step b0 r) as [cp n|n].
  - destruct (decode_strict_from (pred n) r) eqn:Hs; [discriminate|].
    intros _. right. by apply IH.
  - intros _. left.
Qed.

(** Valid UTF-8 decodes to the text it encodes; anything else decodes all
    the same, with U+FFFD where the bytes were in error. *)
Lemma decode_replace_spec (b : pybytes) :
  match decode_strict b with
  | Some s => decode_replace b = s
  | None => replacement_char ∈ decode_replace b
  end.
Proof.
  unfold decode_strict, decode_replace.
  destruct (decode_strict_from 0 (map Byte.to_N b)) eqn:H.
  - by apply decode_strict_from_agrees.
  - by apply decode_from_marks_malformed.
Qed.
End Decoding.

Section RunDecoded.
Context (E : Env).

Lemma decode_or_empty_bytes (b : pybytes) st :
  decode_or_empty (VBytes b) st = (Ok (VStr (Codec.decode_replace b)), st).
Proof. destruct b; reflexivity. Qed.

(** The text-mode call goes through. *)
Lemma run_decoded_text argv timeout st ms rc out err :
  spawn E (tick st) argv None = Exits ms rc out err ->
  exceeds timeout ms = false ->
  run_decoded E argv timeout st
  = (Ok (Completed rc (VStr (Codec.decode_replace out))
                      (VStr (Codec.decode_replace err))),
     emit (Spawn argv None true timeout) st).
Proof.
  intros Hs Hx. unfold run_decoded, try_except, subprocess_run.
  by rewrite Hs, Hx.
Qed.

(** The text-mode call raises [UnicodeDecodeError]; the call for raw bytes
    goes through and both streams are decoded by hand. *)
Lemma run_decoded_fallback argv timeout st e ms rc out err :
  spawn E (tick st) argv None = CannotRun e ->
  isinstance e UnicodeDecodeError = true ->
  spawn E (S (tick st)) argv None = Exits ms rc out err ->
  exceeds timeout ms = false ->
  run_decoded E argv timeout st
  = (Ok (Completed rc (VStr (Codec.decode_replace out))
                      (VStr (Codec.decode_replace err))),
     emit (Spawn argv None false timeout) (emit (Spawn argv None true timeout) st)).
Proof.
  intros Hs He Hs2 Hx. unfold run_decoded, try_except.
  unfold subprocess_run at 1. rewrite Hs, He.
  unfold mbind, Mon_bind, subprocess_run.
  replace (tick (emit (Spawn argv None true timeout) st)) with (S (tick st))
    by (unfold tick, emit; simpl; rewrite length_app; simpl; lia).
  rewrite Hs2, Hx. cbn -[decode_or_empty Codec.decode_replace].
  by rewrite !decode_or_empty_bytes.
Qed.

(** What [run_decoded] returns holds two [str]. *)
Lemma run_decoded_str argv timeout st cp st' :
  run_decoded E argv timeout st = (Ok cp, st') ->
  exists o e, stdout cp = VStr o /\ stderr cp = VStr e.
Proof.
  unfold run_decoded, try_except.
  unfold subprocess_run at 1.
  destruct (spawn E (tick st) argv None) as [ms rc out err|e].
  - destruct (exceeds timeout ms); [|intros [= <- <-]; simpl; eauto].
    simpl. unfold raise. discriminate.
  - destruct (isinstance e UnicodeDecodeError); [|discriminate].
    unfold mbind, Mon_bind, subprocess_run.
    destruct (spawn E _ argv None) as [ms rc out err|e']; [|discriminate].
    destruct (exceeds timeout ms); [discriminate|].
    cbn -[decode_or_empty Codec.decode_replace].
    rewrite !decode_or_empty_bytes. intros [= <- <-]. simpl. eauto.
Qed.

Lemma returns_text_ret o e : returns_text (mret (VStr o, VStr e)).
Proof. intros st r st' [= <- <-]. eauto. Qed.

Lemma returns_text_bind {A} (P : A -> Prop) (m : M A) f :
  (forall st a st', m st = (Ok a, st') -> P a) ->
  (forall a, P a -> returns_text (f a)) ->
  returns_text (m ≫= f).
Proof.
  intros Hm Hf st r st'. unfold mbind, Mon_bind.
  destruct (m st) as [[a|e] s1] eqn:H1; [|discriminate].
  intros H2. eapply Hf; eauto.
Qed.

Lemma returns_text_handled body :
  returns_text body -> forall st, exists o e st',
    try_except body report_failure st = (Ok (VStr o, VStr e), st').
Proof.
  intros Hb st. unfold try_except.
  destruct (body st) as [[r|e] s1] eqn:H1.
  - destruct (Hb _ _ _ H1) as (o & e & ->). eauto.
  - unfold report_failure. destruct (isinstance e TimeoutExpired); eauto.
Qed.

Lemma returns_text_of_run (cp : CompletedProcess) (m : M unit) :
  (exists o e, stdout cp = VStr o /\ stderr cp = VStr e) ->
  returns_text (m ;; mret (stdout cp, stderr cp)).
Proof.
  intros (o & e & -> & ->).
  apply (returns_text_bind (fun _ => True)); [done|].
  intros _ _. apply returns_text_ret.
Qed.

Lemma execute_python_code_text code st :
  exists o e st', execute_python_code E code st = (Ok (VStr o, VStr e), st').
Proof.
  apply returns_text_handled.
  apply (returns_text_bind (fun _ => True)); [done|]. intros temp_file _.
  eapply returns_text_bind; [apply run_decoded_str|].
  intros cp Hcp. by apply returns_text_of_run.
Qed.

Lemma execute_javascript_code_text code st :
  exists o e st', execute_javascript_code E code st = (Ok (VStr o, VStr e), st').
Proof.
  apply returns_text_handled.
  apply (returns_text_bind (fun _ => True)); [done|]. intros chk _.
  destruct (negb _); [apply returns_text_ret|].
  apply (returns_text_bind (fun _ => True)); [done|]. intros temp_file _.
  eapply returns_text_bind; [apply run_decoded_str|].
  intros cp Hcp. by apply returns_text_of_run.
Qed.

Lemma execute_java_code_text code st :
  exists o e st', execute_java_code E code st = (Ok (VStr o, VStr e), st').
Proof.
  apply returns_text_handled.
  apply (returns_text_bind (fun _ => True)); [done|]. intros chk _.
  destruct (negb _); [apply returns_text_ret|].
  destruct (search_public_class E code) as [class_name|];
    [|apply returns_text_ret].
  apply (returns_text_bind (fun _ => True)); [done|]. intros temp_dir _.
  apply (returns_text_bind (fun _ => True)); [done|]. intros _ _.
  apply (returns_text_bind (fun _ => True)); [done|]. intros cr _.
  destruct (negb _); [apply returns_text_ret|].
  eapply returns_text_bind; [apply run_decoded_str|].
  intros cp Hcp. by apply returns_text_of_run.
Qed.
End RunDecoded.

Section PythonRuns.
Context (E : Env).

Lemma tick_emit ev st : tick (emit ev st) = S (tick st).
Proof. unfold tick, emit. simpl. rewrite length_app. simpl. lia. Qed.

Lemma keeps_fs_run_decoded argv timeout : keeps_fs id (run_decoded E argv timeout).
Proof.
  pose proof (keeps_fs_subprocess_run E). pose proof keeps_fs_decode_or_empty.
  unfold run_decoded. fs_walk.
Qed.

Lemma within_timeout seconds ms :
  (ms <= seconds * 1000)%N -> exceeds (Some seconds) ms = false.
Proof. intros H. unfold exceeds. by apply N.ltb_ge. Qed.

(** The normal path of [execute_python_code]: file written, interpreter
    run, file removed, the two streams returned. *)
Lemma execute_python_code_completes code st temp_file st1 cp st2 :
  named_temporary_file E (lit ".py") code st = (Ok temp_file, st1) ->
  run_decoded E [sys_executable E; temp_file] (Some 10%N) st1 = (Ok cp, st2) ->
  io_error E (tick st2) (Unlink temp_file) = None ->
  fst (execute_python_code E code st) = Ok (stdout cp, stderr cp).
Proof.
  intros Htmp Hrun Hio. unfold execute_python_code.
  erewrite try_except_ok; [done|].
  rewrite (bind_ok _ _ _ _ _ Htmp), (bind_ok _ _ _ _ _ Hrun).
  destruct (keeps_fs_run_decoded _ _ _ _ _ Hrun) as [Hf _]. simpl in Hf.
  unfold mbind, Mon_bind, unlink, io. rewrite Hio. simpl. rewrite Hf.
  by rewrite (named_temporary_file_present E _ _ _ _ _ Htmp).
Qed.
End PythonRuns.



(** ** The search for the public class *)

Section PublicClass.
Context (E : Env).

Lemma strip_prefix_Some p : forall s rest,
  strip_prefix p s = Some rest <-> s = p ++ rest.
Proof.
  induction p as [|a p IH]; intros s rest; simpl.
  - destruct s; split; intros H; by simplify_eq.
  - destruct s as [|b s]; [split; intros H; discriminate|].
    destruct (N.eqb_spec a b) as [->|Hne].
    + rewrite IH. split; intros H; by simplify_eq.
    + split; intros H; [discriminate|]. by simplify_eq.
Qed.

Lemma plus_then_Some {A} cls (k : pystr -> option A) : forall s r,
  plus_then cls k s = Some r ->
  exists ws rest, s = ws ++ rest /\ ws <> [] /\ forallb cls ws = true
                  /\ k rest = Some r.
Proof.
  induction s as [|c s IH]; intros r; simpl; [discriminate|].
  destruct (cls c) eqn:Hc; [|discriminate].
  destruct (plus_then cls k s) as [r'|] eqn:Hp.
  - intros [= <-]. destruct (IH _ eq_refl) as (ws & rest & -> & _ & Hws & Hk).
    exists (c :: ws), rest. simpl. by rewrite Hc, Hws.
  - intros Hk. exists [c], s. simpl. by rewrite Hc.
Qed.

Lemma plus_then_finds {A} cls (k : pystr -> option A) rest : forall ws,
  ws <> [] -> forallb cls ws = true -> is_Some (k rest) ->
  is_Some (plus_then cls k (ws ++ rest)).
Proof.
  induction ws as [|c ws IH]; [done|]. intros _. simpl.
  destruct (cls c); [|done]. simpl. intros Hws Hk.
  destruct ws as [|c' ws].
  - simpl. destruct (plus_then cls k rest); [done|]. simpl. done.
  - destruct (IH ltac:(done) Hws Hk) as [r Hr]. by rewrite Hr.
Qed.

Lemma word_group_Some s name :
  word_group E s = Some name ->
  exists w rest, s = w :: rest /\ is_word E w = true.
Proof.
  unfold word_group. destruct s as [|w rest]; simpl; [discriminate|].
  destruct (is_word E w) eqn:Hw; [|discriminate].
  intros _. by exists w, rest.
Qed.

Lemma word_group_finds w rest :
  is_word E w = true -> is_Some (word_group E (w :: rest)).
Proof. intros H. unfold word_group. simpl. rewrite H. done. Qed.

Lemma match_public_class_Some s name :
  match_public_class E s = Some name ->
  exists ws1 ws2 w rest,
    s = lit "public" ++ ws1 ++ lit "class" ++ ws2 ++ w :: rest /\
    ws1 <> [] /\ forallb (is_space E) ws1 = true /\
    ws2 <> [] /\ forallb (is_space E) ws2 = true /\ is_word E w = true.
Proof.
  unfold match_public_class. intros H.
  apply bind_Some in H as (r0 & H0 & H).
  apply strip_prefix_Some in H0 as ->.
  apply plus_then_Some in H as (ws1 & r1 & -> & N1 & S1 & H).
  apply bind_Some in H as (r2 & H2 & H).
  apply strip_prefix_Some in H2 as ->.
  apply plus_then_Some in H as (ws2 & r3 & -> & N2 & S2 & H).
  apply word_group_Some in H as (w & rest & -> & Hw).
  by exists ws1, ws2, w, rest.
Qed.

Lemma match_public_class_finds ws1 ws2 w rest :
  ws1 <> [] -> forallb (is_space E) ws1 = true ->
  ws2 <> [] -> forallb (is_space E) ws2 = true -> is_word E w = true ->
  is_Some (match_public_class E
             (lit "public" ++ ws1 ++ lit "class" ++ ws2 ++ w :: rest)).
Proof.
  intros N1 S1 N2 S2 Hw. unfold match_public_class.
  assert (strip_prefix (lit "public")
            (lit "public" ++ ws1 ++ lit "class" ++ ws2 ++ w :: rest)
          = Some (ws1 ++ lit "class" ++ ws2 ++ w :: rest)) as ->
    by by apply strip_prefix_Some.
  cbn [mbind option_bind]. apply plus_then_finds; [done..|].
  assert (strip_prefix (lit "class") (lit "class" ++ ws2 ++ w :: rest)
          = Some (ws2 ++ w :: rest)) as -> by by apply strip_prefix_Some.
  cbn [mbind option_bind]. apply plus_then_finds; [done..|].
  by apply word_group_finds.
Qed.

Lemma search_public_class_nil :
  search_public_class E []
  = match match_public_class E [] with Some n => Some n | None => None end.
Proof. reflexivity. Qed.

Lemma search_public_class_cons c s :
  search_public_class E (c :: s)
  = match match_public_class E (c :: s) with
    | Some n => Some n
    | None => search_public_class E s
    end.
Proof. reflexivity. Qed.

Lemma search_public_class_head s :
  is_Some (match_public_class E s) -> is_Some (search_public_class E s).
Proof.
  intros [n Hn]. destruct s.
  - by rewrite search_public_class_nil, Hn.
  - by rewrite search_public_class_cons, Hn.
Qed.

(** The search succeeds exactly on the texts that hold a declaration. *)
Lemma search_public_class_spec code :
  is_Some (search_public_class E code) <-> has_public_class E code.
Proof.
  split.
  - induction code as [|c code IH].
    + rewrite search_public_class_nil.
      destruct (match_public_class E []) eqn:H; [|by intros [? ?]].
      intros _. apply match_public_class_Some in H
        as (ws1 & ws2 & w & rest & Heq & ?). by exists [], ws1, ws2, w, rest.
    + rewrite search_public_class_cons.
      destruct (match_public_class E (c :: code)) eqn:H.
      * intros _. apply match_public_class_Some in H
          as (ws1 & ws2 & w & rest & Heq & ?). by exists [], ws1, ws2, w, rest.
      * intros Hs. destruct (IH Hs) as (pre & ws1 & ws2 & w & rest & -> & ?).
        by exists (c :: pre), ws1, ws2, w, rest.
  - intros (pre & ws1 & ws2 & w & rest & -> & N1 & S1 & N2 & S2 & Hw).
    induction pre as [|c pre IH].
    + apply search_public_class_head. by apply match_public_class_finds.
    + rewrite <- app_comm_cons, search_public_class_cons.
      destruct (match_public_class E _); [done|]. apply IH.
Qed.

Lemma search_public_class_None code :
  ~ has_public_class E code -> search_public_class E code = None.
Proof.
  intros H. destruct (search_public_class E code) eqn:Hs; [|done].
  destruct H. apply search_public_class_spec. by rewrite Hs.
Qed.
End PublicClass.

(** ** The steps of the Java runner *)

Section JavaSteps.
Context (E : Env).

(** [run_decoded] starts the same command once, or twice when the first
    call raised [UnicodeDecodeError], and does nothing else. *)
Lemma run_decoded_log argv timeout st r st' :
  run_decoded E argv timeout st = (r, st') ->
  exists evs, log st' = log st ++ evs /\
    Forall (fun ev => exists text, ev = Spawn argv None text timeout) evs.
Proof.
  unfold run_decoded, try_except. unfold subprocess_run at 1.
  destruct (spawn E (tick st) argv None) as [ms rc out err|e].
  - intros H. exists [Spawn argv None true timeout]. split.
    + destruct (exceeds timeout ms); by injection H as <- <-.
    + repeat constructor. by exists true.
  - destruct (isinstance e UnicodeDecodeError).
    + intros H. exists [Spawn argv None true timeout; Spawn argv None false timeout].
      split; [|repeat constructor; eauto].
      revert H. unfold mbind, Mon_bind, subprocess_run.
      destruct (spawn E _ argv None) as [ms rc out err|e'].
      * destruct (exceeds timeout ms).
        -- intros [= <- <-]. simpl. by rewrite <- app_assoc.
        -- cbn -[decode_or_empty Codec.decode_replace].
           rewrite !decode_or_empty_bytes. intros [= <- <-]. simpl.
           by rewrite <- app_assoc.
      * intros [= <- <-]. simpl. by rewrite <- app_assoc.
    + intros [= <- <-]. exists [Spawn argv None true timeout].
      split; [done|]. repeat constructor. by exists true.
Qed.

(** What [run_decoded] returns is what some run of the command wrote,
    decoded. *)
Lemma run_decoded_inv argv timeout st cp st' :
  run_decoded E argv timeout st = (Ok cp, st') ->
  exists i ms out err,
    (i = tick st \/ i = S (tick st)) /\
    spawn E i argv None = Exits ms (returncode cp) out err /\
    stdout cp = VStr (Codec.decode_replace out) /\
    stderr cp = VStr (Codec.decode_replace err).
Proof.
  unfold run_decoded, try_except. unfold subprocess_run at 1.
  destruct (spawn E (tick st) argv None) as [ms rc out err|e] eqn:Hs.
  - destruct (exceeds timeout ms); [discriminate|]. intros [= <- <-].
    exists (tick st), ms, out, err. auto.
  - destruct (isinstance e UnicodeDecodeError); [|discriminate].
    unfold mbind, Mon_bind, subprocess_run. rewrite tick_emit.
    destruct (spawn E (S (tick st)) argv None) as [ms rc out err|e'] eqn:Hs2;
      [|discriminate].
    destruct (exceeds timeout ms); [discriminate|].
    cbn -[decode_or_empty Codec.decode_replace].
    rewrite !decode_or_empty_bytes. intros [= <- <-].
    exists (S (tick st)), ms, out, err. auto.
Qed.

Lemma mkdtemp_ok st d st1 :
  mkdtemp E st = (Ok d, st1) ->
  log st1 = log st ++ [Mkdtemp d] /\ files st1 = files st
  /\ dirs st1 = {[d]} ∪ dirs st.
Proof.
  unfold mkdtemp, io, mbind, Mon_bind, mret, Mon_ret.
  destruct (io_error E (tick st) _); [discriminate|]. simpl.
  by intros [= <- <-].
Qed.

Lemma open_write_ok path text st st1 :
  open_write E path text st = (Ok tt, st1) ->
  log st1 = log st ++ [OpenWrite path; WriteText path]
  /\ files st1 = <[path := text]> (<[path := []]> (files st))
  /\ dirs st1 = dirs st.
Proof.
  unfold open_write, write_text, io, mbind, Mon_bind, mret, Mon_ret, raise.
  destruct (io_error E (tick st) _); [discriminate|]. simpl.
  destruct (Codec.encodable text); [|discriminate].
  destruct (io_error E _ _); [discriminate|]. simpl.
  intros [= <-]. simpl. by rewrite <- app_assoc.
Qed.

Lemma probe_is_not_run ev :
  (exists text, ev = Spawn [lit "java"; lit "--version"] None text None) ->
  ~ is_java_run ev.
Proof. intros [text ->] (d & c & i & t & tm & H). discriminate. Qed.

Lemma javac_is_not_run ev :
  (exists rest input text timeout, ev = Spawn (lit "javac" :: rest) input text timeout) ->
  ~ is_java_run ev.
Proof.
  intros (rest & i & t & tm & ->) (d & c & i' & t' & tm' & H).
  by injection H.
Qed.
End JavaSteps.

(** C5.  With the Java runtime present (the version probe runs and exits
    with code 0), a source text that holds no declaration
    [public class <Name>] makes [execute_java_code] return the message
    that no public class was found.  The call ends in the state the probe
    left: the files and directories are as before the call, and the only
    operations issued are the probe's; no directory is made, no file is
    written, the compiler is not started. *)
Theorem java_without_public_class (E : Env) (code : pystr) (st : state)
    (chk : CompletedProcess) (st1 : state) :
  run_decoded E [lit "java"; lit "--version"] None st = (Ok chk, st1) ->
  returncode chk = 0%Z ->
  ~ has_public_class E code ->
  execute_java_code E code st
  = (Ok (VStr [], VStr (lit "Error: No public class found in Java code")), st1)
  /\ files st1 = files st /\ dirs st1 = dirs st
  /\ exists evs, log st1 = log st ++ evs /\ Forall is_java_probe evs.
Proof.
  intros Hprobe Hrc Hno. split; [|split; [|split]].
  - unfold execute_java_code. erewrite try_except_ok; [done|].
    rewrite (bind_ok _ _ _ _ _ Hprobe), Hrc.
    by rewrite (search_public_class_None E code Hno).
  - by destruct (keeps_fs_run_decoded E _ _ _ _ _ Hprobe).
  - by destruct (keeps_fs_run_decoded E _ _ _ _ _ Hprobe).
  - by apply run_decoded_log in Hprobe.
Qed.

Lemma java_without_public_class_witness :
  fst (execute_java_code Fixtures.java_host Fixtures.java_no_public_class
         Fixtures.st0)
  = Ok (VStr [], VStr (lit "Error: No public class found in Java code")).
Proof.
  pose proof (java_without_public_class Fixtures.java_host
                Fixtures.java_no_public_class Fixtures.st0
                (Completed 0 (VStr (lit "openjdk 21")) (VStr []))
                (emit (Spawn [lit "java"; lit "--version"] None true None)
                      Fixtures.st0)) as H.
  destruct H as [H _].
  - reflexivity.
  - reflexivity.
  - intros Hhas. apply search_public_class_spec in Hhas.
    vm_compute in Hhas. by destruct Hhas.
  - by rewrite H.
Defined.



(** ** The format check *)

Section FormatCheck.
Context (E : Env).

Lemma bind_inv_ok {S A B} (m : Mon S A) (f : A -> Mon S B) s b s' :
  (m ≫= f) s = (Ok b, s') ->
  exists a s1, m s = (Ok a, s1) /\ f a s1 = (Ok b, s').
Proof.
  unfold mbind, Mon_bind. destruct (m s) as [[a|e] s1]; [eauto|discriminate].
Qed.

(** Whatever [black] does, [run_black_analysis] returns a pair, and the
    pair holds the source itself whenever it says that no formatting is
    needed. *)
Lemma run_black_analysis_unchanged code st r st' :
  run_black_analysis E code st = (r, st') ->
  exists formatted needed,
    r = Ok (formatted, needed) /\ (needed = false -> formatted = VStr code).
Proof.
  unfold run_black_analysis, try_except.
  match goal with |- context [match ?b st with _ => _ end] =>
    destruct (b st) as [[[formatted needed]|e] s1] eqn:Hbody end.
  - intros [= <- <-]. exists formatted, needed. split; [done|].
    apply bind_inv_ok in Hbody as (result & s2 & _ & Hbody).
    apply bind_inv_ok in Hbody as (diff & s3 & _ & Hbody).
    destruct (truthy (VStr (strip (is_space E) diff))).
    + apply bind_inv_ok in Hbody as (fr & s4 & _ & Hbody).
      injection Hbody as <- <- <-. discriminate.
    + by injection Hbody as <- <- <-.
  - intros H. exists (VStr code), false. split; [|done].
    destruct (isinstance e TimeoutExpired), (isinstance e FileNotFoundError);
      by injection H as <- <-.
Qed.
End FormatCheck.

(** C10.  Whatever the formatter does (an empty diff, a missing binary, a
    timeout, any exception), when the format check reports that no
    formatting is needed the formatted code it hands back is the input
    source text itself; and so is the [formatted_code] field of every
    analysis result whose [formatting_needed] field is false. *)
Theorem unformatted_code_is_the_source (E : Env) (code : pystr) (st : state) :
  (forall r st',
     run_black_analysis E code st = (r, st') ->
     exists formatted needed,
       r = Ok (formatted, needed) /\ (needed = false -> formatted = VStr code)) /\
  (forall results st',
     analyze_python_code E code st = (Ok results, st') ->
     formatting_needed results = false ->
     formatted_code results = VStr code).
Proof.
  split; [apply run_black_analysis_unchanged|].
  intros results st' H Hneeded.
  apply bind_inv_ok in H as (path & s1 & _ & H).
  unfold try_finally in H.
  match type of H with context [match ?b s1 with _ => _ end] =>
    destruct (b s1) as [rb s2] eqn:Hbody end.
  match type of H with context [match ?fin s2 with _ => _ end] =>
    destruct (fin s2) as [[[]|e] s3] end; [|discriminate].
  injection H as -> <-.
  apply bind_inv_ok in Hbody as (issues & s4 & _ & Hbody).
  apply bind_inv_ok in Hbody as ([formatted needed] & s5 & Hblack & Hbody).
  apply bind_inv_ok in Hbody as (cd & s6 & _ & Hbody).
  injection Hbody as <- <-. simpl in *.
  destruct (run_black_analysis_unchanged E _ _ _ _ Hblack)
    as (f & n & [= <- <-] & Hsame).
  auto.
Qed.

Lemma unformatted_code_is_the_source_witness :
  match fst (analyze_python_code Fixtures.bare_host Fixtures.hello Fixtures.st0) with
  | Ok results => formatted_code results = VStr Fixtures.hello
  | Raise _ => False
  end.
Proof.
  destruct (analyze_python_code Fixtures.bare_host Fixtures.hello Fixtures.st0)
    as [[results|e] st'] eqn:H; simpl.
  - apply (proj2 (unformatted_code_is_the_source Fixtures.bare_host
                    Fixtures.hello Fixtures.st0) results st' H).
    vm_compute in H. by injection H as <- <-.
  - vm_compute in H. discriminate.
Defined.

(** ** The basic analysis of the syntax tree *)

Section Walk.

Lemma ast_size_pos t : (0 < ast_size t)%nat.
Proof. destruct t. simpl. lia. Qed.

Lemma preorder_unfold c cs :
  preorder (Node c cs) = Node c cs :: flat_map preorder cs.
Proof. reflexivity. Qed.

(** With fuel for every node in the queue, the walk visits each node of
    each queued tree once. *)
Lemma walk_queue_visits_all fuel : forall todo,
  (list_sum (map ast_size todo) <= fuel)%nat ->
  walk_queue fuel todo ≡ₚ flat_map preorder todo.
Proof.
  induction fuel as [|fuel IH]; intros todo Hfuel.
  - destruct todo as [|t todo]; [done|].
    simpl in Hfuel. pose proof (ast_size_pos t). lia.
  - destruct todo as [|[c cs] rest]; [done|].
    cbn [walk_queue child_nodes flat_map]. rewrite preorder_unfold.
    rewrite IH.
    + rewrite flat_map_app. simpl. f_equiv. apply Permutation_app_comm.
    + rewrite map_app, list_sum_app. simpl in Hfuel. lia.
Qed.

Lemma walk_visits_all tree : walk tree ≡ₚ preorder tree.
Proof.
  unfold walk. rewrite walk_queue_visits_all.
  - simpl. by rewrite app_nil_r.
  - simpl. lia.
Qed.

(** The lists the source builds from [ast.walk] have as many elements as
    the tree has nodes of the classes asked for. *)
Lemma nodes_of_count classes tree :
  List.length (nodes_of classes tree) = count_class classes tree.
Proof. unfold nodes_of, count_class. by rewrite walk_visits_all. Qed.
End Walk.

Section Fallback.
Context (E : Env).

Ltac distinct_keys := let H := fresh in intros H; cbv in H; discriminate H.

(** The dict [basic_ast_analysis] builds, field by field. *)
Lemma basic_report_fields (v1 v2 v3 v4 v5 : pyval) :
  let report : gmap pystr pyval :=
    <[lit "function_count" := v1]>
      (<[lit "class_count" := v2]>
         (<[lit "control_flow_count" := v3]>
            (<[lit "estimated_complexity" := v4]>
               (<[lit "analysis_type" := v5]> ∅)))) in
  report !! lit "function_count" = Some v1 /\
  report !! lit "class_count" = Some v2 /\
  report !! lit "control_flow_count" = Some v3 /\
  report !! lit "estimated_complexity" = Some v4 /\
  report !! lit "analysis_type" = Some v5.
Proof.
  intros report. unfold report.
  repeat split;
    repeat first [ apply lookup_insert_eq
                 | rewrite lookup_insert_ne by distinct_keys ].
Qed.

Lemma basic_ast_analysis_parsed path st code st1 tree :
  open_read E path st = (Ok code, st1) ->
  ast_parse E code = Ok tree ->
  exists report,
    basic_ast_analysis E path st = (Ok report, st1) /\
    report !! lit "function_count"
    = Some (VInt (Z.of_nat (count_class [FunctionDef] tree))) /\
    report !! lit "class_count"
    = Some (VInt (Z.of_nat (count_class [ClassDef] tree))) /\
    report !! lit "control_flow_count"
    = Some (VInt (Z.of_nat (count_class [If; For; While; Try] tree))) /\
    report !! lit "estimated_complexity"
    = Some (VInt (Z.of_nat (count_class [If; For; While; Try] tree
                            + count_class [FunctionDef] tree))) /\
    report !! lit "analysis_type" = Some (VStr (lit "basic_ast")).
Proof.
  intros Hread Hparse. unfold basic_ast_analysis.
  eexists. split.
  - erewrite try_except_ok; [reflexivity|].
    rewrite (bind_ok _ _ _ _ _ Hread). unfold eval at 1.
    unfold mbind, Mon_bind. rewrite Hparse. reflexivity.
  - rewrite !nodes_of_count, <- Nat2Z.inj_add. apply basic_report_fields.
Qed.

Lemma basic_ast_analysis_unparsed path st code st1 e :
  open_read E path st = (Ok code, st1) ->
  ast_parse E code = Raise e ->
  basic_ast_analysis E path st
  = (Ok (<[lit "error" := VStr (lit "Basic AST analysis failed: " ++ exn_str e)]> ∅),
     st1).
Proof.
  intros Hread Hparse. unfold basic_ast_analysis.
  erewrite try_except_raise; [reflexivity|].
  rewrite (bind_ok _ _ _ _ _ Hread). unfold eval at 1.
  unfold mbind, Mon_bind. by rewrite Hparse.
Qed.

(** When the [try] block of [run_radon_analysis] ends with an exception,
    the report is what the basic analysis returns, laid over the
    [complexity_data] of that moment with its [error] field set. *)
Lemma run_radon_analysis_falls_back path st e cd st1 basic st2 :
  radon_block E path (∅, st) = (Raise e, (cd, st1)) ->
  basic_ast_analysis E path st1 = (Ok basic, st2) ->
  exists text,
    run_radon_analysis E path st
    = (Ok (basic ∪ <[lit "error" := VStr text]> cd), st2).
Proof.
  intros Hblock Hbasic. unfold run_radon_analysis, scope.
  assert (exists text, forall A (k : unit -> Mon (gmap pystr pyval * state) A),
    (try_except (radon_block E path)
       (fun e0 =>
          if isinstance e0 TimeoutExpired
          then set_error (lit "Radon analysis timed out")
          else if isinstance e0 FileNotFoundError
               then set_error (lit "Radon not installed. Install with: pip install radon")
               else set_error (lit "Radon analysis failed: " ++ exn_str e0))
       ≫= k) (∅, st)
    = k tt (<[lit "error" := VStr text]> cd, st1)) as [text Hstep].
  { destruct (isinstance e TimeoutExpired) eqn:H1;
      [|destruct (isinstance e FileNotFoundError) eqn:H2];
      eexists; intros A k; unfold mbind at 1, Mon_bind at 1;
      rewrite (try_except_raise _ _ _ _ _ Hblock), H1, ?H2; reflexivity. }
  exists text. rewrite Hstep.
  unfold mbind, Mon_bind, get_var. cbn [fst snd].
  rewrite (bool_decide_eq_true_2 (is_Some _))
    by (rewrite lookup_insert_eq; eauto).
  rewrite orb_true_r. unfold try_except, lift. cbn [fst snd].
  rewrite Hbasic. reflexivity.
Qed.
End Fallback.




(** ** The complexity listing of radon *)

Section Summary.

Lemma py_sum_from_ints zs : forall acc,
  py_sum_from (NInt acc) (map VInt zs) = Ok (NInt (fold_left Z.add zs acc)).
Proof. induction zs as [|z zs IH]; intros acc; simpl; [done|apply IH]. Qed.

Lemma py_sum_ints zs : py_sum (map VInt zs) = Ok (NInt (sum_Z zs)).
Proof. apply py_sum_from_ints. Qed.

Lemma num_gt_ints x y : num_gt (VInt x) (VInt y) = Ok (negb (x <=? y)%Z).
Proof.
  unfold num_gt. simpl. unfold Qle_bool. simpl. by rewrite !Z.mul_1_r.
Qed.

Lemma py_max_from_ints zs : forall best,
  py_max_from (VInt best) (map VInt zs) = Ok (VInt (fold_left Z.max zs best)).
Proof.
  induction zs as [|z zs IH]; intros best; [done|].
  cbn [map py_max_from fold_left]. rewrite num_gt_ints.
  destruct (Z.leb_spec z best); cbn [negb]; rewrite IH.
  - by rewrite Z.max_l by lia.
  - by rewrite Z.max_r by lia.
Qed.

Lemma py_max_ints zs : zs <> [] -> py_max (map VInt zs) = Ok (VInt (max_Z zs)).
Proof. destruct zs as [|z zs]; [done|]. intros _. apply py_max_from_ints. Qed.

(** [max_Z] is the maximum: an element of the list, below no other. *)
Lemma fold_max_bounds zs : forall best,
  (best <= fold_left Z.max zs best)%Z /\
  Forall (fun z => (z <= fold_left Z.max zs best)%Z) zs /\
  (fold_left Z.max zs best = best \/ fold_left Z.max zs best ∈ zs).
Proof.
  induction zs as [|z zs IH]; intros best; simpl.
  - split; [lia|]. split; [constructor|by left].
  - destruct (IH (Z.max best z)) as (Hb & Hall & Hin).
    split; [lia|]. split; [constructor; [lia|done]|].
    destruct Hin as [->|Hin]; [|right; by right].
    destruct (Z.max_spec best z) as [[_ ->]|[_ ->]]; [right; left|by left].
Qed.

Lemma max_Z_is_maximum zs :
  zs <> [] -> max_Z zs ∈ zs /\ Forall (fun z => (z <= max_Z zs)%Z) zs.
Proof.
  destruct zs as [|z zs]; [done|]. intros _. simpl.
  destruct (fold_max_bounds zs z) as (Hb & Hall & Hin). split.
  - destruct Hin as [->|Hin]; [left|by right].
  - by constructor.
Qed.

Lemma comprehension_listed funcs zs :
  listed_complexities funcs zs ->
  comprehension (fun func => py_get func (lit "complexity") (VInt 0)) funcs
  = Ok (map VInt zs).
Proof.
  induction 1 as [|func z funcs zs (d & -> & Hz) _ IH]; [done|].
  cbn [comprehension py_get map]. by rewrite Hz, IH.
Qed.
End Summary.

Section RadonSteps.
Context (E : Env).

Ltac distinct_keys := let H := fresh in intros H; cbv in H; discriminate H.

Lemma lift_run {V A} (m : M A) (v : V) st r st1 :
  m st = (r, st1) -> lift m (v, st) = (r, (v, st1)).
Proof. intros H. unfold lift. cbn [fst snd]. by rewrite H. Qed.

(** The complexity half on a listing that is not empty. *)
Lemma radon_cc_step_listing path st cc st1 text d funcs zs cd0 :
  run_tool E [lit "radon"; lit "cc"; lit "-j"; path] None false st = (Ok cc, st1) ->
  returncode cc = 0%Z -> stdout cc = VStr text -> text <> [] ->
  json_loads E text = Some (VDict d) ->
  alist_get path d = Some (VList funcs) ->
  funcs <> [] -> listed_complexities funcs zs ->
  radon_cc_step E path (cd0, st)
  = (Ok tt,
     (<[lit "function_count" := VInt (Z.of_nat (List.length funcs))]>
        (<[lit "max_complexity" := VInt (max_Z zs)]>
           (<[lit "complexity" := VFloat (mean_Z zs)]> cd0)),
      st1)).
Proof.
  intros Hrun Hrc Hout Htext Hjson Hget Hfuncs Hzs.
  assert (zs <> []) as Hne.
  { destruct Hzs; [done|discriminate]. }
  unfold radon_cc_step.
  rewrite (bind_ok _ _ _ _ _ (lift_run _ cd0 _ _ _ Hrun)).
  rewrite Hrc, Hout. cbn [Z.eqb andb truthy].
  rewrite bool_decide_eq_false_2 by done. cbn [negb].
  apply try_except_ok.
  unfold loads, expect_str. rewrite Hjson.
  unfold mbind, Mon_bind, eval, get_var, set_var, mret, Mon_ret.
  cbn [py_contains py_getitem fst snd].
  rewrite Hget. cbn [truthy].
  rewrite bool_decide_eq_true_2 by eauto.
  assert (is_empty (map VInt zs) = false) as Hfull by by destruct zs.
  destruct funcs as [|f0 funcs']; [done|].
  cbn [py_iter py_len]. rewrite (comprehension_listed _ _ Hzs), Hfull.
  rewrite py_sum_ints, py_max_ints by done. cbn [fst snd].
  unfold py_truediv, mean_Z. cbn [num_Q]. by rewrite length_map.
Qed.

(** The complexity half on an empty listing: nothing is set. *)
Lemma radon_cc_step_empty path st cc st1 text d cd0 :
  run_tool E [lit "radon"; lit "cc"; lit "-j"; path] None false st = (Ok cc, st1) ->
  returncode cc = 0%Z -> stdout cc = VStr text -> text <> [] ->
  json_loads E text = Some (VDict d) ->
  alist_get path d = Some (VList []) ->
  radon_cc_step E path (cd0, st) = (Ok tt, (cd0, st1)).
Proof.
  intros Hrun Hrc Hout Htext Hjson Hget.
  unfold radon_cc_step.
  rewrite (bind_ok _ _ _ _ _ (lift_run _ cd0 _ _ _ Hrun)).
  rewrite Hrc, Hout. cbn [Z.eqb andb truthy].
  rewrite bool_decide_eq_false_2 by done. cbn [negb].
  apply try_except_ok.
  unfold loads, expect_str. rewrite Hjson.
  unfold mbind, Mon_bind, eval, mret, Mon_ret.
  cbn [py_contains py_getitem]. rewrite Hget.
  by rewrite bool_decide_eq_true_2 by eauto.
Qed.

(** The maintainability half sets no field but [maintainability]. *)
Lemma radon_mi_step_keys path cd1 st r cd2 st' k :
  radon_mi_step E path (cd1, st) = (r, (cd2, st')) ->
  k <> lit "maintainability" -> cd2 !! k = cd1 !! k.
Proof.
  intros H Hk. unfold radon_mi_step in H.
  unfold mbind, Mon_bind, lift, try_except, eval, get_var, set_var, mret,
    Mon_ret, raise in H.
  cbn [fst snd] in H.
  repeat case_match; simplify_eq; try done.
  by rewrite lookup_insert_ne.
Qed.
End RadonSteps.




(** * Further properties of the two modules *)

(** ** Calls of the analysis tools *)

Section ToolCalls.
Context (E : Env).

(** The text-mode call of [run_tool] goes through. *)
Lemma run_tool_text argv code both st ms rc out err :
  spawn E (tick st) argv (VStr <$> code) = Exits ms rc out err ->
  (ms <= 30 * 1000)%N ->
  run_tool E argv code both st
  = (Ok (Completed rc (VStr (Codec.decode_replace out))
                      (VStr (Codec.decode_replace err))),
     emit (Spawn argv (VStr <$> code) true (Some 30%N)) st).
Proof.
  intros Hs Hms. unfold run_tool, try_except, subprocess_run.
  by rewrite Hs, (within_timeout _ _ Hms).
Qed.

(** The call raises anything but [UnicodeDecodeError]. *)
Lemma run_tool_raises argv code both st e :
  spawn E (tick st) argv (VStr <$> code) = CannotRun e ->
  isinstance e UnicodeDecodeError = false ->
  run_tool E argv code both st
  = (Raise e, emit (Spawn argv (VStr <$> code) true (Some 30%N)) st).
Proof.
  intros Hs He. unfold run_tool, try_except, subprocess_run.
  by rewrite Hs, He.
Qed.

(** The child is still running after thirty seconds. *)
Lemma run_tool_times_out argv code both st ms rc out err :
  spawn E (tick st) argv (VStr <$> code) = Exits ms rc out err ->
  (30 * 1000 < ms)%N ->
  exists e,
    isinstance e TimeoutExpired = true /\
    run_tool E argv code both st
    = (Raise e, emit (Spawn argv (VStr <$> code) true (Some 30%N)) st).
Proof.
  intros Hs Hms. unfold run_tool, try_except, subprocess_run.
  rewrite Hs. unfold exceeds. apply N.ltb_lt in Hms. rewrite Hms.
  eexists. split; [|reflexivity]. done.
Qed.

(** The [try] block of [run_flake8_analysis] begins with the call of
    [flake8]; when that call raises, the handlers append one sentinel to
    the empty list. *)
Lemma run_flake8_analysis_call_raises path st e st1 :
  run_tool E [lit "flake8"; lit "--format=json"; path] None true st
  = (Raise e, st1) ->
  run_flake8_analysis E path st
  = (Ok [if isinstance e TimeoutExpired
         then sentinel (lit "Flake8 analysis timed out") (lit "TIMEOUT")
         else if isinstance e FileNotFoundError
              then sentinel
                     (lit "Flake8 not installed. Install with: pip install flake8")
                     (lit "MISSING")
              else sentinel (lit "Flake8 analysis failed: " ++ exn_str e)
                            (lit "ERROR")],
     st1).
Proof.
  intros Hrun. unfold run_flake8_analysis, scope.
  unfold mbind at 1, Mon_bind at 1.
  erewrite try_except_raise;
    [|by rewrite (bind_raise _ _ _ _ _ (lift_run _ _ _ _ _ Hrun))].
  unfold mbind, Mon_bind, get_var, set_var. cbn [fst snd].
  destruct (isinstance e TimeoutExpired), (isinstance e FileNotFoundError);
    reflexivity.
Qed.
End ToolCalls.

(** X1.  [run_flake8_analysis] on a host where the first call of [flake8]
    fails returns exactly one sentinel issue at line 0, column 0: code
    [MISSING] when the binary is not found, [TIMEOUT] when the tool is still
    running after thirty seconds, [ERROR] with the text of the exception
    for anything else. *)
Theorem flake8_failure_is_one_sentinel (E : Env) (path : pystr) (st : state) :
  let argv := [lit "flake8"; lit "--format=json"; path] in
  (forall e, spawn E (tick st) argv None = CannotRun e ->
     exn_cls e = FileNotFoundError ->
     fst (run_flake8_analysis E path st)
     = Ok [LintIssue (VInt 0) (VInt 0)
             (VStr (lit "Flake8 not installed. Install with: pip install flake8"))
             (VStr (lit "MISSING"))]) /\
  (forall ms rc out err, spawn E (tick st) argv None = Exits ms rc out err ->
     (30 * 1000 < ms)%N ->
     fst (run_flake8_analysis E path st)
     = Ok [LintIssue (VInt 0) (VInt 0) (VStr (lit "Flake8 analysis timed out"))
             (VStr (lit "TIMEOUT"))]) /\
  (forall e, spawn E (tick st) argv None = CannotRun e ->
     isinstance e UnicodeDecodeError = false ->
     isinstance e TimeoutExpired = false ->
     isinstance e FileNotFoundError = false ->
     fst (run_flake8_analysis E path st)
     = Ok [LintIssue (VInt 0) (VInt 0)
             (VStr (lit "Flake8 analysis failed: " ++ exn_str e))
             (VStr (lit "ERROR"))]).
Proof.
  intros argv. split; [|split].
  - intros e Hs Hcls.
    assert (isinstance e UnicodeDecodeError = false) as Hude
      by (unfold isinstance; by rewrite Hcls).
    rewrite (run_flake8_analysis_call_raises E _ _ _ _
               (run_tool_raises E argv None true st e Hs Hude)).
    unfold isinstance. by rewrite Hcls.
  - intros ms rc out err Hs Hms.
    destruct (run_tool_times_out E argv None true st ms rc out err Hs Hms)
      as (e & He & Hrun).
    rewrite (run_flake8_analysis_call_raises E _ _ _ _ Hrun). by rewrite He.
  - intros e Hs Hude Hto Hfnf.
    rewrite (run_flake8_analysis_call_raises E _ _ _ _
               (run_tool_raises E argv None true st e Hs Hude)).
    by rewrite Hto, Hfnf.
Qed.

Lemma flake8_failure_is_one_sentinel_witness :
  fst (run_flake8_analysis Fixtures.bare_host Fixtures.temp_py Fixtures.st0)
  = Ok [LintIssue (VInt 0) (VInt 0)
          (VStr (lit "Flake8 not installed. Install with: pip install flake8"))
          (VStr (lit "MISSING"))] /\
  fst (run_flake8_analysis Fixtures.stalled_host Fixtures.temp_py Fixtures.st0)
  = Ok [LintIssue (VInt 0) (VInt 0) (VStr (lit "Flake8 analysis timed out"))
          (VStr (lit "TIMEOUT"))] /\
  fst (run_flake8_analysis Fixtures.denied_host Fixtures.temp_py Fixtures.st0)
  = Ok [LintIssue (VInt 0) (VInt 0)
          (VStr (lit "Flake8 analysis failed: [Errno 13] Permission denied"))
          (VStr (lit "ERROR"))].
Proof.
  split; [|split].
  - eapply (proj1 (flake8_failure_is_one_sentinel Fixtures.bare_host
                     Fixtures.temp_py Fixtures.st0)); reflexivity.
  - eapply (proj1 (proj2 (flake8_failure_is_one_sentinel Fixtures.stalled_host
                            Fixtures.temp_py Fixtures.st0))); reflexivity.
  - apply (proj2 (proj2 (flake8_failure_is_one_sentinel Fixtures.denied_host
                           Fixtures.temp_py Fixtures.st0)) Fixtures.denied);
      reflexivity.
Defined.

(** ** The JSON report of flake8 *)

Section Flake8Json.
Context (E : Env).

(** The body of the [for] loop over the items of the report. *)
Lemma flake8_item_appended d (issues : list lint_issue) (st : state) :
  (l ← eval (py_get (VDict d) (lit "line_number") (VInt 0));
   c ← eval (py_get (VDict d) (lit "column_number") (VInt 0));
   m ← eval (py_get (VDict d) (lit "text") (VStr []));
   k ← eval (py_get (VDict d) (lit "code") (VStr []));
   issues ← get_var;
   set_var (issues ++ [LintIssue l c m k])) (issues, st)
  = (Ok tt, (issues ++ [issue_of_item d], st)).
Proof. reflexivity. Qed.

Lemma flake8_items_appended ds : forall (issues : list lint_issue) (st : state),
  for_each (map VDict ds) (fun item =>
     l ← eval (py_get item (lit "line_number") (VInt 0));
     c ← eval (py_get item (lit "column_number") (VInt 0));
     m ← eval (py_get item (lit "text") (VStr []));
     k ← eval (py_get item (lit "code") (VStr []));
     issues ← get_var;
     set_var (issues ++ [LintIssue l c m k])) (issues, st)
  = (Ok tt, (issues ++ map issue_of_item ds, st)).
Proof.
  induction ds as [|d ds IH]; intros issues st.
  - cbn [map for_each]. by rewrite app_nil_r.
  - cbn [map for_each].
    rewrite (bind_ok _ _ _ _ _ (flake8_item_appended d issues st)).
    rewrite IH. by rewrite <- app_assoc.
Qed.

(** The loop stops at the first item that is no object; the issues
    appended before it stay in the list. *)
Lemma flake8_items_stop ds bad rest :
  not_a_dict bad ->
  forall (issues : list lint_issue) (st : state),
  exists e,
    isinstance e TimeoutExpired = false /\
    isinstance e FileNotFoundError = false /\
    isinstance e JSONDecodeError = false /\
    for_each (map VDict ds ++ bad :: rest) (fun item =>
       l ← eval (py_get item (lit "line_number") (VInt 0));
       c ← eval (py_get item (lit "column_number") (VInt 0));
       m ← eval (py_get item (lit "text") (VStr []));
       k ← eval (py_get item (lit "code") (VStr []));
       issues ← get_var;
       set_var (issues ++ [LintIssue l c m k])) (issues, st)
    = (Raise e, (issues ++ map issue_of_item ds, st)).
Proof.
  intros Hbad. induction ds as [|d ds IH]; intros issues st.
  - exists (Exn AttributeError (lit "object has no attribute 'get'")).
    repeat split. cbn [map app for_each]. rewrite app_nil_r.
    apply bind_raise. apply bind_raise. by destruct bad.
  - destruct (IH (issues ++ [issue_of_item d]) st) as (e & H1 & H2 & H3 & Hloop).
    exists e. repeat split; try done.
    cbn [map app for_each].
    rewrite (bind_ok _ _ _ _ _ (flake8_item_appended d issues st)).
    rewrite Hloop. by rewrite <- app_assoc.
Qed.
End Flake8Json.


(** X3.  When an item of the JSON list is no object, the issues of the
    objects before it are kept and one [ERROR] sentinel, whose message
    starts with ["Flake8 analysis failed: "], closes the list; the items
    after it are not read. *)
Theorem flake8_json_report_cut_short (E : Env) (path : pystr) (st : state)
    (r : CompletedProcess) (st1 : state) (text : pystr)
    (ds : list (list (pystr * pyval))) (bad : pyval) (rest : list pyval) :
  run_tool E [lit "flake8"; lit "--format=json"; path] None true st = (Ok r, st1) ->
  stdout r = VStr text -> text <> [] ->
  json_loads E text = Some (VList (map VDict ds ++ bad :: rest)) ->
  not_a_dict bad ->
  exists reason,
    run_flake8_analysis E path st
    = (Ok (map issue_of_item ds
           ++ [LintIssue (VInt 0) (VInt 0)
                 (VStr (lit "Flake8 analysis failed: " ++ reason))
                 (VStr (lit "ERROR"))]),
       st1).
Proof.
  intros Hrun Hout Htext Hjson Hbad.
  destruct (flake8_items_stop ds bad rest Hbad [] st1)
    as (e & Hto & Hfnf & Hjde & Hloop).
  exists (exn_str e).
  unfold run_flake8_analysis, scope.
  unfold mbind at 1, Mon_bind at 1.
  erewrite try_except_raise.
  2:{ rewrite (bind_ok _ _ _ _ _ (lift_run _ _ _ _ _ Hrun)).
      rewrite Hout. cbn [truthy]. rewrite bool_decide_eq_false_2 by done.
      cbn [negb].
      apply bind_raise. erewrite try_except_raise.
      2:{ unfold loads, expect_str. rewrite Hjson.
          unfold mbind at 1, Mon_bind at 1, eval at 1.
          unfold mbind at 1, Mon_bind at 1, eval at 1. cbn [py_iter].
          exact Hloop. }
      rewrite Hjde. reflexivity. }
  rewrite Hto, Hfnf. reflexivity.
Qed.


Lemma flake8_json_report_cut_short_witness :
  exists reason,
    fst (run_flake8_analysis (Fixtures.lint_host Fixtures.lint_json 1)
           Fixtures.temp_py Fixtures.st0)
    = Ok [LintIssue (VInt 1) (VInt 0) (VStr (lit "missing whitespace"))
            (VStr (lit "E225"));
          LintIssue (VInt 0) (VInt 0)
            (VStr (lit "Flake8 analysis failed: " ++ reason))
            (VStr (lit "ERROR"))].
Proof.
  pose (ran := run_tool (Fixtures.lint_host Fixtures.lint_json 1)
                 [lit "flake8"; lit "--format=json"; Fixtures.temp_py]
                 None true Fixtures.st0).
  destruct (flake8_json_report_cut_short
              (Fixtures.lint_host Fixtures.lint_json 1) Fixtures.temp_py
              Fixtures.st0
              (Completed 1 (VStr (lit Fixtures.lint_json)) (VStr []))
              (snd ran) (lit Fixtures.lint_json)
              [[(lit "code", VStr (lit "E225")); (lit "line_number", VInt 1);
                (lit "text", VStr (lit "missing whitespace"))]]
              (VInt 7) [])
    as [reason H].
  - reflexivity.
  - reflexivity.
  - discriminate.
  - reflexivity.
  - exact I.
  - exists reason. by rewrite H.
Defined.

(** ** Stripping and splitting *)

Section TextLemmas.
Context (space : N -> bool).

Lemma lstrip_nil s : lstrip space s = [] <-> forallb space s = true.
Proof.
  induction s as [|c s IH]; [done|]. simpl.
  destruct (space c); [apply IH|]. split; discriminate.
Qed.

Lemma lstrip_keeps_blank s :
  forallb space (lstrip space s) = true -> lstrip space s = [].
Proof.
  induction s as [|c s IH]; [done|]. simpl.
  destruct (space c) eqn:Hc; [apply IH|]. simpl. by rewrite Hc.
Qed.

Lemma forallb_rev (s : pystr) : forallb space (rev s) = forallb space s.
Proof.
  induction s as [|c s IH]; [done|]. simpl.
  rewrite forallb_app, IH. simpl. rewrite andb_true_r. apply andb_comm.
Qed.

(** [s.strip()] is empty exactly when [s] holds white space only. *)
Lemma strip_nil s : strip space s = [] <-> forallb space s = true.
Proof.
  unfold strip, rstrip. split.
  - intros H. apply lstrip_nil.
    apply (f_equal (@rev N)) in H. rewrite rev_involutive in H. simpl in H.
    apply lstrip_nil in H. rewrite forallb_rev in H.
    by apply lstrip_keeps_blank.
  - intros H. apply lstrip_nil in H. by rewrite H.
Qed.

Lemma strip_not_nil_suffix a s :
  strip space s <> [] -> strip space (a ++ s) <> [].
Proof.
  rewrite !strip_nil, forallb_app. intros H [_ ?]%andb_true_iff. done.
Qed.
End TextLemmas.

Section SplitLemmas.
Context (sep : N).

Lemma occurrences_nil : occurrences sep [] = 0%nat.
Proof. reflexivity. Qed.

Lemma occurrences_cons c s :
  occurrences sep (c :: s)
  = if (c =? sep)%N then S (occurrences sep s) else occurrences sep s.
Proof.
  unfold occurrences. destruct (N.eqb_spec c sep) as [->|Hne].
  - by rewrite filter_cons_True.
  - by rewrite filter_cons_False.
Qed.

(** The number of pieces: one more than the number of separators cut at. *)
Lemma split_from_length s : forall budget cur,
  List.length (split_from sep budget cur s)
  = S (match budget with
       | Some k => Nat.min k (occurrences sep s)
       | None => occurrences sep s
       end).
Proof.
  induction s as [|c s IH]; intros budget cur.
  - simpl. destruct budget; [by rewrite Nat.min_0_r|done].
  - cbn [split_from]. rewrite occurrences_cons.
    destruct (c =? sep)%N.
    + destruct budget as [[|k]|]; simpl; [done| |]; by rewrite IH.
    + apply IH.
Qed.

(** A text without the separator is one piece. *)
Lemma split_from_whole s : forall budget cur,
  sep ∉ s -> split_from sep budget cur s = [rev cur ++ s].
Proof.
  induction s as [|c s IH]; intros budget cur Hs.
  - simpl. by rewrite app_nil_r.
  - cbn [split_from]. destruct (N.eqb_spec c sep) as [->|Hne].
    + destruct Hs. left.
    + rewrite IH by (intros ?; apply Hs; by right).
      simpl. by rewrite <- app_assoc.
Qed.

(** Cutting at the first separator. *)
Lemma split_from_cut a rest : forall k cur,
  sep ∉ a ->
  split_from sep (Some (S k)) cur (a ++ sep :: rest)
  = (rev cur ++ a) :: split_from sep (Some k) [] rest.
Proof.
  induction a as [|c a IH]; intros k cur Ha.
  - cbn [app split_from]. rewrite N.eqb_refl. by rewrite app_nil_r.
  - cbn [app split_from]. destruct (N.eqb_spec c sep) as [->|Hne].
    + destruct Ha. left.
    + rewrite IH by (intros ?; apply Ha; by right).
      simpl. by rewrite <- app_assoc.
Qed.

Lemma split_from_spent s : forall cur,
  split_from sep (Some 0%nat) cur s = [rev cur ++ s].
Proof.
  induction s as [|c s IH]; intros cur.
  - simpl. by rewrite app_nil_r.
  - cbn [split_from]. destruct (c =? sep)%N; [done|].
    rewrite IH. simpl. by rewrite <- app_assoc.
Qed.
End SplitLemmas.

(** ** The plain report of flake8 *)

Section PlainReport.
Context (E : Env).

Lemma split_four path l c rest :
  58%N ∉ path -> 58%N ∉ l -> 58%N ∉ c ->
  split 58 (Some 3%nat) (path ++ 58%N :: l ++ 58%N :: c ++ 58%N :: rest)
  = [path; l; c; rest].
Proof.
  intros Hp Hl Hc. unfold split.
  rewrite split_from_cut by done. rewrite split_from_cut by done.
  rewrite split_from_cut by done. by rewrite split_from_spent.
Qed.

Lemma isinstance_same cls text : isinstance (Exn cls text) cls = true.
Proof. unfold isinstance, subclass. simpl. by rewrite bool_decide_eq_true_2. Qed.

Lemma nonblank_line_is_read ln :
  strip (is_space E) ln <> [] ->
  truthy (VStr (strip (is_space E) ln)) = true.
Proof. intros H. simpl. by rewrite bool_decide_eq_false_2. Qed.
End PlainReport.

(** X4.  A line [path:line:column:rest] of the plain report, with no colon
    in the first three fields and integers in the second and third, is
    read as one issue.  The text after the third colon is stripped; its
    part before the first space is the code and what follows that space is
    the message; when it holds no space, code and message are both the
    whole of it. *)
Theorem flake8_line_is_read (E : Env) (path l c rest : pystr) (ln cn : Z) :
  58%N ∉ path -> 58%N ∉ l -> 58%N ∉ c ->
  py_int E l = Some ln -> py_int E c = Some cn ->
  strip (is_space E) rest <> [] ->
  let line := path ++ 58%N :: l ++ 58%N :: c ++ 58%N :: rest in
  (forall code msg,
     strip (is_space E) rest = code ++ 32%N :: msg -> 32%N ∉ code ->
     parse_flake8_line E line
     = Some (LintIssue (VInt ln) (VInt cn) (VStr msg) (VStr code))) /\
  (32%N ∉ strip (is_space E) rest ->
   parse_flake8_line E line
   = Some (LintIssue (VInt ln) (VInt cn) (VStr (strip (is_space E) rest))
                     (VStr (strip (is_space E) rest)))).
Proof.
  intros Hp Hl Hc Hln Hcn Hrest line.
  assert (truthy (VStr (strip (is_space E) line)) = true) as Hread.
  { apply nonblank_line_is_read. unfold line.
    apply strip_not_nil_suffix.
    apply (strip_not_nil_suffix _ (58%N :: l)).
    apply (strip_not_nil_suffix _ (58%N :: c)).
    by apply (strip_not_nil_suffix _ [58%N]). }
  split.
  - intros code msg Hbody Hcode. unfold parse_flake8_line.
    rewrite Hread. fold line. unfold line at 1 2 3 4.
    rewrite split_four by done. cbn [List.length Nat.leb lookup list_lookup].
    rewrite Hln, Hcn, Hbody. unfold split.
    rewrite split_from_cut by done. by rewrite split_from_spent.
  - intros Hnone. unfold parse_flake8_line.
    rewrite Hread. fold line. unfold line at 1 2 3 4.
    rewrite split_four by done. cbn [List.length Nat.leb lookup list_lookup].
    rewrite Hln, Hcn. unfold split. by rewrite split_from_whole by done.
Qed.

Ltac by_computing := apply (bool_decide_unpack _); vm_compute; exact I.

Lemma flake8_line_is_read_witness :
  parse_flake8_line (Fixtures.lint_host "" 0) (lit Fixtures.lint_text)
  = Some (LintIssue (VInt 1) (VInt 2) (VStr (lit "missing whitespace"))
                    (VStr (lit "E225"))).
Proof.
  apply (proj1 (flake8_line_is_read (Fixtures.lint_host "" 0)
                  (lit "/tmp/tmp0.py") (lit "1") (lit "2")
                  (lit " E225 missing whitespace") 1 2
                  ltac:(by_computing) ltac:(by_computing) ltac:(by_computing)
                  eq_refl eq_refl ltac:(by_computing))
           (lit "E225") (lit "missing whitespace")).
  - vm_compute. reflexivity.
  - by_computing.
Defined.

(** X5.  Lines of the plain report that are not of that shape are passed
    over without an error: a line of white space only, a line with fewer
    than three colons, and a line whose second or third field is no
    integer each give no issue.  An output of white space only gives the
    empty list. *)
Theorem flake8_other_lines_are_skipped (E : Env) :
  (forall line, forallb (is_space E) line = true ->
     parse_flake8_line E line = None) /\
  (forall line, (occurrences 58 line < 3)%nat ->
     parse_flake8_line E line = None) /\
  (forall path l c rest,
     58%N ∉ path -> 58%N ∉ l -> 58%N ∉ c ->
     py_int E l = None \/ py_int E c = None ->
     parse_flake8_line E (path ++ 58%N :: l ++ 58%N :: c ++ 58%N :: rest)
     = None) /\
  (forall output, forallb (is_space E) output = true ->
     parse_flake8_standard_output E output = []).
Proof.
  split; [|split; [|split]].
  - intros line Hblank. unfold parse_flake8_line.
    apply strip_nil in Hblank. by rewrite Hblank.
  - intros line Hfew. unfold parse_flake8_line.
    destruct (truthy _); [|done].
    unfold split. rewrite split_from_length.
    destruct (Nat.leb_spec 4 (S (Nat.min 3 (occurrences 58 line))));
      [lia|done].
  - intros path l c rest Hp Hl Hc Hint. unfold parse_flake8_line.
    destruct (truthy _); [|done].
    rewrite split_four by done. cbn [List.length Nat.leb lookup list_lookup].
    destruct Hint as [->| ->]; [done|]. by destruct (py_int E l).
  - intros output Hblank. unfold parse_flake8_standard_output.
    apply strip_nil in Hblank. rewrite Hblank. reflexivity.
Qed.

Lemma flake8_other_lines_are_skipped_witness :
  parse_flake8_line (Fixtures.lint_host "" 0) (lit "   ") = None /\
  parse_flake8_line (Fixtures.lint_host "" 0) (lit "a.py:1: E225 x") = None /\
  parse_flake8_line (Fixtures.lint_host "" 0) (lit "C:\a.py:1:2: E225 x") = None /\
  parse_flake8_standard_output (Fixtures.lint_host "" 0) (lit "  ") = [].
Proof.
  destruct (flake8_other_lines_are_skipped (Fixtures.lint_host "" 0))
    as (H1 & H2 & H3 & H4).
  split; [|split; [|split]].
  - apply H1. reflexivity.
  - apply H2. vm_compute. lia.
  - apply (H3 (lit "C") (lit "\a.py") (lit "1") (lit "2: E225 x"));
      by_computing.
  - apply H4. reflexivity.
Defined.

(** X6.  When what [flake8] prints is no JSON, [run_flake8_analysis] reads
    it as a plain report.  The issues found there are the result unless
    there are none and the tool exited with a non-zero code.  In that
    case, as when the tool printed nothing and exited with a non-zero
    code, the tool is run once more without the JSON formatter and the
    result is what the plain reading of this second output gives. *)
Theorem flake8_plain_report (E : Env) (path : pystr) (st : state)
    (r : CompletedProcess) (st1 : state) (text : pystr) :
  run_tool E [lit "flake8"; lit "--format=json"; path] None true st = (Ok r, st1) ->
  stdout r = VStr text ->
  (text <> [] -> json_loads E text = None ->
   parse_flake8_standard_output E text <> [] \/ returncode r = 0%Z ->
   run_flake8_analysis E path st
   = (Ok (parse_flake8_standard_output E text), st1)) /\
  (forall r2 st2 text2,
     text = [] \/ json_loads E text = None
                  /\ parse_flake8_standard_output E text = [] ->
     returncode r <> 0%Z ->
     run_tool E [lit "flake8"; path] None false st1 = (Ok r2, st2) ->
     stdout r2 = VStr text2 ->
     run_flake8_analysis E path st
     = (Ok (parse_flake8_standard_output E text2), st2)).
Proof.
  intros Hrun Hout. split.
  - intros Htext Hjson Hstop.
    unfold run_flake8_analysis, scope.
    unfold mbind at 1, Mon_bind at 1.
    erewrite (try_except_ok _ _ _ tt (parse_flake8_standard_output E text, st1));
      [reflexivity|].
    rewrite (bind_ok _ _ _ _ _ (lift_run _ _ _ _ _ Hrun)).
    rewrite Hout. cbn [truthy]. rewrite bool_decide_eq_false_2 by done.
    cbn [negb].
    unfold mbind at 1, Mon_bind at 1.
    erewrite (try_except_raise _ _ _ (Exn JSONDecodeError (lit "Expecting value"))
                ([], st1)).
    2:{ unfold loads, expect_str. rewrite Hjson. reflexivity. }
    rewrite isinstance_same. cbn [expect_str].
    unfold mbind, Mon_bind, eval, get_var, set_var. cbn [fst snd].
    destruct Hstop as [Hsome|Hrc].
    + destruct (parse_flake8_standard_output E text); [done|]. reflexivity.
    + rewrite Hrc. cbn [Z.eqb negb]. by rewrite andb_false_r.
  - intros r2 st2 text2 Hnone Hrc Hrun2 Hout2.
    assert (negb (returncode r =? 0)%Z = true) as Hneg
      by (by destruct (Z.eqb_spec (returncode r) 0)).
    unfold run_flake8_analysis, scope.
    unfold mbind at 1, Mon_bind at 1.
    erewrite (try_except_ok _ _ _ tt (parse_flake8_standard_output E text2, st2));
      [reflexivity|].
    rewrite (bind_ok _ _ _ _ _ (lift_run _ _ _ _ _ Hrun)).
    rewrite Hout. destruct Hnone as [->|[Hjson Hparse]].
    + cbn [truthy negb]. rewrite bool_decide_eq_true_2 by done. cbn [negb].
      unfold mbind at 1, Mon_bind at 1. unfold mret at 1, Mon_ret at 1.
      unfold mbind at 1, Mon_bind at 1. unfold get_var at 1. cbn [fst snd].
      rewrite Hneg. cbn [is_empty andb].
      rewrite (bind_ok _ _ _ _ _ (lift_run _ _ _ _ _ Hrun2)).
      rewrite Hout2. reflexivity.
    + destruct text as [|c0 text'] eqn:Htext.
      { cbn [truthy negb]. rewrite bool_decide_eq_true_2 by done. cbn [negb].
        unfold mbind at 1, Mon_bind at 1. unfold mret at 1, Mon_ret at 1.
        unfold mbind at 1, Mon_bind at 1. unfold get_var at 1. cbn [fst snd].
        rewrite Hneg. cbn [is_empty andb].
        rewrite (bind_ok _ _ _ _ _ (lift_run _ _ _ _ _ Hrun2)).
        rewrite Hout2. reflexivity. }
      cbn [truthy]. rewrite bool_decide_eq_false_2 by done. cbn [negb].
      unfold mbind at 1, Mon_bind at 1.
      erewrite (try_except_raise _ _ _ (Exn JSONDecodeError (lit "Expecting value"))
                  ([], st1)).
      2:{ unfold loads, expect_str. rewrite Hjson. reflexivity. }
      rewrite isinstance_same. cbn [expect_str].
      unfold mbind at 1, Mon_bind at 1, eval at 1.
      unfold set_var at 1. cbn [fst snd]. rewrite Hparse.
      unfold mbind at 1, Mon_bind at 1. unfold get_var at 1. cbn [fst snd].
      rewrite Hneg. cbn [is_empty andb].
      rewrite (bind_ok _ _ _ _ _ (lift_run _ _ _ _ _ Hrun2)).
      rewrite Hout2. reflexivity.
Qed.

Lemma flake8_plain_report_witness :
  let issue := LintIssue (VInt 1) (VInt 2) (VStr (lit "missing whitespace"))
                         (VStr (lit "E225")) in
  fst (run_flake8_analysis (Fixtures.lint_host Fixtures.lint_text 1)
         Fixtures.temp_py Fixtures.st0) = Ok [issue] /\
  fst (run_flake8_analysis (Fixtures.lint_host "" 1)
         Fixtures.temp_py Fixtures.st0) = Ok [issue].
Proof.
  intros issue. split.
  - set (E := Fixtures.lint_host Fixtures.lint_text 1).
    pose (ran := run_tool E [lit "flake8"; lit "--format=json"; Fixtures.temp_py]
                   None true Fixtures.st0).
    rewrite (proj1 (flake8_plain_report E Fixtures.temp_py Fixtures.st0
                      (Completed 1 (VStr (lit Fixtures.lint_text)) (VStr []))
                      (snd ran) (lit Fixtures.lint_text) eq_refl eq_refl)).
    + reflexivity.
    + discriminate.
    + reflexivity.
    + left. vm_compute. discriminate.
  - set (E := Fixtures.lint_host "" 1).
    pose (ran := run_tool E [lit "flake8"; lit "--format=json"; Fixtures.temp_py]
                   None true Fixtures.st0).
    pose (again := run_tool E [lit "flake8"; Fixtures.temp_py] None false
                     (snd ran)).
    rewrite (proj2 (flake8_plain_report E Fixtures.temp_py Fixtures.st0
                      (Completed 1 (VStr []) (VStr [])) (snd ran) []
                      eq_refl eq_refl)
               (Completed 1 (VStr (lit Fixtures.lint_text)) (VStr []))
               (snd again) (lit Fixtures.lint_text)).
    + reflexivity.
    + by left.
    + discriminate.
    + reflexivity.
    + reflexivity.
Defined.

(** ** The second call of the formatter *)

(** X7.  When the diff that [black] prints is not blank,
    [run_black_analysis] calls [black] a second time with the same source
    on its standard input.  If that call exits with code 0 the result is
    its output and [True]; if it exits with another code the result is the
    source and [True]; if it raises (a timeout included) the result is the
    source and [False], although the diff asked for formatting. *)
Theorem black_second_call (E : Env) (code : pystr) (st : state)
    (r1 : CompletedProcess) (st1 : state) (diff : pystr) :
  run_tool E [lit "black"; lit "--diff"; lit "-"] (Some code) false st
  = (Ok r1, st1) ->
  stdout r1 = VStr diff -> strip (is_space E) diff <> [] ->
  (forall r2 st2,
     run_tool E [lit "black"; lit "-"] (Some code) false st1 = (Ok r2, st2) ->
     run_black_analysis E code st
     = (Ok (if (returncode r2 =? 0)%Z then stdout r2 else VStr code, true),
        st2)) /\
  (forall e st2,
     run_tool E [lit "black"; lit "-"] (Some code) false st1 = (Raise e, st2) ->
     run_black_analysis E code st = (Ok (VStr code, false), st2)).
Proof.
  intros Hrun Hout Hdiff.
  assert (truthy (VStr (strip (is_space E) diff)) = true) as Hneeded
    by (simpl; by rewrite bool_decide_eq_false_2).
  split.
  - intros r2 st2 Hrun2. unfold run_black_analysis.
    apply try_except_ok.
    rewrite (bind_ok _ _ _ _ _ Hrun), Hout.
    unfold mbind at 1, Mon_bind at 1, eval at 1. cbn [expect_str].
    rewrite Hneeded. by rewrite (bind_ok _ _ _ _ _ Hrun2).
  - intros e st2 Hrun2. unfold run_black_analysis.
    erewrite try_except_raise.
    2:{ rewrite (bind_ok _ _ _ _ _ Hrun), Hout.
        unfold mbind at 1, Mon_bind at 1, eval at 1. cbn [expect_str].
        rewrite Hneeded. by rewrite (bind_raise _ _ _ _ _ Hrun2). }
    by destruct (isinstance e TimeoutExpired), (isinstance e FileNotFoundError).
Qed.

Lemma black_second_call_witness :
  fst (run_black_analysis (Fixtures.black_host 0 200) Fixtures.unformatted
         Fixtures.st0) = Ok (VStr (lit "x = 1"), true) /\
  fst (run_black_analysis (Fixtures.black_host 123 200) Fixtures.unformatted
         Fixtures.st0) = Ok (VStr Fixtures.unformatted, true) /\
  fst (run_black_analysis (Fixtures.black_host 0 31000) Fixtures.unformatted
         Fixtures.st0) = Ok (VStr Fixtures.unformatted, false).
Proof.
  assert (forall rc ms,
    let E := Fixtures.black_host rc ms in
    let ran := run_tool E [lit "black"; lit "--diff"; lit "-"]
                 (Some Fixtures.unformatted) false Fixtures.st0 in
    let again := run_tool E [lit "black"; lit "-"] (Some Fixtures.unformatted)
                   false (snd ran) in
    (forall r2, fst again = Ok r2 ->
       fst (run_black_analysis E Fixtures.unformatted Fixtures.st0)
       = Ok (if (returncode r2 =? 0)%Z then stdout r2
             else VStr Fixtures.unformatted, true)) /\
    (forall e, fst again = Raise e ->
       fst (run_black_analysis E Fixtures.unformatted Fixtures.st0)
       = Ok (VStr Fixtures.unformatted, false))) as H.
  { intros rc ms E ran again.
    destruct (black_second_call E Fixtures.unformatted Fixtures.st0
                (Completed 0 (VStr (lit Fixtures.black_diff)) (VStr []))
                (snd ran) (lit Fixtures.black_diff) eq_refl eq_refl
                ltac:(by_computing)) as [H1 H2].
    split.
    - intros r2 Hr2. rewrite (H1 r2 (snd again)); [done|].
      rewrite <- Hr2. apply surjective_pairing.
    - intros e He. rewrite (H2 e (snd again)); [done|].
      rewrite <- He. apply surjective_pairing. }
  split; [|split].
  - apply (proj1 (H 0%Z 200%N) (Completed 0 (VStr (lit "x = 1")) (VStr []))).
    reflexivity.
  - apply (proj1 (H 123%Z 200%N) (Completed 123 (VStr (lit "x = 1")) (VStr []))).
    reflexivity.
  - apply (proj2 (H 0%Z 31000%N) (Exn TimeoutExpired (lit "Command timed out"))).
    reflexivity.
Defined.

(** ** The three steps of the analysis *)

(** X8.  Each of the three steps of the analysis, and the basic analysis
    of the syntax tree, returns from every state of every host without
    raising, and leaves the temporary files and directories as they are:
    the steps read the temporary file of the analysis, they never write or
    remove it. *)
Theorem analysis_steps_are_contained (E : Env) (path code : pystr) :
  (never_raises (run_flake8_analysis E path) /\
   never_raises (run_black_analysis E code) /\
   never_raises (run_radon_analysis E path) /\
   never_raises (basic_ast_analysis E path)) /\
  (keeps_fs id (run_flake8_analysis E path) /\
   keeps_fs id (run_black_analysis E code) /\
   keeps_fs id (run_radon_analysis E path) /\
   keeps_fs id (basic_ast_analysis E path)).
Proof.
  split; (split; [|split; [|split]]).
  - apply run_flake8_analysis_returns.
  - apply run_black_analysis_returns.
  - apply run_radon_analysis_returns.
  - apply never_raises_try. intros e. apply never_raises_ret.
  - apply keeps_fs_run_flake8_analysis.
  - apply keeps_fs_run_black_analysis.
  - apply keeps_fs_run_radon_analysis.
  - apply keeps_fs_basic_ast_analysis.
Qed.

(** ** More on the complexity report *)

Section RadonMore.
Context (E : Env).

(** The complexity half sets no field but its three. *)
Lemma radon_cc_step_keys path cd1 st r cd2 st' k :
  radon_cc_step E path (cd1, st) = (r, (cd2, st')) ->
  k <> lit "complexity" -> k <> lit "max_complexity" ->
  k <> lit "function_count" ->
  cd2 !! k = cd1 !! k.
Proof.
  intros H K1 K2 K3. unfold radon_cc_step in H.
  unfold mbind, Mon_bind, lift, try_except, eval, get_var, set_var, mret,
    Mon_ret, raise in H.
  cbn [fst snd] in H.
  repeat case_match; simplify_eq; cbn [fst snd];
    rewrite ?lookup_insert_ne by done; done.
Qed.

(** The maintainability half on a report that holds an object under the
    path of the file. *)
Lemma radon_mi_step_entry path st r st1 text d entry cd0 :
  run_tool E [lit "radon"; lit "mi"; lit "-j"; path] None false st = (Ok r, st1) ->
  returncode r = 0%Z -> stdout r = VStr text -> text <> [] ->
  json_loads E text = Some (VDict d) ->
  alist_get path d = Some (VDict entry) ->
  radon_mi_step E path (cd0, st)
  = (Ok tt,
     (<[lit "maintainability" :=
          from_option id (VInt 0) (alist_get (lit "mi") entry)]> cd0, st1)).
Proof.
  intros Hrun Hrc Hout Htext Hjson Hget.
  unfold radon_mi_step.
  rewrite (bind_ok _ _ _ _ _ (lift_run _ cd0 _ _ _ Hrun)).
  rewrite Hrc, Hout. cbn [Z.eqb andb truthy].
  rewrite bool_decide_eq_false_2 by done. cbn [negb].
  apply try_except_ok.
  unfold loads, expect_str. rewrite Hjson.
  unfold mbind, Mon_bind, eval, get_var, set_var, mret, Mon_ret.
  cbn [py_contains py_getitem fst snd]. rewrite Hget.
  rewrite bool_decide_eq_true_2 by eauto. reflexivity.
Qed.

(** The end of [run_radon_analysis] when the [try] block completes. *)
Lemma run_radon_analysis_completes path st cd st1 :
  radon_block E path (∅, st) = (Ok tt, (cd, st1)) ->
  cd <> ∅ -> cd !! lit "error" = None ->
  run_radon_analysis E path st = (Ok cd, st1).
Proof.
  intros Hblock Hne Herr. unfold run_radon_analysis, scope.
  unfold mbind at 1, Mon_bind at 1.
  rewrite (try_except_ok _ _ _ _ _ Hblock).
  unfold mbind, Mon_bind, get_var. cbn [fst snd].
  rewrite (bool_decide_eq_false_2 (cd = ∅)) by done.
  rewrite Herr. rewrite bool_decide_eq_false_2 by by intros [? ?].
  reflexivity.
Qed.

Lemma run_radon_analysis_nothing path st st1 basic st2 :
  radon_block E path (∅, st) = (Ok tt, (∅, st1)) ->
  basic_ast_analysis E path st1 = (Ok basic, st2) ->
  run_radon_analysis E path st = (Ok basic, st2).
Proof.
  intros Hblock Hbasic. unfold run_radon_analysis, scope.
  unfold mbind at 1, Mon_bind at 1.
  rewrite (try_except_ok _ _ _ _ _ Hblock).
  unfold mbind, Mon_bind, get_var. cbn [fst snd].
  rewrite (bool_decide_eq_true_2 (∅ = ∅)) by done. cbn [orb].
  unfold try_except, lift. cbn [fst snd]. rewrite Hbasic.
  unfold set_var. cbn [fst snd]. by rewrite (right_id_L ∅ (∪)).
Qed.
End RadonMore.

(** X9.  When the complexity half of the [try] block completes and
    [radon mi] exits with code 0 and prints a JSON object that holds an
    object under the path of the file, the report is what the complexity
    half left plus [maintainability], equal to the [mi] field of that
    object, or to 0 when the object has no such field. *)
Theorem maintainability_is_reported (E : Env) (path : pystr) (st : state)
    (cd1 : gmap pystr pyval) (st1 : state) (r : CompletedProcess)
    (st2 : state) (text : pystr) (d entry : list (pystr * pyval)) :
  radon_cc_step E path (∅, st) = (Ok tt, (cd1, st1)) ->
  run_tool E [lit "radon"; lit "mi"; lit "-j"; path] None false st1 = (Ok r, st2) ->
  returncode r = 0%Z -> stdout r = VStr text -> text <> [] ->
  json_loads E text = Some (VDict d) ->
  alist_get path d = Some (VDict entry) ->
  run_radon_analysis E path st
  = (Ok (<[lit "maintainability" :=
             from_option id (VInt 0) (alist_get (lit "mi") entry)]> cd1),
     st2).
Proof.
  intros Hcc Hrun Hrc Hout Htext Hjson Hget.
  apply run_radon_analysis_completes.
  - unfold radon_block. rewrite (bind_ok _ _ _ _ _ Hcc).
    by apply (radon_mi_step_entry E path st1 r st2 text d entry cd1).
  - intros Hempty.
    apply (f_equal (fun m : gmap pystr pyval => m !! lit "maintainability"))
      in Hempty.
    by rewrite lookup_insert_eq, lookup_empty in Hempty.
  - rewrite lookup_insert_ne by (intros H; cbv in H; discriminate H).
    rewrite (radon_cc_step_keys E _ _ _ _ _ _ (lit "error") Hcc);
      [done| | |]; intros H; cbv in H; discriminate H.
Qed.

Lemma maintainability_is_reported_witness :
  fst (run_radon_analysis Fixtures.radon_empty_host Fixtures.temp_py
         (Fixtures.analysing Fixtures.radon_empty_host Fixtures.no_functions))
  = Ok (<[lit "maintainability" := VFloat 100]> ∅).
Proof.
  set (E := Fixtures.radon_empty_host).
  set (st := Fixtures.analysing E Fixtures.no_functions).
  pose (first := radon_cc_step E Fixtures.temp_py (∅, st)).
  pose (ran := run_tool E [lit "radon"; lit "mi"; lit "-j"; Fixtures.temp_py]
                 None false (snd (snd first))).
  rewrite (maintainability_is_reported E Fixtures.temp_py st ∅
             (snd (snd first))
             (Completed 0 (VStr (lit Fixtures.mi_report)) (VStr []))
             (snd ran) (lit Fixtures.mi_report)
             [(Fixtures.temp_py,
               VDict [(lit "mi", VFloat 100); (lit "rank", VStr (lit "A"))])]
             [(lit "mi", VFloat 100); (lit "rank", VStr (lit "A"))]).
  - reflexivity.
  - vm_compute. reflexivity.
  - vm_compute. reflexivity.
  - reflexivity.
  - reflexivity.
  - discriminate.
  - vm_compute. reflexivity.
  - vm_compute. reflexivity.
Defined.

Section RadonFailure.
Context (E : Env).

(** The report after the [try] block ended with the exception [e]. *)
Lemma run_radon_analysis_reports_failure path st e cd st1 basic st2 :
  radon_block E path (∅, st) = (Raise e, (cd, st1)) ->
  basic_ast_analysis E path st1 = (Ok basic, st2) ->
  run_radon_analysis E path st
  = (Ok (basic ∪ <[lit "error" := VStr (radon_error e)]> cd), st2).
Proof.
  intros Hblock Hbasic. unfold run_radon_analysis, scope.
  unfold mbind at 1, Mon_bind at 1.
  rewrite (try_except_raise _ _ _ _ _ Hblock).
  assert ((if isinstance e TimeoutExpired
           then set_error (lit "Radon analysis timed out")
           else if isinstance e FileNotFoundError
                then set_error (lit "Radon not installed. Install with: pip install radon")
                else set_error (lit "Radon analysis failed: " ++ exn_str e))
          = set_error (radon_error e)) as ->.
  { unfold radon_error. by repeat case_match. }
  unfold set_error, mbind, Mon_bind, get_var, set_var. cbn [fst snd].
  rewrite (bool_decide_eq_true_2 (is_Some _))
    by (rewrite lookup_insert_eq; eauto).
  rewrite orb_true_r. unfold try_except, lift. cbn [fst snd].
  rewrite Hbasic. reflexivity.
Qed.

(** The basic analysis sets no field but its own five, or [error]. *)
Lemma basic_ast_analysis_other_keys path st basic st1 k :
  basic_ast_analysis E path st = (Ok basic, st1) ->
  k <> lit "function_count" -> k <> lit "class_count" ->
  k <> lit "control_flow_count" -> k <> lit "estimated_complexity" ->
  k <> lit "analysis_type" -> k <> lit "error" ->
  basic !! k = None.
Proof.
  intros H K1 K2 K3 K4 K5 K6. unfold basic_ast_analysis in H.
  unfold try_except, mbind, Mon_bind, eval, mret, Mon_ret in H.
  repeat case_match; simplify_eq;
    rewrite ?lookup_insert_ne by done; apply lookup_empty.
Qed.

Lemma radon_mi_step_call_raises path cd st e st1 :
  run_tool E [lit "radon"; lit "mi"; lit "-j"; path] None false st = (Raise e, st1) ->
  radon_mi_step E path (cd, st) = (Raise e, (cd, st1)).
Proof.
  intros H. unfold radon_mi_step. apply bind_raise. by apply lift_run.
Qed.

Lemma radon_step_skipped (r : CompletedProcess) :
  returncode r <> 0%Z \/ stdout r = VStr [] ->
  (returncode r =? 0)%Z && truthy (stdout r) = false.
Proof.
  intros [H| ->].
  - apply Z.eqb_neq in H. by rewrite H.
  - cbn [truthy]. rewrite bool_decide_eq_true_2 by done. apply andb_false_r.
Qed.
End RadonFailure.

(** X10.  When what [radon cc] prints holds, under the path of the file,
    an object that is not empty instead of a list (as the tool prints for
    a file it cannot parse), the complexity half fails with an
    [AttributeError] on the first key of that object: the [try] block ends
    before [radon mi] is called, and the report is the one of the basic
    analysis with the [error] field ["Radon analysis failed: "] followed
    by the text of the exception, unless the basic analysis sets [error]
    itself. *)
Theorem listing_that_is_an_object (E : Env) (path : pystr) (st : state)
    (r : CompletedProcess) (st1 : state) (text : pystr)
    (d entry : list (pystr * pyval)) :
  run_tool E [lit "radon"; lit "cc"; lit "-j"; path] None false st = (Ok r, st1) ->
  returncode r = 0%Z -> stdout r = VStr text -> text <> [] ->
  json_loads E text = Some (VDict d) ->
  alist_get path d = Some (VDict entry) -> entry <> [] ->
  exists e,
    exn_cls e = AttributeError /\
    radon_block E path (∅, st) = (Raise e, (∅, st1)) /\
    forall basic st2,
      basic_ast_analysis E path st1 = (Ok basic, st2) ->
      run_radon_analysis E path st
      = (Ok (basic ∪ <[lit "error" :=
                         VStr (lit "Radon analysis failed: " ++ exn_str e)]> ∅),
         st2).
Proof.
  intros Hrun Hrc Hout Htext Hjson Hget Hentry.
  exists (Exn AttributeError (lit "object has no attribute 'get'")).
  assert (radon_block E path (∅, st)
          = (Raise (Exn AttributeError (lit "object has no attribute 'get'")),
             (∅, st1))) as Hblock.
  { unfold radon_block. apply bind_raise. unfold radon_cc_step.
    rewrite (bind_ok _ _ _ _ _ (lift_run _ ∅ _ _ _ Hrun)).
    rewrite Hrc, Hout. cbn [Z.eqb andb truthy].
    rewrite bool_decide_eq_false_2 by done. cbn [negb].
    rewrite (try_except_raise _ _ _
               (Exn AttributeError (lit "object has no attribute 'get'"))
               (∅, st1)); [reflexivity|].
    unfold loads, expect_str. rewrite Hjson.
    unfold mbind, Mon_bind, eval.
    cbn [py_contains py_getitem]. rewrite Hget.
    rewrite bool_decide_eq_true_2 by eauto.
    destruct entry as [|[k0 v0] entry']; [done|]. reflexivity. }
  split; [reflexivity|]. split; [exact Hblock|].
  intros basic st2 Hbasic.
  by rewrite (run_radon_analysis_reports_failure E _ _ _ _ _ _ _ Hblock Hbasic).
Qed.

Lemma listing_that_is_an_object_witness :
  exists e,
    exn_cls e = AttributeError /\
    fst (radon_block Fixtures.radon_unreadable_host Fixtures.temp_py
           (∅, Fixtures.analysing Fixtures.radon_unreadable_host
                 Fixtures.unparsable))
    = Raise e.
Proof.
  set (E := Fixtures.radon_unreadable_host).
  set (st := Fixtures.analysing E Fixtures.unparsable).
  pose (ran := run_tool E [lit "radon"; lit "cc"; lit "-j"; Fixtures.temp_py]
                 None false st).
  destruct (listing_that_is_an_object E Fixtures.temp_py st
              (Completed 0 (VStr (lit Fixtures.cc_unreadable)) (VStr []))
              (snd ran) (lit Fixtures.cc_unreadable)
              [(Fixtures.temp_py, VDict Fixtures.unreadable_entry)]
              Fixtures.unreadable_entry)
    as (e & Hcls & Hblock & _).
  - vm_compute. reflexivity.
  - reflexivity.
  - reflexivity.
  - discriminate.
  - vm_compute. reflexivity.
  - vm_compute. reflexivity.
  - discriminate.
  - exists e. split; [exact Hcls|]. by rewrite Hblock.
Defined.



(** X12.  When both [radon] calls return but neither gives anything to
    read (a non-zero exit code, or nothing on standard output), the [try]
    block leaves [complexity_data] empty, and the report is exactly what
    the basic analysis returns for the file. *)
Theorem radon_without_output (E : Env) (path : pystr) (st : state)
    (r1 : CompletedProcess) (st1 : state) (r2 : CompletedProcess)
    (st2 : state) :
  run_tool E [lit "radon"; lit "cc"; lit "-j"; path] None false st = (Ok r1, st1) ->
  returncode r1 <> 0%Z \/ stdout r1 = VStr [] ->
  run_tool E [lit "radon"; lit "mi"; lit "-j"; path] None false st1 = (Ok r2, st2) ->
  returncode r2 <> 0%Z \/ stdout r2 = VStr [] ->
  run_radon_analysis E path st = basic_ast_analysis E path st2.
Proof.
  intros Hcc H1 Hmi H2.
  assert (radon_block E path (∅, st) = (Ok tt, (∅, st2))) as Hblock.
  { assert (radon_cc_step E path (∅, st) = (Ok tt, (∅, st1))) as Hfirst.
    { unfold radon_cc_step.
      rewrite (bind_ok _ _ _ _ _ (lift_run _ ∅ _ _ _ Hcc)).
      by rewrite (radon_step_skipped _ H1). }
    unfold radon_block. rewrite (bind_ok _ _ _ _ _ Hfirst).
    unfold radon_mi_step.
    rewrite (bind_ok _ _ _ _ _ (lift_run _ ∅ _ _ _ Hmi)).
    by rewrite (radon_step_skipped _ H2). }
  destruct (basic_ast_analysis E path st2) as [[basic|e] st3] eqn:Hbasic.
  - apply (run_radon_analysis_nothing E _ _ _ _ _ Hblock Hbasic).
  - assert (never_raises (basic_ast_analysis E path)) as Hnever.
    { apply never_raises_try. intros e0. apply never_raises_ret. }
    destruct (Hnever st2) as (a & s & Ha). congruence.
Qed.

Lemma radon_without_output_witness :
  fst (run_radon_analysis Fixtures.crashing_host Fixtures.temp_py
         (Fixtures.analysing Fixtures.crashing_host Fixtures.unparsable))
  = Ok (<[lit "error" :=
            VStr (lit "Basic AST analysis failed: invalid syntax")]> ∅).
Proof.
  set (E := Fixtures.crashing_host).
  set (st := Fixtures.analysing E Fixtures.unparsable).
  pose (first := run_tool E [lit "radon"; lit "cc"; lit "-j"; Fixtures.temp_py]
                   None false st).
  pose (second := run_tool E [lit "radon"; lit "mi"; lit "-j"; Fixtures.temp_py]
                    None false (snd first)).
  rewrite (radon_without_output E Fixtures.temp_py st
             (Completed 1 (VStr []) (VStr (lit "Traceback"))) (snd first)
             (Completed 1 (VStr []) (VStr (lit "Traceback"))) (snd second)).
  - vm_compute. reflexivity.
  - vm_compute. reflexivity.
  - left. discriminate.
  - vm_compute. reflexivity.
  - left. discriminate.
Defined.

(** ** The dependency check *)

Section Dependencies.
Context (E : Env).

Lemma missing_is_not_decode_error e :
  isinstance e FileNotFoundError = true -> isinstance e UnicodeDecodeError = false.
Proof. destruct e as [[] msg]; done. Qed.

(** A loop stops at the first element on which its body raises. *)
Lemma for_each_raises {S A} (xs : list A) (body : A -> Mon S unit) x :
  x ∈ xs ->
  (forall s, exists e s', body x s = (Raise e, s')) ->
  forall s, exists e s', for_each xs body s = (Raise e, s').
Proof.
  intros Hx Hbody. induction xs as [|y xs IH]; [by apply elem_of_nil in Hx|].
  intros s. cbn [for_each]. unfold mbind, Mon_bind.
  destruct (body y s) as [[[]|e] s1] eqn:Hy; [|by eauto].
  apply elem_of_cons in Hx as [->|Hx].
  - destruct (Hbody s) as (e & s' & He). congruence.
  - by apply IH.
Qed.
End Dependencies.

(** X13.  [check_dependencies] probes [flake8], [black] and [radon] in this
    order with [--version].  When each probe either ends (in time or not)
    or fails because the program is not found, the function returns a
    dict with exactly these three keys; a tool is reported as available if
    and only if its probe exited with code 0 within five seconds. *)
Theorem tools_are_probed (E : Env) (st : state) (c1 c2 c3 : child) :
  spawn E (tick st) [lit "flake8"; lit "--version"] None = c1 ->
  spawn E (tick st + 1) [lit "black"; lit "--version"] None = c2 ->
  spawn E (tick st + 2) [lit "radon"; lit "--version"] None = c3 ->
  (forall c e, c ∈ [c1; c2; c3] -> c = CannotRun e ->
               isinstance e FileNotFoundError = true) ->
  fst (check_dependencies E st)
  = Ok (<[lit "radon" := answers c3]>
          (<[lit "black" := answers c2]>
             (<[lit "flake8" := answers c1]> ∅))) /\
  tick (snd (check_dependencies E st)) = (tick st + 3)%nat.
Proof.
  intros H1 H2 H3 Hmissing.
  assert (forall tool (tools : gmap pystr bool) s c,
            spawn E (tick s) [tool; lit "--version"] None = c ->
            c ∈ [c1; c2; c3] ->
            try_except
              (result ← lift
                 (try_except
                    (subprocess_run E [tool; lit "--version"] None true (Some 5%N))
                    (fun e =>
                       if isinstance e UnicodeDecodeError
                       then subprocess_run E [tool; lit "--version"] None false
                                           (Some 5%N)
                       else raise e));
               tools ← get_var;
               set_var (<[tool := (returncode result =? 0)%Z]> tools))
              (fun e =>
                 if isinstance e TimeoutExpired || isinstance e FileNotFoundError
                 then tools ← get_var; set_var (<[tool := false]> tools)
                 else raise e) (tools, s)
            = (Ok tt, (<[tool := answers c]> tools,
                       emit (Spawn [tool; lit "--version"] None true (Some 5%N)) s)))
    as Hstep.
  { intros tool tools s c Hc Hin.
    unfold try_except, lift, subprocess_run, mbind, Mon_bind, get_var, set_var,
      raise, exceeds.
    cbn [fst snd]. rewrite Hc. destruct c as [ms rc out err|e].
    - cbn [answers]. destruct (5 * 1000 <? ms)%N; reflexivity.
    - pose proof (Hmissing _ e Hin eq_refl) as He.
      rewrite (missing_is_not_decode_error _ He). cbn [fst snd].
      rewrite He, orb_true_r. reflexivity. }
  assert (check_dependencies E st
          = (Ok (<[lit "radon" := answers c3]>
                   (<[lit "black" := answers c2]>
                      (<[lit "flake8" := answers c1]> ∅))),
             emit (Spawn [lit "radon"; lit "--version"] None true (Some 5%N))
               (emit (Spawn [lit "black"; lit "--version"] None true (Some 5%N))
                  (emit (Spawn [lit "flake8"; lit "--version"] None true
                           (Some 5%N)) st)))) as ->.
  { unfold check_dependencies, scope. cbn [for_each].
    unfold mbind at 1 2 3 4, Mon_bind at 1 2 3 4.
    rewrite (Hstep _ _ _ c1 H1) by set_solver.
    rewrite (Hstep _ _ _ c2);
      [|rewrite tick_emit, <- H2; f_equal; lia|set_solver].
    rewrite (Hstep _ _ _ c3);
      [|rewrite !tick_emit, <- H3; f_equal; lia|set_solver].
    reflexivity. }
  cbn [fst snd]. split; [reflexivity|]. rewrite !tick_emit. lia.
Qed.

Lemma tools_are_probed_witness :
  fst (check_dependencies Fixtures.radon_half_host Fixtures.st0)
  = Ok (<[lit "radon" := true]>
          (<[lit "black" := true]> (<[lit "flake8" := true]> ∅))) /\
  fst (check_dependencies Fixtures.bare_host Fixtures.st0)
  = Ok (<[lit "radon" := false]>
          (<[lit "black" := false]> (<[lit "flake8" := false]> ∅))) /\
  fst (check_dependencies Fixtures.crashing_host Fixtures.st0)
  = Ok (<[lit "radon" := false]>
          (<[lit "black" := false]> (<[lit "flake8" := false]> ∅))).
Proof.
  split; [|split].
  - apply (tools_are_probed Fixtures.radon_half_host Fixtures.st0
             (Exits 100 0 [] []) (Exits 100 0 [] [])
             (Exits 200 0 (Fixtures.bytes_of Fixtures.mi_report) []));
      [vm_compute; reflexivity ..|].
    intros c e Hc ->.
    repeat (apply elem_of_cons in Hc as [Hc|Hc]; [discriminate Hc|]).
    by apply elem_of_nil in Hc.
  - apply (tools_are_probed Fixtures.bare_host Fixtures.st0
             (Fixtures.missing "tool") (Fixtures.missing "tool")
             (Fixtures.missing "tool")); [reflexivity ..|].
    intros c e Hc ->.
    repeat (apply elem_of_cons in Hc as [Hc|Hc]; [by injection Hc as ->|]).
    by apply elem_of_nil in Hc.
  - apply (tools_are_probed Fixtures.crashing_host Fixtures.st0
             (Exits 100 1 [] (Fixtures.bytes_of "Traceback"))
             (Exits 100 1 [] (Fixtures.bytes_of "Traceback"))
             (Exits 100 1 [] (Fixtures.bytes_of "Traceback")));
      [reflexivity ..|].
    intros c e Hc ->.
    repeat (apply elem_of_cons in Hc as [Hc|Hc]; [discriminate Hc|]).
    by apply elem_of_nil in Hc.
Defined.

(** X14.  Only a probe that times out or does not find the program is
    taken as "not available".  When a probe of one of the three tools
    fails with any other exception (the program may not be executed, say),
    [check_dependencies] does not return a dict: it raises. *)
Theorem probe_error_escapes (E : Env) (tool : pystr) (e : exn) :
  tool ∈ [lit "flake8"; lit "black"; lit "radon"] ->
  (forall n, spawn E n [tool; lit "--version"] None = CannotRun e) ->
  isinstance e TimeoutExpired = false ->
  isinstance e FileNotFoundError = false ->
  isinstance e UnicodeDecodeError = false ->
  forall st, exists e' st', check_dependencies E st = (Raise e', st').
Proof.
  intros Htool Hspawn H1 H2 H3 st.
  unfold check_dependencies, scope.
  match goal with |- context [for_each _ ?b] => set (body := b) end.
  destruct (for_each_raises _ body tool Htool) with (s := (∅ : gmap pystr bool, st))
    as (e' & s' & Hloop).
  - intros s. exists e. eexists. unfold body.
    unfold try_except, lift, subprocess_run, mbind, Mon_bind, raise.
    rewrite Hspawn, H3. cbn [fst snd]. rewrite H1, H2. reflexivity.
  - exists e', (snd s'). unfold mbind, Mon_bind. by rewrite Hloop.
Qed.

Lemma probe_error_escapes_witness :
  exists e' st',
    check_dependencies Fixtures.denied_host Fixtures.st0 = (Raise e', st').
Proof.
  apply (probe_error_escapes Fixtures.denied_host (lit "black") Fixtures.denied).
  - apply elem_of_cons. right. apply elem_of_cons. by left.
  - reflexivity.
  - reflexivity.
  - reflexivity.
  - reflexivity.
Defined.

(** ** Temporary files on the normal paths *)

(** X15.  Once its temporary file is written, [analyze_python_code]
    returns with that file removed and with every other file and every
    directory as it was, whatever the three tools did in between (missing,
    timed out, printed nonsense): the [finally] clause runs on every
    path.  With a fresh temporary name the files are those from before
    the call. *)
Theorem analysis_removes_its_file (E : Env) (code : pystr) (st : state)
    (path : pystr) (st1 : state) :
  named_temporary_file E (lit ".py") code st = (Ok path, st1) ->
  (forall n, io_error E n (Unlink path) = None) ->
  exists r st',
    analyze_python_code E code st = (Ok r, st') /\
    files st' = delete path (files st) /\
    dirs st' = dirs st /\
    (files st !! path = None -> files st' = files st).
Proof.
  intros Htmp Hio. unfold analyze_python_code.
  rewrite (bind_ok _ _ _ _ _ Htmp). unfold try_finally.
  destruct (analyses_return E code path st1) as (r & st2 & Hbody).
  rewrite Hbody.
  destruct (analyses_keep_fs E code path _ _ _ Hbody) as [Hf Hd].
  cbn [id] in Hf, Hd.
  destruct (named_temporary_file_ok E _ _ _ _ _ Htmp) as (_ & Hf1 & Hd1 & _).
  assert (files st2 !! path = Some code) as Hfile.
  { rewrite Hf, Hf1. apply lookup_insert_eq. }
  unfold mbind, Mon_bind, path_exists. rewrite Hfile. simpl.
  unfold unlink, io. rewrite Hio. simpl. rewrite Hfile.
  exists r. eexists. split; [reflexivity|]. simpl.
  assert (delete path (files st2) = delete path (files st)) as Hdel.
  { by rewrite Hf, Hf1, !delete_insert_eq. }
  split; [exact Hdel|]. split; [congruence|].
  intros Hfresh. rewrite Hdel. by apply delete_id.
Qed.

Lemma analysis_removes_its_file_witness :
  exists r st',
    analyze_python_code Fixtures.stalled_host Fixtures.hello Fixtures.st0
    = (Ok r, st') /\
    files st' = ∅.
Proof.
  destruct (analysis_removes_its_file Fixtures.stalled_host Fixtures.hello
              Fixtures.st0 Fixtures.temp_py
              (snd (named_temporary_file Fixtures.stalled_host (lit ".py")
                      Fixtures.hello Fixtures.st0)))
    as (r & st' & Hrun & _ & _ & Hfiles).
  - reflexivity.
  - intros n. reflexivity.
  - exists r, st'. split; [exact Hrun|]. by apply Hfiles.
Defined.





(** X18.  The messages that name the runtime.  When the version probe of
    [execute_javascript_code] or [execute_java_code] runs and exits with a
    code other than 0, the function returns an empty output and the
    message that the runtime is not installed or not in PATH; the probe is
    the only thing it did: no file is written and the user's code is not
    run. *)
Theorem runtime_probe_fails (E : Env) (code : pystr) (st : state)
    (ms : N) (rc : Z) (out err : pybytes) :
  rc <> 0%Z ->
  (spawn E (tick st) [lit "node"; lit "--version"] None = Exits ms rc out err ->
   execute_javascript_code E code st
   = (Ok (VStr [], VStr (lit "Error: Node.js is not installed or not in PATH")),
      emit (Spawn [lit "node"; lit "--version"] None true None) st)) /\
  (spawn E (tick st) [lit "java"; lit "--version"] None = Exits ms rc out err ->
   execute_java_code E code st
   = (Ok (VStr [], VStr (lit "Error: Java is not installed or not in PATH")),
      emit (Spawn [lit "java"; lit "--version"] None true None) st)).
Proof.
  intros Hrc. apply Z.eqb_neq in Hrc. split; intros Hspawn.
  - unfold execute_javascript_code.
    erewrite try_except_ok; [reflexivity|].
    rewrite (bind_ok _ _ _ _ _ (run_decoded_text E _ None _ _ _ _ _ Hspawn eq_refl)).
    cbn [returncode]. by rewrite Hrc.
  - unfold execute_java_code.
    erewrite try_except_ok; [reflexivity|].
    rewrite (bind_ok _ _ _ _ _ (run_decoded_text E _ None _ _ _ _ _ Hspawn eq_refl)).
    cbn [returncode]. by rewrite Hrc.
Qed.

Lemma runtime_probe_fails_witness :
  fst (execute_javascript_code Fixtures.crashing_host Fixtures.hello_js
         Fixtures.st0)
  = Ok (VStr [], VStr (lit "Error: Node.js is not installed or not in PATH")) /\
  fst (execute_java_code Fixtures.crashing_host Fixtures.java_broken
         Fixtures.st0)
  = Ok (VStr [], VStr (lit "Error: Java is not installed or not in PATH")).
Proof.
  split.
  - rewrite (proj1 (runtime_probe_fails Fixtures.crashing_host
                      Fixtures.hello_js Fixtures.st0 100 1 []
                      (Fixtures.bytes_of "Traceback") ltac:(discriminate)));
      reflexivity.
  - rewrite (proj2 (runtime_probe_fails Fixtures.crashing_host
                      Fixtures.java_broken Fixtures.st0 100 1 []
                      (Fixtures.bytes_of "Traceback") ltac:(discriminate)));
      reflexivity.
Defined.

Lemma starts_with_app p s : starts_with p (p ++ s) = true.
Proof. induction p as [|a p IH]; [done|]. simpl. by rewrite N.eqb_refl. Qed.

(** X19.  The normal path of [execute_java_code].  The runtime answers the
    probe with code 0, the source has a public class, the temporary
    directory is made and the source written, the compiler exits with code
    0, the class runs to its end within ten seconds and the directory can
    be removed: the function returns the two streams of the run, whatever
    its exit code, the temporary directory is gone with every file in it,
    and all other files and directories are as before. *)
Theorem java_run_cleans_up (E : Env) (code : pystr) (st : state)
    (chk : CompletedProcess) (st1 : state) (class_name temp_dir : pystr)
    (st2 st3 : state) (cr : CompletedProcess) (st4 : state)
    (rr : CompletedProcess) (st5 : state) :
  let java_file := path_join temp_dir (class_name ++ lit ".java") in
  run_decoded E [lit "java"; lit "--version"] None st = (Ok chk, st1) ->
  returncode chk = 0%Z ->
  search_public_class E code = Some class_name ->
  mkdtemp E st1 = (Ok temp_dir, st2) ->
  open_write E java_file code st2 = (Ok tt, st3) ->
  run_decoded E [lit "javac"; lit "-encoding"; lit "UTF-8"; java_file]
              (Some 10%N) st3 = (Ok cr, st4) ->
  returncode cr = 0%Z ->
  run_decoded E [lit "java"; lit "-cp"; temp_dir; class_name] (Some 10%N) st4
  = (Ok rr, st5) ->
  io_error E (tick st5) (Rmtree temp_dir) = None ->
  exists st6,
    execute_java_code E code st = (Ok (stdout rr, stderr rr), st6) /\
    dirs st6 = dirs st ∖ {[temp_dir]} /\
    (forall p, inside temp_dir p = true -> files st6 !! p = None) /\
    (forall p, inside temp_dir p = false -> files st6 !! p = files st !! p).
Proof.
  intros java_file Hprobe Hrc Hcls Hdir Hwrite Hcomp Hok Hrun Hio.
  destruct (keeps_fs_run_decoded E _ _ _ _ _ Hprobe) as [F1 D1].
  destruct (mkdtemp_ok E _ _ _ Hdir) as (_ & F2 & D2).
  destruct (open_write_ok E _ _ _ _ Hwrite) as (_ & F3 & D3).
  destruct (keeps_fs_run_decoded E _ _ _ _ _ Hcomp) as [F4 D4].
  destruct (keeps_fs_run_decoded E _ _ _ _ _ Hrun) as [F5 D5].
  cbn [id] in F1, D1, F4, D4, F5, D5.
  assert (temp_dir ∈ dirs st5) as Hin.
  { rewrite D5, D4, D3, D2. apply elem_of_union_l. by apply elem_of_singleton. }
  assert (inside temp_dir java_file = true) as Hinside.
  { unfold inside, java_file, path_join. rewrite app_assoc.
    apply starts_with_app. }
  exists (State (filter (fun kv => negb (inside temp_dir (fst kv)) = true)
                        (files st5))
                (dirs st5 ∖ {[temp_dir]}) (log (emit (Rmtree temp_dir) st5))).
  split; [|split; [|split]].
  - unfold execute_java_code. erewrite try_except_ok; [reflexivity|].
    rewrite (bind_ok _ _ _ _ _ Hprobe), Hrc. cbn [negb Z.eqb].
    rewrite Hcls, (bind_ok _ _ _ _ _ Hdir).
    fold java_file. rewrite (bind_ok _ _ _ _ _ Hwrite).
    rewrite (bind_ok _ _ _ _ _ Hcomp), Hok. cbn [negb Z.eqb].
    rewrite (bind_ok _ _ _ _ _ Hrun).
    unfold mbind, Mon_bind, rmtree, io. rewrite Hio.
    cbn [dirs files emit log].
    replace (dirs (emit (Rmtree temp_dir) st5)) with (dirs st5) by done.
    replace (files (emit (Rmtree temp_dir) st5)) with (files st5) by done.
    rewrite bool_decide_eq_true_2 by done. reflexivity.
  - cbn [dirs]. rewrite D5, D4, D3, D2, D1.
    apply set_eq. intros x.
    rewrite !elem_of_difference, elem_of_union. tauto.
  - intros p Hp. cbn [files]. apply map_lookup_filter_None_2. right.
    intros x _. cbn [fst]. rewrite Hp. cbn. done.
  - intros p Hp. cbn [files].
    assert (files st5 !! p = files st !! p) as <-.
    { rewrite F5, F4, F3, F2, F1.
      rewrite !lookup_insert_ne by (intros ->; congruence). done. }
    destruct (files st5 !! p) as [x|] eqn:Hx.
    + apply map_lookup_filter_Some_2; [done|]. cbn [fst]. by rewrite Hp.
    + apply map_lookup_filter_None_2. by left.
Qed.

Lemma java_run_cleans_up_witness :
  exists st6,
    execute_java_code Fixtures.java_ok_host Fixtures.java_hello Fixtures.st0
    = (Ok (VStr (lit "1"), VStr []), st6) /\
    dirs st6 = ∅ ∖ {[Fixtures.tmp 1 []]}.
Proof.
  set (E := Fixtures.java_ok_host).
  pose (s1 := snd (run_decoded E [lit "java"; lit "--version"] None Fixtures.st0)).
  pose (s2 := snd (mkdtemp E s1)).
  pose (file := path_join (Fixtures.tmp 1 []) (lit "Main" ++ lit ".java")).
  pose (s3 := snd (open_write E file Fixtures.java_hello s2)).
  pose (s4 := snd (run_decoded E [lit "javac"; lit "-encoding"; lit "UTF-8"; file]
                     (Some 10%N) s3)).
  pose (s5 := snd (run_decoded E [lit "java"; lit "-cp"; Fixtures.tmp 1 [];
                                  lit "Main"] (Some 10%N) s4)).
  destruct (java_run_cleans_up E Fixtures.java_hello Fixtures.st0
              (Completed 0 (VStr (lit "openjdk 21")) (VStr [])) s1
              (lit "Main") (Fixtures.tmp 1 []) s2 s3
              (Completed 0 (VStr []) (VStr [])) s4
              (Completed 0 (VStr (lit "1")) (VStr [])) s5)
    as (st6 & Hrun & Hdirs & _).
  - vm_compute. reflexivity.
  - reflexivity.
  - vm_compute. reflexivity.
  - vm_compute. reflexivity.
  - vm_compute. reflexivity.
  - vm_compute. reflexivity.
  - reflexivity.
  - vm_compute. reflexivity.
  - reflexivity.
  - exists st6. split; [exact Hrun|exact Hdirs].
Defined.

(** ** The class name of a Java source *)

Section ClassName.
Context (E : Env).

Lemma take_while_split cls s :
  exists rest,
    s = take_while cls s ++ rest /\
    forallb cls (take_while cls s) = true /\
    (forall c rest', rest = c :: rest' -> cls c = false).
Proof.
  induction s as [|c s (rest & Hs & Hall & Hnext)]; simpl.
  - exists []. by split_and!.
  - destruct (cls c) eqn:Hc.
    + exists rest. simpl. rewrite Hc, Hall. split_and!; [by f_equal|done|done].
    + exists (c :: s). split_and!; [done|done|]. by intros c' r' [= <- _].
Qed.

Lemma word_group_run s name :
  word_group E s = Some name ->
  exists rest,
    s = name ++ rest /\ name <> [] /\ forallb (is_word E) name = true /\
    (forall c rest', rest = c :: rest' -> is_word E c = false).
Proof.
  unfold word_group. intros H.
  destruct (take_while_split (is_word E) s) as (rest & Hs & Hall & Hnext).
  destruct (take_while (is_word E) s) as [|w ws] eqn:Ht; [discriminate|].
  injection H as <-. by exists rest.
Qed.

Lemma match_public_class_group s name :
  match_public_class E s = Some name ->
  exists ws1 ws2 rest,
    s = lit "public" ++ ws1 ++ lit "class" ++ ws2 ++ name ++ rest /\
    ws1 <> [] /\ forallb (is_space E) ws1 = true /\
    ws2 <> [] /\ forallb (is_space E) ws2 = true /\
    name <> [] /\ forallb (is_word E) name = true /\
    (forall c rest', rest = c :: rest' -> is_word E c = false).
Proof.
  unfold match_public_class. intros H.
  apply bind_Some in H as (r0 & H0 & H).
  apply strip_prefix_Some in H0 as ->.
  apply plus_then_Some in H as (ws1 & r1 & -> & N1 & S1 & H).
  apply bind_Some in H as (r2 & H2 & H).
  apply strip_prefix_Some in H2 as ->.
  apply plus_then_Some in H as (ws2 & r3 & -> & N2 & S2 & H).
  apply word_group_run in H as (rest & -> & N3 & W & Hnext).
  by exists ws1, ws2, rest.
Qed.

(** The search returns the group of the first position where the pattern
    matches. *)
Lemma search_public_class_leftmost code name :
  search_public_class E code = Some name ->
  exists k,
    (k <= List.length code)%nat /\
    match_public_class E (drop k code) = Some name /\
    forall j, (j < k)%nat -> match_public_class E (drop j code) = None.
Proof.
  induction code as [|c code IH].
  - rewrite search_public_class_nil.
    destruct (match_public_class E []) eqn:H; [|discriminate].
    intros [= ->]. exists 0%nat. split_and!; [done|done|]. lia.
  - rewrite search_public_class_cons.
    destruct (match_public_class E (c :: code)) eqn:H.
    + intros [= ->]. exists 0%nat. split_and!; [simpl; lia|done|]. lia.
    + intros Hs. destruct (IH Hs) as (k & Hk & Hm & Hbefore).
      exists (S k). split_and!; [simpl; lia|done|].
      intros [|j] Hj; [done|]. simpl. apply Hbefore. lia.
Qed.
End ClassName.

(** X20.  The name [execute_java_code] gives to the source file and to the
    class it runs.  When the search for [public\s+class\s+(\w+)] succeeds,
    the name is the run of word characters, not empty and as long as
    possible, that follows the first place in the source where the word
    [public], white space, the word [class] and white space stand in a
    row: no such declaration starts further to the left. *)
Theorem class_name_is_first_declared (E : Env) (code name : pystr) :
  search_public_class E code = Some name ->
  exists pre ws1 ws2 rest,
    code = pre ++ lit "public" ++ ws1 ++ lit "class" ++ ws2 ++ name ++ rest /\
    ws1 <> [] /\ forallb (is_space E) ws1 = true /\
    ws2 <> [] /\ forallb (is_space E) ws2 = true /\
    name <> [] /\ forallb (is_word E) name = true /\
    (forall c rest', rest = c :: rest' -> is_word E c = false) /\
    (forall j, (j < List.length pre)%nat ->
               match_public_class E (drop j code) = None).
Proof.
  intros Hs.
  destruct (search_public_class_leftmost E _ _ Hs) as (k & Hk & Hm & Hbefore).
  destruct (match_public_class_group E _ _ Hm)
    as (ws1 & ws2 & rest & Hdrop & N1 & S1 & N2 & S2 & N3 & W & Hnext).
  exists (take k code), ws1, ws2, rest.
  split; [by rewrite <- Hdrop, take_drop|].
  split_and!; try done.
  intros j Hj. apply Hbefore. rewrite length_take in Hj. lia.
Qed.

Lemma class_name_is_first_declared_witness :
  exists pre ws1 ws2 rest,
    Fixtures.java_hello
    = pre ++ lit "public" ++ ws1 ++ lit "class" ++ ws2 ++ lit "Main" ++ rest /\
    ws1 <> [] /\ ws2 <> [] /\ pre = [].
Proof.
  destruct (class_name_is_first_declared Fixtures.java_ok_host
              Fixtures.java_hello (lit "Main"))
    as (pre & ws1 & ws2 & rest & Hcode & N1 & _ & N2 & _ & _ & _ & _ & Hleft).
  - vm_compute. reflexivity.
  - exists pre, ws1, ws2, rest. split_and!; try done.
    destruct pre as [|c pre]; [done|].
    specialize (Hleft 0%nat ltac:(simpl; lia)). vm_compute in Hleft.
    discriminate Hleft.
Defined.

(** ** The two buttons *)

Section ButtonLemmas.
Context (E : Env).

(** [not code.strip()] holds exactly for a text of white space only. *)
Lemma blank_spec code :
  Handlers.blank E code = true <-> forallb (is_space E) code = true.
Proof.
  unfold Handlers.blank. cbn [truthy]. rewrite negb_involutive.
  rewrite bool_decide_eq_true. apply strip_nil.
Qed.

Lemma record_run_ok (run : M (pyval * pyval)) s st out err st' :
  run st = (Ok (out, err), st') ->
  Handlers.record_run run (s, st)
  = (Ok tt,
     (Handlers.Session (Some out) (Some err) (Handlers.analysis s)
        (Handlers.banners s
         ++ [if truthy err
             then Handlers.ShowError (lit "Code execution completed with errors.")
             else Handlers.ShowSuccess (lit "Code executed successfully!")]),
      st')).
Proof.
  intros H. unfold Handlers.record_run.
  rewrite (bind_ok _ _ _ _ _ (lift_run _ s _ _ _ H)).
  unfold mbind, Mon_bind, Handlers.set_execution_output,
    Handlers.set_execution_error, Handlers.show.
  cbn [fst snd]. by destruct (truthy err).
Qed.

Lemma language_tag_dispatch lang code :
  (if str_eqb (language_tag lang) (lit "python")
   then Handlers.record_run (execute_python_code E code)
   else if str_eqb (language_tag lang) (lit "javascript")
   then Handlers.record_run (execute_javascript_code E code)
   else if str_eqb (language_tag lang) (lit "java")
   then Handlers.record_run (execute_java_code E code)
   else Handlers.show
          (Handlers.ShowError (lit "Code execution not supported for "
                               ++ language_tag lang)))
  = Handlers.record_run (execute E lang code).
Proof. by destruct lang. Qed.
End ButtonLemmas.

(** X21.  The run button on code that is not blank, in one of the three
    languages.  [handle_run_code] calls the runner of that language once
    and stores the pair it returns in [execution_output] and
    [execution_error]; it shows one banner, the success one exactly when
    the error text is empty, and leaves the analysis results alone. *)
Theorem run_button_records_the_run (E : Env) (lang : language) (code : pystr)
    (s : Handlers.session) (st : state) (out err : pyval) (st' : state) :
  Handlers.blank E code = false ->
  execute E lang code st = (Ok (out, err), st') ->
  Handlers.handle_run_code E code (language_tag lang) (s, st)
  = (Ok tt,
     (Handlers.Session (Some out) (Some err) (Handlers.analysis s)
        (Handlers.banners s
         ++ [if truthy err
             then Handlers.ShowError (lit "Code execution completed with errors.")
             else Handlers.ShowSuccess (lit "Code executed successfully!")]),
      st')).
Proof.
  intros Hblank Hrun. unfold Handlers.handle_run_code. rewrite Hblank.
  rewrite language_tag_dispatch. apply try_except_ok.
  by apply record_run_ok.
Qed.

Lemma run_button_records_the_run_witness :
  fst (snd (Handlers.handle_run_code Fixtures.latin1_host Fixtures.hello
              (lit "python") (Fixtures.fresh_session, Fixtures.st0)))
  = Handlers.Session
      (Some (VStr (Codec.decode_replace [x63; x61; x66; xe9]))) (Some (VStr []))
      None [Handlers.ShowSuccess (lit "Code executed successfully!")].
Proof.
  change (lit "python") with (language_tag Python).
  rewrite (run_button_records_the_run Fixtures.latin1_host Python
             Fixtures.hello Fixtures.fresh_session Fixtures.st0
             (VStr (Codec.decode_replace [x63; x61; x66; xe9])) (VStr [])
             (snd (execute Fixtures.latin1_host Python Fixtures.hello
                     Fixtures.st0))).
  - reflexivity.
  - vm_compute. reflexivity.
  - vm_compute. reflexivity.
Defined.

(** X22.  When the buttons do no work.  On code of white space only (the
    empty text included) either handler shows its "Please enter some
    code" banner and returns.  On other code, [handle_run_code] with a
    language tag other than [python], [javascript], [java] (the tags are
    compared as they are: [Python] is another tag) shows that execution is
    not supported for it, and [handle_analyze_code] with a tag other than
    [python] shows that analysis is only available for Python.  In all
    these cases no process is started, no file is touched and the session
    fields are as before. *)
Theorem buttons_without_work (E : Env) (code language : pystr)
    (s : Handlers.session) (st : state) :
  (forallb (is_space E) code = true ->
   Handlers.handle_run_code E code language (s, st)
   = (Ok tt, (with_banner s (Handlers.ShowError
                               (lit "Please enter some code to run.")), st)) /\
   Handlers.handle_analyze_code E code language (s, st)
   = (Ok tt, (with_banner s (Handlers.ShowError
                               (lit "Please enter some code to analyze.")), st))) /\
  (forallb (is_space E) code = false ->
   (language <> lit "python" -> language <> lit "javascript" ->
    language <> lit "java" ->
    Handlers.handle_run_code E code language (s, st)
    = (Ok tt, (with_banner s (Handlers.ShowError
                                (lit "Code execution not supported for "
                                 ++ language)), st))) /\
   (language <> lit "python" ->
    Handlers.handle_analyze_code E code language (s, st)
    = (Ok tt, (with_banner s
                 (Handlers.ShowWarning
                    (lit "Code analysis is currently only available for Python.")),
               st)))).
Proof.
  split.
  - intros Hblank. apply blank_spec in Hblank.
    unfold Handlers.handle_run_code, Handlers.handle_analyze_code.
    by rewrite Hblank.
  - intros Hcode.
    assert (Handlers.blank E code = false) as Hblank.
    { destruct (Handlers.blank E code) eqn:H; [|done].
      apply blank_spec in H. congruence. }
    unfold Handlers.handle_run_code, Handlers.handle_analyze_code.
    rewrite Hblank. split.
    + intros H1 H2 H3. unfold str_eqb.
      rewrite !bool_decide_eq_false_2 by done. reflexivity.
    + intros H1. unfold str_eqb.
      rewrite bool_decide_eq_false_2 by done. reflexivity.
Qed.

Lemma buttons_without_work_witness :
  fst (snd (Handlers.handle_run_code Fixtures.bare_host (lit "  ") (lit "python")
              (Fixtures.fresh_session, Fixtures.st0)))
  = with_banner Fixtures.fresh_session
      (Handlers.ShowError (lit "Please enter some code to run.")) /\
  Handlers.handle_run_code Fixtures.bare_host Fixtures.hello (lit "Python")
    (Fixtures.fresh_session, Fixtures.st0)
  = (Ok tt, (with_banner Fixtures.fresh_session
               (Handlers.ShowError (lit "Code execution not supported for Python")),
             Fixtures.st0)).
Proof.
  split.
  - rewrite (proj1 (proj1 (buttons_without_work Fixtures.bare_host (lit "  ")
                             (lit "python") Fixtures.fresh_session Fixtures.st0)
                      eq_refl)).
    reflexivity.
  - apply (proj1 (proj2 (buttons_without_work Fixtures.bare_host Fixtures.hello
                           (lit "Python") Fixtures.fresh_session Fixtures.st0)
                    eq_refl)); discriminate.
Defined.

(** X23.  The analyze button on Python code that is not blank.  When
    [analyze_python_code] returns, its report is stored in
    [analysis_results] and the success banner is shown.  When it raises
    (its temporary file cannot be made, say), the handler does not raise:
    it shows ["Analysis failed: "] followed by the text of the exception,
    and [analysis_results] keeps what it held before the click. *)
Theorem analyze_button_outcome (E : Env) (code : pystr)
    (s : Handlers.session) (st : state) :
  forallb (is_space E) code = false ->
  (forall r st',
     analyze_python_code E code st = (Ok r, st') ->
     Handlers.handle_analyze_code E code (lit "python") (s, st)
     = (Ok tt,
        (Handlers.Session (Handlers.execution_output s)
           (Handlers.execution_error s) (Some r)
           (Handlers.banners s
            ++ [Handlers.ShowSuccess (lit "Code analysis completed!")]),
         st'))) /\
  (forall e st',
     analyze_python_code E code st = (Raise e, st') ->
     Handlers.handle_analyze_code E code (lit "python") (s, st)
     = (Ok tt,
        (with_banner s (Handlers.ShowError
                          (lit "Analysis failed: " ++ exn_str e)), st'))).
Proof.
  intros Hcode.
  assert (Handlers.blank E code = false) as Hblank.
  { destruct (Handlers.blank E code) eqn:H; [|done].
    apply blank_spec in H. congruence. }
  unfold Handlers.handle_analyze_code. rewrite Hblank.
  assert (str_eqb (lit "python") (lit "python") = true) as -> by done.
  cbn [negb]. split.
  - intros r st' Hrun. apply try_except_ok.
    by rewrite (bind_ok _ _ _ _ _ (lift_run _ s _ _ _ Hrun)).
  - intros e st' Hrun.
    rewrite (try_except_raise _ _ _ e (s, st')); [reflexivity|].
    apply bind_raise. by apply lift_run.
Qed.

Lemma analyze_button_outcome_witness :
  fst (snd (Handlers.handle_analyze_code Fixtures.full_disk Fixtures.hello
              (lit "python") (Fixtures.fresh_session, Fixtures.st0)))
  = with_banner Fixtures.fresh_session
      (Handlers.ShowError
         (lit "Analysis failed: [Errno 28] No space left on device")).
Proof.
  rewrite (proj2 (analyze_button_outcome Fixtures.full_disk Fixtures.hello
                    Fixtures.fresh_session Fixtures.st0 eq_refl)
             (Exn OSError (lit "[Errno 28] No space left on device"))
             (snd (analyze_python_code Fixtures.full_disk Fixtures.hello
                     Fixtures.st0))).
  - reflexivity.
  - vm_compute. reflexivity.
Defined.

(** X24.  [handle_run_code] returns for every code, language tag, session
    and host, and shows exactly one banner; [analysis_results] is as
    before.  The banner is never the ["Execution failed: ..."] one of its
    [except] clause: the runners catch what they raise, so no exception
    reaches the handler. *)
Theorem run_button_shows_one_banner (E : Env) (code language : pystr)
    (s : Handlers.session) (st : state) :
  exists s' st' b,
    Handlers.handle_run_code E code language (s, st) = (Ok tt, (s', st')) /\
    Handlers.banners s' = Handlers.banners s ++ [b] /\
    Handlers.analysis s' = Handlers.analysis s /\
    forall text, b <> Handlers.ShowError (lit "Execution failed: " ++ text).
Proof.
  assert (forall lang,
            exists s' st' b,
              try_except (Handlers.record_run (execute E lang code))
                (fun e =>
                   Handlers.show
                     (Handlers.ShowError (lit "Execution failed: " ++ exn_str e)) ;;
                   Handlers.set_execution_error (VStr (exn_str e))) (s, st)
              = (Ok tt, (s', st')) /\
              Handlers.banners s' = Handlers.banners s ++ [b] /\
              Handlers.analysis s' = Handlers.analysis s /\
              forall text,
                b <> Handlers.ShowError (lit "Execution failed: " ++ text))
    as Hruns.
  { intros lang. destruct (execute_returns E lang code st) as ([out err] & st' & Hrun).
    eexists _, st', _. split.
    - apply try_except_ok. by apply record_run_ok.
    - split_and!; [reflexivity|reflexivity|].
      intros text. by destruct (truthy err). }
  unfold Handlers.handle_run_code.
  destruct (Handlers.blank E code).
  { eexists _, st, _. split_and!; [reflexivity|reflexivity|reflexivity|done]. }
  unfold str_eqb.
  destruct (decide (language = lit "python")) as [->|H1].
  { rewrite bool_decide_eq_true_2 by done. apply (Hruns Python). }
  rewrite (bool_decide_eq_false_2 _ H1).
  destruct (decide (language = lit "javascript")) as [->|H2].
  { rewrite bool_decide_eq_true_2 by done. apply (Hruns JavaScript). }
  rewrite (bool_decide_eq_false_2 _ H2).
  destruct (decide (language = lit "java")) as [->|H3].
  { rewrite bool_decide_eq_true_2 by done. apply (Hruns Java). }
  rewrite (bool_decide_eq_false_2 _ H3).
  eexists _, st, _. split_and!; [reflexivity|reflexivity|reflexivity|done].
Qed.

(** ** The text helpers *)

Section FilterLemmas.
Context {A : Type} (P Q : A -> Prop).
Context `{!forall x, Decision (P x)} `{!forall x, Decision (Q x)}.

Lemma filter_length_le (l : list A) :
  (forall x, P x -> Q x) ->
  (List.length (filter P l) <= List.length (filter Q l))%nat.
Proof.
  intros HPQ. induction l as [|x l IH]; [done|].
  rewrite !filter_cons.
  destruct (decide (P x)) as [HP|HP].
  - rewrite decide_True by auto. simpl. lia.
  - destruct (decide (Q x)); simpl; lia.
Qed.
End FilterLemmas.

(** X25.  [truncate_text] returns a text of at most [max_length]
    characters only when [max_length] is at least 3.  A text that fits is
    returned as it is.  A longer one is cut to its first [max_length - 3]
    characters followed by three dots, [max_length] characters in all.
    With [max_length] below 3 the slice [text[:max_length-3]] counts from
    the end, and the result is longer than [max_length]. *)
Theorem truncate_text_length (text : pystr) (max_length : Z) :
  let n := Z.of_nat (List.length text) in
  let result := Utils.truncate_text text max_length in
  ((n <= max_length)%Z -> result = text) /\
  ((3 <= max_length < n)%Z ->
   result = take (Z.to_nat (max_length - 3)) text ++ lit "..." /\
   Z.of_nat (List.length result) = max_length) /\
  ((max_length < 3)%Z -> (max_length < n)%Z ->
   result = take (Z.to_nat (n + max_length - 3)) text ++ lit "..." /\
   (max_length < Z.of_nat (List.length result))%Z).
Proof.
  intros n result. unfold result, Utils.truncate_text, Utils.slice_to.
  fold n. split; [|split].
  - intros H. apply Z.leb_le in H. by rewrite H.
  - intros [H3 Hn].
    rewrite (proj2 (Z.leb_gt _ _) Hn).
    rewrite (proj2 (Z.ltb_ge _ _)) by lia.
    split; [done|]. rewrite length_app, length_take. unfold n in Hn.
    change (List.length (lit "...")) with 3%nat. lia.
  - intros H3 Hn.
    rewrite (proj2 (Z.leb_gt _ _) Hn).
    rewrite (proj2 (Z.ltb_lt _ _)) by lia.
    replace (n + (max_length - 3))%Z with (n + max_length - 3)%Z by lia.
    split; [done|]. rewrite length_app, length_take. unfold n in *.
    change (List.length (lit "...")) with 3%nat. lia.
Qed.

Lemma truncate_text_length_witness :
  Utils.truncate_text (lit "abcdefgh") 6 = lit "abc..." /\
  Utils.truncate_text (lit "abcdef") 2 = lit "abcde...".
Proof.
  split.
  - apply (proj1 (proj1 (proj2 (truncate_text_length (lit "abcdefgh") 6))
                    ltac:(simpl; lia))).
  - apply (proj1 (proj2 (proj2 (truncate_text_length (lit "abcdef") 2))
                    ltac:(lia) ltac:(simpl; lia))).
Defined.

(** X26.  [get_code_statistics] on a text that is not empty: there is one
    line more than there are newline characters (a text that ends with a
    newline has a last, empty line), there are no more comment lines than
    non-empty lines and no more of these than lines, and the character
    count is the length of the text, newlines included. *)
Theorem code_statistics_counts (E : Env) (code : pystr) :
  code <> [] ->
  let stats := Utils.get_code_statistics E code in
  Utils.total_lines stats = S (occurrences 10 code) /\
  (Utils.comment_lines stats <= Utils.non_empty_lines stats)%nat /\
  (Utils.non_empty_lines stats <= Utils.total_lines stats)%nat /\
  Utils.character_count stats = List.length code.
Proof.
  intros Hcode stats. unfold stats, Utils.get_code_statistics.
  cbn [truthy]. rewrite bool_decide_eq_false_2 by done. cbn [negb].
  cbn [Utils.total_lines Utils.non_empty_lines Utils.comment_lines
       Utils.character_count].
  split_and!.
  - unfold split. apply (split_from_length 10 code None []).
  - apply filter_length_le. intros ln Hln.
    destruct (strip (is_space E) ln); [discriminate Hln|done].
  - apply length_filter.
  - reflexivity.
Qed.

Lemma code_statistics_counts_witness :
  Utils.get_code_statistics Fixtures.bare_host Fixtures.sample
  = Utils.Statistics 12 11 0 (List.length Fixtures.sample) /\
  Utils.total_lines
    (Utils.get_code_statistics Fixtures.bare_host Fixtures.sample)
  = S (occurrences 10 Fixtures.sample).
Proof.
  split; [vm_compute; reflexivity|].
  apply (code_statistics_counts Fixtures.bare_host Fixtures.sample).
  discriminate.
Defined.
